(** * The Jamf Pro Terraform provider: account and department reconcilers

    A shallow embedding of the CRUD callbacks of

      - internal/endpoints/accounts/accounts_resource.go
      - department_resource.go (package departments)

    The callbacks work on a mutable resource handle [d] and talk to the
    remote service through the client [conn]; both become explicit state.
    Every call on the client is recorded, in order, so that statements
    about which remote calls an invocation makes can be written down.

    What lies outside the two files is modelled as follows.

      - [retry.RetryContext]: the duration of a timeout is replaced by the
        number of attempts that fit in it; the context is not cancelled.
        Each loop has its own number, also a loop that runs inside an
        attempt of another, where the clock would be shared; a timeout
        with room for no attempt makes none.
      - [schema.ResourceData]: the identifier, a finite map from attribute
        name to value, read and written at the type the schema gives the
        attribute, the four timeouts, and the hash of the items of each
        attribute that is a set.
      - [schema.Set]: the items under the decimal code of their hash, one
        for each code, listed in the order of the codes as strings.
      - [strconv.Atoi], [strconv.Itoa] and [strconv.Quote] for a 64-bit
        [int]; [Quote] as it is on ASCII and on printable runes.
      - the Jamf Pro client: a transition function on an abstract remote
        state, answering each call with the pair Go returns.
      - a nil pointer that is used, or a type assertion that does not hold,
        is a panic.

    Logging and printing leave no trace in the model. *)

From Stdlib Require Import ZArith Lia Ascii String OrderedTypeEx.
From stdpp Require Import base strings gmap list.

Local Open Scope string_scope.
Local Open Scope Z_scope.

Set Warnings "-register-all".

(** ** Go errors *)

(** An error value is seen by the callbacks through the type assertion
    to a pointer to [http_client.APIError], through the fields [StatusCode] and
    [Message] of such an error, and through [err.Error()].  The value
    carries these observations; [text] is what [Error()] returns. *)
Inductive error : Type :=
| APIError (StatusCode : Z) (Message : string) (text : string)
| errorString (text : string).

Definition Error (e : error) : string :=
  match e with
  | APIError _ _ text => text
  | errorString text => text
  end.

(** The type assertion of [err] to a pointer to [http_client.APIError]. *)
Definition asAPIError (e : error) : option (Z * string) :=
  match e with
  | APIError code msg _ => Some (code, msg)
  | errorString _ => None
  end.

Definition isAPIError (e : error) : bool :=
  match asAPIError e with Some _ => true | None => false end.

(** ** strconv *)

Module strconv.

Definition digitChar (n : Z) : ascii := ascii_of_nat (Z.to_nat (48 + n)).

Fixpoint digitsOf (fuel : nat) (n : Z) (acc : string) : string :=
  match fuel with
  | O => acc
  | S fuel' =>
      let acc' := String (digitChar (n mod 10)) acc in
      if n / 10 =? 0 then acc' else digitsOf fuel' (n / 10) acc'
  end.

Definition FormatUint (n : Z) : string :=
  digitsOf (S (Z.to_nat (Z.log2 n))) n "".

(** [strconv.Itoa] *)
Definition Itoa (n : Z) : string :=
  if n <? 0 then String "-" (FormatUint (- n)) else FormatUint n.

Definition digitValue (a : ascii) : option Z :=
  let n := Z.of_nat (nat_of_ascii a) in
  if (48 <=? n) && (n <=? 57) then Some (n - 48) else None.

(** The loop of the fast path of [Atoi]: decimal digits, without a check
    of the range. *)
Fixpoint parseDigits (s : string) (acc : Z) : option Z :=
  match s with
  | EmptyString => Some acc
  | String a s' =>
      match digitValue a with
      | Some v => parseDigits s' (10 * acc + v)
      | None => None
      end
  end.

Definition intMin : Z := - 2 ^ 63.
Definition intMax : Z := 2 ^ 63 - 1.
Definition maxUint64 : Z := 2 ^ 64 - 1.

Definition lowerhex (n : Z) : ascii :=
  match String.get (Z.to_nat n) "0123456789abcdef" with
  | Some a => a
  | None => "0"%char
  end.

(** What [strconv.Quote] writes for one byte.  The quote mark and the
    backslash get a backslash; the other printable ASCII bytes stay; the
    control bytes and [0x7f] get their letter or [\x] and two hex digits.
    A byte from [0x80] on is kept: that is what [Quote] does with the
    bytes of a printable rune, and not what it does with the others. *)
Definition quoteByte (c : ascii) : string :=
  let n := Z.of_nat (nat_of_ascii c) in
  let backslash := ascii_of_nat 92 in
  let escaped (l : ascii) := String backslash (String l EmptyString) in
  if (n =? 34) || (n =? 92) then escaped c
  else if (32 <=? n) && (n <=? 126) then String c EmptyString
  else if 128 <=? n then String c EmptyString
  else if n =? 7 then escaped "a"%char
  else if n =? 8 then escaped "b"%char
  else if n =? 12 then escaped "f"%char
  else if n =? 10 then escaped "n"%char
  else if n =? 13 then escaped "r"%char
  else if n =? 9 then escaped "t"%char
  else if n =? 11 then escaped "v"%char
  else String backslash
         (String "x"%char (String (lowerhex (n / 16))
                        (String (lowerhex (n mod 16)) EmptyString))).

Fixpoint quoteBytes (s : string) : string :=
  match s with
  | EmptyString => EmptyString
  | String c s' => quoteByte c +:+ quoteBytes s'
  end.

(** [strconv.Quote] *)
Definition quote (s : string) : string :=
  let q := String (ascii_of_nat 34) EmptyString in q +:+ quoteBytes s +:+ q.

(** [NumError.Error()] of the two errors of [Atoi]. *)
Definition syntaxError (s : string) : error :=
  errorString ("strconv.Atoi: parsing " +:+ quote s +:+ ": invalid syntax").

Definition rangeError (s : string) : error :=
  errorString ("strconv.Atoi: parsing " +:+ quote s +:+ ": value out of range").

Inductive NumError : Type := ErrSyntax | ErrRange.

(** The leading sign is picked off. *)
Definition splitSign (s : string) : bool * string :=
  match s with
  | String "+" rest => (false, rest)
  | String "-" rest => (true, rest)
  | _ => (false, s)
  end.

(** The loop of [ParseUint] in base 10 and 64 bits: it stops at the first
    byte that is no digit, and at the first digit with which the number
    no longer fits. *)
Fixpoint parseUintLoop (s : string) (n : Z) : Z + NumError :=
  match s with
  | EmptyString => inl n
  | String c s' =>
      match digitValue c with
      | None => inr ErrSyntax
      | Some d =>
          if n >=? maxUint64 / 10 + 1 then inr ErrRange
          else
            let n1 := n * 10 + d in
            if n1 >? maxUint64 then inr ErrRange else parseUintLoop s' n1
      end
  end.

Definition ParseUint (s : string) : Z + NumError :=
  match s with
  | EmptyString => inr ErrSyntax
  | _ => parseUintLoop s 0
  end.

(** [ParseInt(s, 10, 0)], with the errors as [Atoi] renames them. *)
Definition ParseInt (s : string) : Z + error :=
  match s with
  | EmptyString => inr (syntaxError s)
  | _ =>
      let '(neg, body) := splitSign s in
      let cutoff := 2 ^ 63 in
      match ParseUint body with
      | inr ErrSyntax => inr (syntaxError s)
      | r =>
          let un := match r with inl un => un | inr _ => maxUint64 end in
          if negb neg && (un >=? cutoff) then inr (rangeError s)
          else if neg && (un >? cutoff) then inr (rangeError s)
          else inl (if neg then - un else un)
      end
  end.

(** [strconv.Atoi] with a 64-bit [int]: the fast path for a text of fewer
    than 19 bytes, and [ParseInt] for the others. *)
Definition Atoi (s : string) : Z + error :=
  let sLen := String.length s in
  if (0 <? sLen)%nat && (sLen <? 19)%nat then
    let '(neg, body) := splitSign s in
    match body with
    | EmptyString => inr (syntaxError s)
    | _ =>
        match parseDigits body 0 with
        | None => inr (syntaxError s)
        | Some n => inl (if neg then - n else n)
        end
    end
  else ParseInt s.

End strconv.

(** ** diag *)

Module diag.

Inductive Severity : Type := Error_ | Warning.

Record Diagnostic : Type := mkDiagnostic
  { Severity_ : Severity; Summary : string; Detail : string }.

Definition Diagnostics : Type := list Diagnostic.

Definition FromErr (e : error) : Diagnostics :=
  [ mkDiagnostic Error_ (Error e) "" ].

Definition Errorf (msg : string) : Diagnostics :=
  [ mkDiagnostic Error_ msg "" ].

End diag.

(** [fmt.Errorf]: the result is never an [http_client.APIError], also
    when it wraps one with [%w]. *)
Definition Errorf (msg : string) : error := errorString msg.

(** [append(xs, ys...)] *)
Definition append {A : Type} (xs ys : list A) : list A := (xs ++ ys)%list.

(** ** Attribute values and the types of a schema *)

(** What [d.Get] returns and [d.Set] takes: an [interface{}] holding a
    string, a bool, an int, a [[]interface{}] (also for a [schema.Set]:
    the items of its [List()]) or a [map[string]interface{}]. *)
Inductive Value : Type :=
| VNil
| VString (s : string)
| VBool (b : bool)
| VInt (n : Z)
| VList (l : list Value)
| VMap (m : list (string * Value)).

(** [schema.ValueType], with the [Elem] of a list or set folded in; a
    [schema.Resource] element is the table of its fields. *)
Inductive ValueType : Type :=
| TypeString
| TypeBool
| TypeInt
| TypeList (elem : ValueType)
| TypeSet (elem : ValueType)
| TypeResource (fields : list (string * ValueType)).

Definition SchemaMap : Type := list (string * ValueType).

Fixpoint assoc {A : Type} (k : string) (l : list (string * A)) : option A :=
  match l with
  | [] => None
  | (k', a) :: l' => if String.eqb k k' then Some a else assoc k l'
  end.

(** [m[k]] on a [map[string]interface{}]: nil when the key is missing. *)
Definition index (m : list (string * Value)) (k : string) : Value :=
  match assoc k m with Some v => v | None => VNil end.

Fixpoint conforms (t : ValueType) (v : Value) {struct v} : bool :=
  match v with
  | VNil => false
  | VString _ => match t with TypeString => true | _ => false end
  | VBool _ => match t with TypeBool => true | _ => false end
  | VInt _ => match t with TypeInt => true | _ => false end
  | VList l =>
      match t with
      | TypeList e | TypeSet e => forallb (conforms e) l
      | _ => false
      end
  | VMap m =>
      match t with
      | TypeResource fs =>
          forallb (fun '(k, x) =>
                     match assoc k fs with
                     | Some t' => conforms t' x
                     | None => false
                     end) m
      | _ => false
      end
  end.

(** [ValueType.Zero] *)
Definition zeroValue (t : ValueType) : Value :=
  match t with
  | TypeString => VString ""
  | TypeBool => VBool false
  | TypeInt => VInt 0
  | TypeList _ | TypeSet _ => VList []
  | TypeResource _ => VMap []
  end.

Definition isZero (v : Value) : bool :=
  match v with
  | VNil => true
  | VString s => String.eqb s ""
  | VBool b => negb b
  | VInt n => Z.eqb n 0
  | VList l => match l with [] => true | _ => false end
  | VMap m => match m with [] => true | _ => false end
  end.

(** Type assertions [v.(string)], [v.(bool)], [v.([]interface{})] (and
    [v.( *schema.Set).List()]), [v.(map[string]interface{})]. *)
Definition asString (v : Value) : option string :=
  match v with VString s => Some s | _ => None end.
Definition asBool (v : Value) : option bool :=
  match v with VBool b => Some b | _ => None end.
Definition asList (v : Value) : option (list Value) :=
  match v with VList l => Some l | _ => None end.
Definition asMap (v : Value) : option (list (string * Value)) :=
  match v with VMap m => Some m | _ => None end.

(** ** schema.Set *)

(** [-code] on a 64-bit [int]. *)
Definition wrapInt (z : Z) : Z := (z + 2 ^ 63) mod 2 ^ 64 - 2 ^ 63.

(** [Set.hash]: the decimal text of the hash [F] gives the item, made
    non-negative. *)
Definition hashCode (F : Value -> Z) (item : Value) : string :=
  let code := F item in
  let code := if code <? 0 then wrapInt (- code) else code in
  strconv.Itoa code.

(** The map of a [Set], from code to item, held with its codes in the
    order in which [Set.listCode] sorts them, the order of strings.
    [Set.add] leaves the item that is already under a code. *)
Fixpoint setAdd (code : string) (item : Value) (m : list (string * Value))
  : list (string * Value) :=
  match m with
  | [] => [ (code, item) ]
  | (c, v) :: rest =>
      match String.compare code c with
      | Lt => (code, item) :: m
      | Eq => m
      | Gt => (c, v) :: setAdd code item rest
      end
  end.

(** The set [d.Set] builds from a slice: the items are added in the order
    of the slice. *)
Definition newSet (F : Value -> Z) (items : list Value) : list (string * Value) :=
  foldl (fun m item => setAdd (hashCode F item) item m) [] items.

(** [Set.List()] of that set. *)
Definition setList (F : Value -> Z) (items : list Value) : list Value :=
  map snd (newSet F items).

(** The value an attribute of type [t] holds once [v] is set: the items of
    a set are those of the [Set] built from them. *)
Definition asStored (t : ValueType) (F : Value -> Z) (v : Value) : Value :=
  match t with
  | TypeSet _ => match v with VList l => VList (setList F l) | _ => v end
  | _ => v
  end.

(** ** schema.ResourceData *)

(** A timeout is the number of attempts of a retry loop that fit in it. *)
Record ResourceTimeout : Type := mkTimeouts
  { TimeoutCreate : nat; TimeoutRead : nat;
    TimeoutUpdate : nat; TimeoutDelete : nat }.

(** The resource data hold the schema of the resource.  Of it [setFunc]
    keeps, for each attribute that is a set, the function that hashes the
    items: the [Set] of its schema or, when the schema gives none, as for
    the groups of an account, the [HashResource] of the SDK for the
    element.  That function is not among the sources; the statements hold
    for every [setFunc]. *)
Record ResourceData : Type := mkResourceData
  { Id : string;
    attrs : gmap string Value;
    timeouts : ResourceTimeout;
    setFunc : string -> Value -> Z }.

Definition withId (id : string) (d : ResourceData) : ResourceData :=
  mkResourceData id (attrs d) (timeouts d) (setFunc d).

Definition withAttr (k : string) (v : Value) (d : ResourceData) : ResourceData :=
  mkResourceData (Id d) (<[k := v]> (attrs d)) (timeouts d) (setFunc d).

(** [d.Get(k)]: the stored value when it has the type the schema gives [k],
    the zero value of that type otherwise; nil for a key the schema does
    not have.  For a set the value is the [List()] of the [Set]. *)
Definition readAttr (sch : SchemaMap) (k : string) (d : ResourceData) : Value :=
  match assoc k sch with
  | None => VNil
  | Some t =>
      match attrs d !! k with
      | Some v => if conforms t v then asStored t (setFunc d k) v else zeroValue t
      | None => zeroValue t
      end
  end.

(** [d.Set(k, v)]: stores [v] when it has the type the schema gives [k],
    as a [Set] when [k] is a set, and reports an error otherwise. *)
Definition writeAttr (sch : SchemaMap) (k : string) (v : Value) (d : ResourceData)
  : ResourceData * option error :=
  match assoc k sch with
  | None => (d, Some (Errorf ("Invalid address to set: " +:+ k)))
  | Some t =>
      if conforms t v then (withAttr k (asStored t (setFunc d k) v) d, None)
      else (d, Some (Errorf (k +:+ ": value does not match the schema")))
  end.

(** ** Callbacks as state transformers that may panic *)

Inductive Outcome (S A : Type) : Type :=
| Returns (a : A) (s : S)
| Panics.
Arguments Returns {S A} a s.
Arguments Panics {S A}.

Definition M (S A : Type) : Type := S -> Outcome S A.

Definition ret {S A : Type} (a : A) : M S A := fun s => Returns a s.

Definition bind {S A B : Type} (m : M S A) (k : A -> M S B) : M S B :=
  fun s =>
    match m s with
    | Returns a s' => k a s'
    | Panics => Panics
    end.

Definition panic {S A : Type} : M S A := fun _ => Panics.

Notation "x <- m ;; k" := (bind m (fun x => k))
  (at level 62, m at next level, right associativity).
Notation "m ;;; k" := (bind m (fun _ => k))
  (at level 62, right associativity).

(** An unchecked type assertion, or the use of a pointer: panics on
    [None]. *)
Definition must {S A : Type} (o : option A) : M S A :=
  match o with
  | Some a => ret a
  | None => panic
  end.

(** ** A session: the resource handle, the remote service, the calls made *)

Section Session.

(** The calls of a client, the type of the answer to each, and the
    remote state the answers depend on. *)
Context {Call : Type} {Resp : Call -> Type} {Remote : Type}.

Record Session : Type := mkSession
  { data : ResourceData;
    remote : Remote;
    calls : list Call }.

(** [jamfpro.Client]: answers a call and moves the remote state. *)
Definition Client : Type := forall c : Call, Remote -> Resp c * Remote.

(** The [meta] argument of a callback: the provider's client handle, or
    a value of another type. *)
Inductive Meta : Type :=
| APIClient (Conn : Client)
| NotAPIClient.

Definition call (conn : Client) (c : Call) : M Session (Resp c) :=
  fun s =>
    let '(r, w) := conn c (remote s) in
    Returns r (mkSession (data s) w (calls s ++ [c])).

Definition modifyData (f : ResourceData -> ResourceData) : M Session unit :=
  fun s => Returns tt (mkSession (f (data s)) (remote s) (calls s)).

(** [d.Id()], [d.SetId(id)] *)
Definition getId : M Session string := fun s => Returns (Id (data s)) s.
Definition SetId (id : string) : M Session unit := modifyData (withId id).

(** [d.Timeout(key)] *)
Definition Timeout (key : ResourceTimeout -> nat) : M Session nat :=
  fun s => Returns (key (timeouts (data s))) s.

Section WithSchema.
Variable sch : SchemaMap.

(** [d.Get(k)] *)
Definition Get (k : string) : M Session Value :=
  fun s => Returns (readAttr sch k (data s)) s.

(** [d.GetOk(k)]: the value, and whether it is set to a non-zero
    value. *)
Definition GetOk (k : string) : M Session (Value * bool) :=
  fun s => let v := readAttr sch k (data s) in Returns (v, negb (isZero v)) s.

(** [d.Set(k, v)] *)
Definition Set_ (k : string) (v : Value) : M Session (option error) :=
  fun s =>
    let '(d', err) := writeAttr sch k v (data s) in
    Returns err (mkSession d' (remote s) (calls s)).
End WithSchema.

End Session.

Arguments Session : clear implicits.
Arguments Client : clear implicits.
Arguments Meta : clear implicits.

(** ** retry *)

Module retry.

Record RetryError : Type := mkRetryError { Err : error; Retryable : bool }.

Definition RetryableError (e : error) : RetryError := mkRetryError e true.
Definition NonRetryableError (e : error) : RetryError := mkRetryError e false.

(** What the wait returns when the timeout passes before any attempt has
    set the error. *)
Definition TimeoutError : error :=
  errorString "timeout while waiting for state to become 'success'".

(** The attempts of [RetryContext].  [f] is the function retried; it
    receives and returns the variable of the caller that it assigns to.
    [resultErr] is the error of the last attempt. *)
Fixpoint attempts {S A : Type} (n : nat) (f : A -> M S (A * option RetryError))
  (captured : A) (resultErr : option error) : M S (A * option error) :=
  match n with
  | O =>
      ret (captured,
           Some (match resultErr with Some e => e | None => TimeoutError end))
  | S n' =>
      r <- f captured ;;
      let '(a, rerr) := r in
      match rerr with
      | None => ret (a, None)
      | Some r =>
          if Retryable r then attempts n' f a (Some (Err r))
          else ret (a, Some (Err r))
      end
  end.

(** [retry.RetryContext(ctx, timeout, f)] *)
Definition RetryContext {S A : Type} (timeout : nat)
  (f : A -> M S (A * option RetryError)) (captured : A) : M S (A * option error) :=
  attempts timeout f captured None.

End retry.

(** ** encoding/xml *)

Module xml.

(** The Go values [Marshal] walks, by kind. *)
Inductive GoValue : Type :=
| String_ (s : string)
| Int_ (n : Z)
| Bool_ (b : bool)
| Struct (name : string) (fields : list (string * GoValue))
| Slice (items : list GoValue)
| Pointer (target : option GoValue)
| Map_
| Chan
| Func.

Definition UnsupportedTypeError (kind : string) : error :=
  errorString ("xml: unsupported type: " +:+ kind).

Definition firstError (l : list (option error)) : option error :=
  foldr (fun o rest => match o with Some e => Some e | None => rest end) None l.

(** The error of [xml.Marshal]: strings, numbers and booleans are
    written (text is escaped, never refused), a struct is its fields, a
    slice its items, a nil pointer nothing; a map, a channel or a
    function is refused. *)
Fixpoint marshalValue (v : GoValue) : option error :=
  match v with
  | String_ _ | Int_ _ | Bool_ _ => None
  | Struct _ fields => firstError (map (fun '(_, x) => marshalValue x) fields)
  | Slice items => firstError (map marshalValue items)
  | Pointer None => None
  | Pointer (Some x) => marshalValue x
  | Map_ => Some (UnsupportedTypeError "map")
  | Chan => Some (UnsupportedTypeError "chan")
  | Func => Some (UnsupportedTypeError "func")
  end.

(** [xml.MarshalIndent(v, prefix, indent)], its error; the bytes are
    only printed by the caller. *)
Definition MarshalIndent (v : GoValue) : option error := marshalValue v.

End xml.

(** ** Departments *)

Module Departments.

Definition JamfProResourceDepartment : string := "Department".

(** [jamfpro.ResourceDepartment]: the callbacks use its [Name], and the
    [ID] of the one [CreateDepartment] returns, a string. *)
Record ResourceDepartment : Type := mkDepartment
  { ID : string; Name : string }.

(** The [Schema] of [ResourceJamfProDepartments]. *)
Definition resourceSchema : SchemaMap :=
  [ ("id", TypeString); ("name", TypeString) ].

(** The calls the callbacks make on [conn]. *)
Inductive Call : Type :=
| CreateDepartment (department : ResourceDepartment)
| GetDepartmentByID (id : string)
| UpdateDepartmentByID (id : string) (department : ResourceDepartment)
| UpdateDepartmentByName (name : string) (department : ResourceDepartment)
| DeleteDepartmentByID (id : string)
| DeleteDepartmentByName (name : string).

Definition Resp (c : Call) : Type :=
  match c with
  | DeleteDepartmentByID _ | DeleteDepartmentByName _ => option error
  | _ => (option ResourceDepartment * option error)%type
  end.

(** How [encoding/xml] sees a pointer to a department. *)
Definition reflectDepartment (department : ResourceDepartment) : xml.GoValue :=
  xml.Pointer (Some (xml.Struct "ResourceDepartment"
    [ ("id", xml.String_ (ID department));
      ("name", xml.String_ (Name department)) ])).

Section Callbacks.

Context {Remote : Type}.

Abbreviation S := (Session Call Remote).
Abbreviation Get := (Get resourceSchema).
Abbreviation Set_ := (Set_ resourceSchema).

(** [constructJamfProDepartment] *)
Definition constructJamfProDepartment : M S (ResourceDepartment + error) :=
  v <- Get "name" ;;
  name <- must (asString v) ;;
  let department := mkDepartment "" name in
  match xml.MarshalIndent (reflectDepartment department) with
  | Some err =>
      ret (inr (Errorf ("failed to marshal Jamf Pro Department '"
                        +:+ Name department +:+ "' to XML: " +:+ Error err)))
  | None => ret (inl department)
  end.

(** The function [ResourceJamfProDepartmentsRead] retries. *)
Definition readAttempt (conn : Client Call Resp Remote) (resourceID : string)
  (_ : option ResourceDepartment)
  : M S (option ResourceDepartment * option retry.RetryError) :=
  r <- call conn (GetDepartmentByID resourceID) ;;
  let '(department, apiErr) := r in
  match apiErr with
  | Some e => ret (department, Some (retry.RetryableError e))
  | None => ret (department, None)
  end.

(** [ResourceJamfProDepartmentsRead] *)
Definition ResourceJamfProDepartmentsRead (meta : Meta Call Resp Remote)
  : M S diag.Diagnostics :=
  match meta with
  | NotAPIClient => ret (diag.Errorf "error asserting meta as *client.APIClient")
  | APIClient conn =>
      let diags : diag.Diagnostics := [] in
      resourceID <- getId ;;
      timeout <- Timeout TimeoutRead ;;
      r <- retry.RetryContext timeout (readAttempt conn resourceID) None ;;
      let '(department, err) := r in
      match err with
      | Some e =>
          SetId "" ;;;
          ret (diag.FromErr (Errorf
            ("failed to read Jamf Pro Department with ID '" +:+ resourceID
             +:+ "' after retries: " +:+ Error e)))
      | None =>
          match department with
          | Some dep =>
              SetId resourceID ;;;
              err <- Set_ "name" (VString (Name dep)) ;;
              match err with
              | Some e =>
                  ret (append diags (diag.FromErr (Errorf
                    ("error setting department name for ID '" +:+ resourceID
                     +:+ "': " +:+ Error e))))
              | None => ret diags
              end
          | None =>
              SetId "" ;;;
              ret diags
          end
      end
  end.

(** [ResourceJamfProDepartmentsCreate] *)
Definition ResourceJamfProDepartmentsCreate (meta : Meta Call Resp Remote)
  : M S diag.Diagnostics :=
  match meta with
  | NotAPIClient => ret (diag.Errorf "error asserting meta as *client.APIClient")
  | APIClient conn =>
      let diags : diag.Diagnostics := [] in
      v <- Get "name" ;;
      resourceName <- must (asString v) ;;
      r <- constructJamfProDepartment ;;
      match r with
      | inr err =>
          ret (diag.FromErr (Errorf
            ("failed to construct Jamf Pro Department '" +:+ resourceName
             +:+ "': " +:+ Error err)))
      | inl department =>
          r <- call conn (CreateDepartment department) ;;
          let '(creationResponse, err) := r in
          match err with
          | Some e =>
              ret (diag.FromErr (Errorf
                ("failed to create Jamf Pro Department '" +:+ resourceName
                 +:+ "': " +:+ Error e)))
          | None =>
              created <- must creationResponse ;;
              SetId (ID created) ;;;
              readDiags <- ResourceJamfProDepartmentsRead meta ;;
              ret (append diags readDiags)
          end
      end
  end.

(** The function [ResourceJamfProDepartmentsUpdate] retries. *)
Definition updateAttempt (conn : Client Call Resp Remote)
  (resourceID resourceName : string) (department : ResourceDepartment)
  (_ : unit) : M S (unit * option retry.RetryError) :=
  r <- call conn (UpdateDepartmentByID resourceID department) ;;
  let '(_, apiErr) := r in
  match apiErr with
  | None => ret (tt, None)
  | Some e =>
      r <- call conn (UpdateDepartmentByName resourceName department) ;;
      let '(_, apiErrByName) := r in
      match apiErrByName with
      | Some e' =>
          ret (tt, Some (retry.RetryableError (Errorf
            ("failed to update department '" +:+ resourceName +:+ "' by ID '"
             +:+ resourceID +:+ "' and by name due to errors: "
             +:+ Error e +:+ ", " +:+ Error e'))))
      | None => ret (tt, None)
      end
  end.

(** [ResourceJamfProDepartmentsUpdate] *)
Definition ResourceJamfProDepartmentsUpdate (meta : Meta Call Resp Remote)
  : M S diag.Diagnostics :=
  match meta with
  | NotAPIClient => ret (diag.Errorf "error asserting meta as *client.APIClient")
  | APIClient conn =>
      let diags : diag.Diagnostics := [] in
      resourceID <- getId ;;
      v <- Get "name" ;;
      resourceName <- must (asString v) ;;
      r <- constructJamfProDepartment ;;
      match r with
      | inr err =>
          ret (diag.FromErr (Errorf
            ("error constructing Jamf Pro Department '" +:+ resourceName
             +:+ "': " +:+ Error err)))
      | inl department =>
          timeout <- Timeout TimeoutUpdate ;;
          r <- retry.RetryContext timeout
                 (updateAttempt conn resourceID resourceName department) tt ;;
          match snd r with
          | Some e =>
              ret (append diags (diag.FromErr (Errorf
                ("final attempt to update department '" +:+ resourceName
                 +:+ "' failed: " +:+ Error e))))
          | None =>
              readDiags <- ResourceJamfProDepartmentsRead meta ;;
              ret (append diags readDiags)
          end
      end
  end.

(** The function [ResourceJamfProDepartmentsDelete] retries. *)
Definition deleteAttempt (conn : Client Call Resp Remote)
  (resourceID resourceName : string) (_ : unit)
  : M S (unit * option retry.RetryError) :=
  apiErr <- call conn (DeleteDepartmentByID resourceID) ;;
  match apiErr return M S (unit * option retry.RetryError) with
  | Some e =>
      apiErrByName <- call conn (DeleteDepartmentByName resourceName) ;;
      match apiErrByName return M S (unit * option retry.RetryError) with
      | Some e' =>
          ret (tt, Some (retry.RetryableError (Errorf
            ("failed to delete department '" +:+ resourceName +:+ "' by ID '"
             +:+ resourceID +:+ "' and by name due to errors: "
             +:+ Error e +:+ ", " +:+ Error e'))))
      | None => ret (tt, None)
      end
  | None => ret (tt, None)
  end.

(** [ResourceJamfProDepartmentsDelete] *)
Definition ResourceJamfProDepartmentsDelete (meta : Meta Call Resp Remote)
  : M S diag.Diagnostics :=
  match meta with
  | NotAPIClient => ret (diag.Errorf "error asserting meta as *client.APIClient")
  | APIClient conn =>
      let diags : diag.Diagnostics := [] in
      resourceID <- getId ;;
      v <- Get "name" ;;
      resourceName <- must (asString v) ;;
      timeout <- Timeout TimeoutDelete ;;
      r <- retry.RetryContext timeout
             (deleteAttempt conn resourceID resourceName) tt ;;
      match snd r with
      | Some e =>
          ret (append diags (diag.FromErr (Errorf
            ("final attempt to delete department '" +:+ resourceName
             +:+ "' failed: " +:+ Error e))))
      | None =>
          SetId "" ;;;
          ret diags
      end
  end.

End Callbacks.

End Departments.

(** ** Accounts *)

Module Accounts.

(** The types of the client library.  Of an account, [ID] and
    [EmailAddress] are fields that the callbacks never read or write. *)
Record AccountSubsetLdapServer : Type := mkLdapServer
  { LdapServer_ID : Z; LdapServer_Name : string }.

Record SharedResourceSite : Type := mkSite
  { Site_ID : Z; Site_Name : string }.

Record AccountSubsetPrivileges : Type := mkPrivileges
  { JSSObjects : list string;
    JSSSettings : list string;
    JSSActions : list string;
    CasperAdmin : list string;
    CasperRemote : list string;
    CasperImaging : list string;
    Recon : list string }.

Record AccountsListSubsetGroups : Type := mkGroup
  { Group_ID : Z;
    Group_Name : string;
    Group_Site : SharedResourceSite;
    Group_Privileges : AccountSubsetPrivileges }.

Record ResourceAccount : Type := mkAccount
  { ID : Z;
    Name : string;
    DirectoryUser : bool;
    FullName : string;
    Email : string;
    EmailAddress : string;
    Enabled : string;
    LdapServer : AccountSubsetLdapServer;
    ForcePasswordChange : bool;
    AccessLevel : string;
    Password : string;
    PrivilegeSet : string;
    Site : SharedResourceSite;
    Groups : list AccountsListSubsetGroups;
    Privileges : AccountSubsetPrivileges }.

(** What [GetAccounts] returns: the callbacks use its [Groups]. *)
Record ResponseAccountsList : Type := mkAccountsList
  { AccountsList_Groups : list AccountsListSubsetGroups }.

(** What [CreateAccount] and the updates return: the callbacks use its
    [ID]. *)
Record ResponseAccountCreatedAndUpdated : Type := mkCreated
  { Created_ID : Z }.

Definition zeroSite : SharedResourceSite := mkSite 0 "".
Definition zeroLdapServer : AccountSubsetLdapServer := mkLdapServer 0 "".
Definition zeroPrivileges : AccountSubsetPrivileges :=
  mkPrivileges [] [] [] [] [] [] [].

(** The [Schema] of [ResourceJamfProAccounts]. *)
Definition idNameResource : ValueType :=
  TypeResource [ ("id", TypeInt); ("name", TypeString) ].

Definition privilegeLists : SchemaMap :=
  [ ("jss_objects_privileges", TypeList TypeString);
    ("jss_settings_privileges", TypeList TypeString);
    ("jss_actions_privileges", TypeList TypeString);
    ("casper_admin_privileges", TypeList TypeString);
    ("casper_remote_privileges", TypeList TypeString);
    ("casper_imaging_privileges", TypeList TypeString);
    ("recon_privileges", TypeList TypeString) ].

Definition groupResource : ValueType :=
  TypeResource
    ([ ("name", TypeString);
       ("id", TypeInt);
       ("site", TypeList idNameResource) ] ++ privilegeLists)%list.

Definition resourceSchema : SchemaMap :=
  ([ ("id", TypeString);
     ("name", TypeString);
     ("directory_user", TypeBool);
     ("full_name", TypeString);
     ("email", TypeString);
     ("email_address", TypeString);
     ("enabled", TypeString);
     ("ldap_server", TypeList idNameResource);
     ("force_password_change", TypeBool);
     ("access_level", TypeString);
     ("password", TypeString);
     ("privilege_set", TypeString);
     ("site", TypeList idNameResource);
     ("groups", TypeSet groupResource) ] ++ privilegeLists)%list.

(** The calls the callbacks make on the client. *)
Inductive Call : Type :=
| GetAccounts
| CreateAccount (account : ResourceAccount)
| GetAccountByID (id : Z)
| GetAccountByName (name : string)
| UpdateAccountByID (id : Z) (account : ResourceAccount)
| UpdateAccountByName (name : string) (account : ResourceAccount)
| DeleteAccountByID (id : Z)
| DeleteAccountByName (name : string).

Definition Resp (c : Call) : Type :=
  match c with
  | GetAccounts => (option ResponseAccountsList * option error)%type
  | GetAccountByID _ | GetAccountByName _ =>
      (option ResourceAccount * option error)%type
  | CreateAccount _ | UpdateAccountByID _ _ | UpdateAccountByName _ _ =>
      (option ResponseAccountCreatedAndUpdated * option error)%type
  | DeleteAccountByID _ | DeleteAccountByName _ => option error
  end.

(** The helpers of [internal/helpers/type_assertion], which is not among
    the sources at hand: the callbacks are taken over any such helpers. *)
Class TypeAssertion : Type := mkTypeAssertion
  { GetStringFromInterface : Value -> string;
    GetIntFromInterface : Value -> Z;
    GetStringSliceFromInterface : Value -> list string }.

(** [fmt.Errorf("API Error (Code: %d): %s", code, msg)] *)
Definition apiErrorf (code : Z) (msg : string) : error :=
  Errorf ("API Error (Code: " +:+ strconv.Itoa code +:+ "): " +:+ msg).

(** [%s] of the value of the [name] attribute. *)
Definition formatName (v : Value) : string :=
  match v with VString s => s | _ => "" end.

Definition isNil (v : Value) : bool :=
  match v with VNil => true | _ => false end.

Definition strings (l : list string) : Value := VList (map VString l).

Section Callbacks.

Context {Remote : Type} {util : TypeAssertion}.

Abbreviation S := (Session Call Remote).
Abbreviation Get := (Get resourceSchema).
Abbreviation GetOk := (GetOk resourceSchema).
Abbreviation Set_ := (Set_ resourceSchema).

(** The [id] and [name] of the first element of a one-element block
    ([ldap_server], [site]), when the block is set. *)
Definition firstIdName (k : string) : M S (option (Z * string)) :=
  r <- GetOk k ;;
  let '(v, ok) := r in
  if ok then
    l <- must (asList v) ;;
    match l with
    | first :: _ =>
        if isNil first then ret None
        else
          m <- must (asMap first) ;;
          ret (Some (GetIntFromInterface (index m "id"),
                     GetStringFromInterface (index m "name")))
    | [] => ret None
    end
  else ret None.

(** [groupNameToID], filled from the groups [GetAccounts] lists. *)
Definition groupNameToID (groups : list AccountsListSubsetGroups)
  : gmap string Z :=
  foldl (fun m group => <[Group_Name group := Group_ID group]> m) ∅ groups.

(** The loop over [groupsSet.List()]. *)
Fixpoint constructGroups (ids : gmap string Z) (items : list Value)
  (groups : list AccountsListSubsetGroups)
  : M S (list AccountsListSubsetGroups + error) :=
  match items with
  | [] => ret (inl groups)
  | groupItem :: rest =>
      groupMap <- must (asMap groupItem) ;;
      groupName <- must (asString (index groupMap "name")) ;;
      match ids !! groupName with
      | None =>
          ret (inr (Errorf ("group name " +:+ groupName +:+ " does not exist")))
      | Some groupID =>
          let group := mkGroup groupID groupName zeroSite zeroPrivileges in
          constructGroups ids rest (append groups [group])
      end
  end.

(** [constructJamfProAccount] *)
Definition constructJamfProAccount (client : Client Call Resp Remote)
  : M S (ResourceAccount + error) :=
  name <- Get "name" ;;
  v <- Get "directory_user" ;;
  directoryUser <- must (asBool v) ;;
  fullName <- Get "full_name" ;;
  email <- Get "email" ;;
  enabled <- Get "enabled" ;;
  v <- Get "force_password_change" ;;
  forcePasswordChange <- must (asBool v) ;;
  accessLevel <- Get "access_level" ;;
  password <- Get "password" ;;
  privilegeSet <- Get "privilege_set" ;;
  ldap <- firstIdName "ldap_server" ;;
  let ldapServer :=
    match ldap with
    | Some (id, n) => mkLdapServer id n
    | None => zeroLdapServer
    end in
  st <- firstIdName "site" ;;
  let site :=
    match st with
    | Some (id, n) => mkSite id n
    | None => zeroSite
    end in
  r <- call client GetAccounts ;;
  let '(allAccounts, err) := r in
  match err with
  | Some e => ret (inr e)
  | None =>
      all <- must allAccounts ;;
      let ids := groupNameToID (AccountsList_Groups all) in
      r <- GetOk "groups" ;;
      let '(v, ok) := r in
      groups <- (if ok then
                   items <- must (asList v) ;;
                   constructGroups ids items []
                 else ret (inl [])) ;;
      match groups with
      | inr e => ret (inr e)
      | inl groups =>
          objects <- Get "jss_objects_privileges" ;;
          settings <- Get "jss_settings_privileges" ;;
          actions <- Get "jss_actions_privileges" ;;
          admin <- Get "casper_admin_privileges" ;;
          remote_ <- Get "casper_remote_privileges" ;;
          imaging <- Get "casper_imaging_privileges" ;;
          recon <- Get "recon_privileges" ;;
          ret (inl
            (mkAccount
               0
               (GetStringFromInterface name)
               directoryUser
               (GetStringFromInterface fullName)
               (GetStringFromInterface email)
               ""
               (GetStringFromInterface enabled)
               ldapServer
               forcePasswordChange
               (GetStringFromInterface accessLevel)
               (GetStringFromInterface password)
               (GetStringFromInterface privilegeSet)
               site
               groups
               (mkPrivileges
                  (GetStringSliceFromInterface objects)
                  (GetStringSliceFromInterface settings)
                  (GetStringSliceFromInterface actions)
                  (GetStringSliceFromInterface admin)
                  (GetStringSliceFromInterface remote_)
                  (GetStringSliceFromInterface imaging)
                  (GetStringSliceFromInterface recon))))
      end
  end.

(** [generateTFDiagsFromHTTPError] *)
Definition generateTFDiagsFromHTTPError (err : error) (action : string)
  : M S diag.Diagnostics :=
  let diags : diag.Diagnostics := [] in
  r <- GetOk "name" ;;
  let '(v, exists_) := r in
  let resourceName := if exists_ then formatName v else "unknown" in
  let summary :=
    "Failed to " +:+ action +:+ " the resource with name: " +:+ resourceName in
  match asAPIError err with
  | Some (code, msg) =>
      ret (append diags
             [ diag.mkDiagnostic diag.Error_ summary
                 ("API Error (Code: " +:+ strconv.Itoa code +:+ "): " +:+ msg) ])
  | None =>
      ret (append diags [ diag.mkDiagnostic diag.Error_ summary (Error err) ])
  end.

(** The block written for a site or an LDAP server: one element with
    its id and name, or the empty list when both are zero. *)
Definition idNameBlock (id : Z) (name : string) : Value :=
  if negb (Z.eqb id 0) || negb (String.eqb name "")
  then VList [ VMap [ ("id", VInt id); ("name", VString name) ] ]
  else VList [].

(** The [groupMap] built for one group of the account. *)
Definition groupValue (group : AccountsListSubsetGroups) : Value :=
  let p := Group_Privileges group in
  VMap
    [ ("name", VString (Group_Name group));
      ("id", VInt (Group_ID group));
      ("site", idNameBlock (Site_ID (Group_Site group))
                           (Site_Name (Group_Site group)));
      ("jss_objects_privileges", strings (JSSObjects p));
      ("jss_settings_privileges", strings (JSSSettings p));
      ("jss_actions_privileges", strings (JSSActions p));
      ("casper_admin_privileges", strings (CasperAdmin p));
      ("casper_remote_privileges", strings (CasperRemote p));
      ("casper_imaging_privileges", strings (CasperImaging p));
      ("recon_privileges", strings (Recon p)) ].

(** [if err := d.Set(k, v); err != nil { return diag.FromErr(err) }] *)
Definition setOrReturn (k : string) (v : Value) (rest : M S diag.Diagnostics)
  : M S diag.Diagnostics :=
  err <- Set_ k v ;;
  match err with
  | Some e => ret (diag.FromErr e)
  | None => rest
  end.

(** The function [ResourceJamfProAccountRead] retries. *)
Definition readAttempt (conn : Client Call Resp Remote)
  (account : option ResourceAccount)
  : M S (option ResourceAccount * option retry.RetryError) :=
  id <- getId ;;
  match strconv.Atoi id with
  | inr err =>
      ret (account, Some (retry.NonRetryableError (Errorf
        ("error converting id (" +:+ id +:+ ") to integer: " +:+ Error err))))
  | inl accountID =>
      r <- call conn (GetAccountByID accountID) ;;
      let '(account, err) := r in
      match err with
      | None => ret (account, None)
      | Some e =>
          match asAPIError e with
          | Some (code, msg) =>
              ret (account, Some (retry.NonRetryableError (apiErrorf code msg)))
          | None =>
              v <- Get "name" ;;
              match asString v with
              | None =>
                  ret (account, Some (retry.NonRetryableError
                    (Errorf "unable to assert 'name' as a string")))
              | Some accountName =>
                  r <- call conn (GetAccountByName accountName) ;;
                  let '(account, err) := r in
                  match err with
                  | None => ret (account, None)
                  | Some e =>
                      match asAPIError e with
                      | Some (code, msg) =>
                          ret (account,
                               Some (retry.NonRetryableError (apiErrorf code msg)))
                      | None => ret (account, Some (retry.RetryableError e))
                      end
                  end
              end
          end
      end
  end.

(** The writes of [ResourceJamfProAccountRead] once the account is
    fetched. *)
Definition writeAccount (account : ResourceAccount) : M S diag.Diagnostics :=
  let diags : diag.Diagnostics := [] in
  Set_ "name" (VString (Name account)) ;;;
  Set_ "directory_user" (VBool (DirectoryUser account)) ;;;
  Set_ "full_name" (VString (FullName account)) ;;;
  Set_ "email" (VString (Email account)) ;;;
  Set_ "enabled" (VString (Enabled account)) ;;;
  Set_ "ldap_server"
    (idNameBlock (LdapServer_ID (LdapServer account))
                 (LdapServer_Name (LdapServer account))) ;;;
  Set_ "force_password_change" (VBool (ForcePasswordChange account)) ;;;
  Set_ "access_level" (VString (AccessLevel account)) ;;;
  r <- GetOk "password" ;;
  (if snd r then Set_ "password" (VString (Password account)) else ret None) ;;;
  Set_ "privilege_set" (VString (PrivilegeSet account)) ;;;
  Set_ "site"
    (idNameBlock (Site_ID (Site account)) (Site_Name (Site account))) ;;;
  let groups := VList (map groupValue (Groups account)) in
  let p := Privileges account in
  setOrReturn "groups" groups
  (setOrReturn "jss_objects_privileges" (strings (JSSObjects p))
  (setOrReturn "jss_settings_privileges" (strings (JSSSettings p))
  (setOrReturn "jss_actions_privileges" (strings (JSSActions p))
  (setOrReturn "casper_admin_privileges" (strings (CasperAdmin p))
  (setOrReturn "casper_remote_privileges" (strings (CasperRemote p))
  (setOrReturn "casper_imaging_privileges" (strings (CasperImaging p))
  (setOrReturn "recon_privileges" (strings (Recon p))
  (ret diags)))))))).

(** [ResourceJamfProAccountRead] *)
Definition ResourceJamfProAccountRead (meta : Meta Call Resp Remote)
  : M S diag.Diagnostics :=
  match meta with
  | NotAPIClient => ret (diag.Errorf "error asserting meta as *client.APIClient")
  | APIClient conn =>
      timeout <- Timeout TimeoutRead ;;
      r <- retry.RetryContext timeout (readAttempt conn) None ;;
      let '(account, err) := r in
      match err with
      | Some e => generateTFDiagsFromHTTPError e "read"
      | None =>
          account <- must account ;;
          writeAccount account
      end
  end.

(** The function the first retry of [ResourceJamfProAccountCreate]
    runs. *)
Definition createAttempt (jamfProClient : Client Call Resp Remote)
  (createdAccount : option ResponseAccountCreatedAndUpdated)
  : M S (option ResponseAccountCreatedAndUpdated * option retry.RetryError) :=
  r <- constructJamfProAccount jamfProClient ;;
  match r with
  | inr err =>
      ret (createdAccount, Some (retry.NonRetryableError (Errorf
        ("failed to construct the account for terraform create: "
         +:+ Error err))))
  | inl account =>
      r <- call jamfProClient (CreateAccount account) ;;
      let '(createdAccount, err) := r in
      match err with
      | Some e =>
          match asAPIError e with
          | Some (code, msg) =>
              ret (createdAccount,
                   Some (retry.NonRetryableError (apiErrorf code msg)))
          | None => ret (createdAccount, Some (retry.RetryableError e))
          end
      | None => ret (createdAccount, None)
      end
  end.

(** The function the second retry of Create, and of Update, runs: a
    Read whose diagnostics, if any, are a retryable error. *)
Definition readBackAttempt (meta : Meta Call Resp Remote) (msg : string)
  (_ : unit) : M S (unit * option retry.RetryError) :=
  readDiags <- ResourceJamfProAccountRead meta ;;
  match readDiags with
  | _ :: _ => ret (tt, Some (retry.RetryableError (Errorf msg)))
  | [] => ret (tt, None)
  end.

(** [ResourceJamfProAccountCreate] *)
Definition ResourceJamfProAccountCreate (meta : Meta Call Resp Remote)
  : M S diag.Diagnostics :=
  let diags : diag.Diagnostics := [] in
  match meta with
  | NotAPIClient => ret (diag.Errorf "error asserting meta as *client.APIClient")
  | APIClient jamfProClient =>
      timeout <- Timeout TimeoutCreate ;;
      r <- retry.RetryContext timeout (createAttempt jamfProClient) None ;;
      let '(createdAccount, err) := r in
      match err with
      | Some e => generateTFDiagsFromHTTPError e "create"
      | None =>
          created <- must createdAccount ;;
          SetId (strconv.Itoa (Created_ID created)) ;;;
          timeout <- Timeout TimeoutRead ;;
          r <- retry.RetryContext timeout
                 (readBackAttempt meta "failed to read the created resource") tt ;;
          match snd r with
          | Some e => generateTFDiagsFromHTTPError e "update state for"
          | None => ret diags
          end
      end
  end.

(** The function the first retry of [ResourceJamfProAccountUpdate]
    runs. *)
Definition updateAttempt (jamfProClient : Client Call Resp Remote) (_ : unit)
  : M S (unit * option retry.RetryError) :=
  r <- constructJamfProAccount jamfProClient ;;
  match r with
  | inr err =>
      ret (tt, Some (retry.NonRetryableError (Errorf
        ("failed to construct the account for terraform update: "
         +:+ Error err))))
  | inl account =>
      id <- getId ;;
      match strconv.Atoi id with
      | inr err =>
          ret (tt, Some (retry.NonRetryableError (Errorf
            ("error converting id (" +:+ id +:+ ") to integer: "
             +:+ Error err))))
      | inl accountID =>
          r <- call jamfProClient (UpdateAccountByID accountID account) ;;
          let '(_, apiErr) := r in
          match apiErr with
          | None => ret (tt, None)
          | Some e =>
              match asAPIError e with
              | Some (code, msg) =>
                  ret (tt, Some (retry.NonRetryableError (apiErrorf code msg)))
              | None =>
                  v <- Get "name" ;;
                  match asString v with
                  | None =>
                      ret (tt, Some (retry.NonRetryableError (Errorf
                        "unable to assert 'name' as a string in update")))
                  | Some groupName =>
                      r <- call jamfProClient
                             (UpdateAccountByName groupName account) ;;
                      let '(_, apiErr) := r in
                      match apiErr with
                      | None => ret (tt, None)
                      | Some e =>
                          match asAPIError e with
                          | Some (code, msg) =>
                              ret (tt, Some (retry.NonRetryableError
                                               (apiErrorf code msg)))
                          | None => ret (tt, Some (retry.RetryableError e))
                          end
                      end
                  end
              end
          end
      end
  end.

(** [ResourceJamfProAccountUpdate] *)
Definition ResourceJamfProAccountUpdate (meta : Meta Call Resp Remote)
  : M S diag.Diagnostics :=
  let diags : diag.Diagnostics := [] in
  match meta with
  | NotAPIClient => ret (diag.Errorf "error asserting meta as *client.APIClient")
  | APIClient jamfProClient =>
      timeout <- Timeout TimeoutUpdate ;;
      r <- retry.RetryContext timeout (updateAttempt jamfProClient) tt ;;
      match snd r with
      | Some e => generateTFDiagsFromHTTPError e "update"
      | None =>
          timeout <- Timeout TimeoutRead ;;
          r <- retry.RetryContext timeout
                 (readBackAttempt meta
                    "failed to update the Terraform state for the updated resource")
                 tt ;;
          match snd r with
          | Some e => generateTFDiagsFromHTTPError e "update"
          | None => ret diags
          end
      end
  end.

(** The function [ResourceJamfProAccountDelete] retries. *)
Definition deleteAttempt (conn : Client Call Resp Remote) (_ : unit)
  : M S (unit * option retry.RetryError) :=
  id <- getId ;;
  match strconv.Atoi id with
  | inr convertErr =>
      ret (tt, Some (retry.NonRetryableError (Errorf
        ("failed to parse dock item ID: " +:+ Error convertErr))))
  | inl accountID =>
      apiErr <- call conn (DeleteAccountByID accountID) ;;
      match apiErr return M S (unit * option retry.RetryError) with
      | None => ret (tt, None)
      | Some _ =>
          v <- Get "name" ;;
          match asString v with
          | None =>
              ret (tt, Some (retry.NonRetryableError
                (Errorf "unable to assert 'name' as a string")))
          | Some accountName =>
              apiErr <- call conn (DeleteAccountByName accountName) ;;
              match apiErr return M S (unit * option retry.RetryError) with
              | Some e => ret (tt, Some (retry.RetryableError e))
              | None => ret (tt, None)
              end
          end
      end
  end.

(** [ResourceJamfProAccountDelete] *)
Definition ResourceJamfProAccountDelete (meta : Meta Call Resp Remote)
  : M S diag.Diagnostics :=
  let diags : diag.Diagnostics := [] in
  match meta with
  | NotAPIClient => ret (diag.Errorf "error asserting meta as *client.APIClient")
  | APIClient conn =>
      timeout <- Timeout TimeoutDelete ;;
      r <- retry.RetryContext timeout (deleteAttempt conn) tt ;;
      match snd r with
      | Some e => generateTFDiagsFromHTTPError e "delete"
      | None =>
          SetId "" ;;;
          ret diags
      end
  end.

End Callbacks.

End Accounts.

(** * Vocabulary of the statements *)

(** The value and the final session of an outcome. *)
Definition value {S A : Type} (o : Outcome S A) : option A :=
  match o with Returns a _ => Some a | Panics => None end.

Definition final {S A : Type} (o : Outcome S A) : option S :=
  match o with Returns _ s => Some s | Panics => None end.

(** [m] keeps [J] true of the resource data. *)
Definition preservesData {Call Remote A : Type} (J : ResourceData -> Prop)
  (m : M (Session Call Remote) A) : Prop :=
  forall s a s', J (data s) -> m s = Returns a s' -> J (data s').

(** [m] never panics. *)
Definition total {S A : Type} (m : M S A) : Prop := forall s, m s <> Panics.

(** Two runs agree: started in sessions that [P] relates, both panic, or
    both return, the same value, in sessions that [Q] relates. *)
Definition related {Call Remote A : Type}
  (P Q : Session Call Remote -> Session Call Remote -> Prop)
  (m1 m2 : M (Session Call Remote) A) : Prop :=
  forall s1 s2, P s1 s2 ->
    match m1 s1, m2 s2 with
    | Returns a1 t1, Returns a2 t2 => a1 = a2 /\ Q t1 t2
    | Panics, Panics => True
    | _, _ => False
    end.

(** The two sessions hold the same resource data. *)
Definition sameData {Call Remote : Type} (s1 s2 : Session Call Remote) : Prop :=
  data s1 = data s2.

(** They do, and their remote states are [w1] and [w2]. *)
Definition sameDataAt {Call Remote : Type} (w1 w2 : Remote)
  (s1 s2 : Session Call Remote) : Prop :=
  data s1 = data s2 /\ remote s1 = w1 /\ remote s2 = w2.

(** The codes of [m] all come after [c], in the order of strings. *)
Definition codesAfter (c : string) (m : list (string * Value)) : Prop :=
  Forall (fun e => String.compare c e.1 = Lt) m.

(** The map of a set is in order: the items are under their codes, and
    the codes grow. *)
Inductive inOrder (F : Value -> Z) : list (string * Value) -> Prop :=
| inOrder_nil : inOrder F []
| inOrder_cons c v m :
    codesAfter c m -> hashCode F v = c -> inOrder F m ->
    inOrder F ((c, v) :: m).

(** What the state holds for a site or an LDAP server with identifier
    [id] and name [name]: a list with one block of the two, and the empty
    list when the identifier is 0 and the name empty. *)
Definition blockOf (id : Z) (name : string) : Value :=
  VList (if decide (id = 0 /\ name = "") then []
         else [ VMap [ ("id", VInt id); ("name", VString name) ] ]).

Definition stringsOf (l : list string) : Value := VList (VString <$> l).

(** What the state holds for one group of an account: its name, its
    identifier, its site and its seven lists of privileges. *)
Definition groupEntry (g : Accounts.AccountsListSubsetGroups) : Value :=
  let site := Accounts.Group_Site g in
  let p := Accounts.Group_Privileges g in
  VMap
    [ ("name", VString (Accounts.Group_Name g));
      ("id", VInt (Accounts.Group_ID g));
      ("site", blockOf (Accounts.Site_ID site) (Accounts.Site_Name site));
      ("jss_objects_privileges", stringsOf (Accounts.JSSObjects p));
      ("jss_settings_privileges", stringsOf (Accounts.JSSSettings p));
      ("jss_actions_privileges", stringsOf (Accounts.JSSActions p));
      ("casper_admin_privileges", stringsOf (Accounts.CasperAdmin p));
      ("casper_remote_privileges", stringsOf (Accounts.CasperRemote p));
      ("casper_imaging_privileges", stringsOf (Accounts.CasperImaging p));
      ("recon_privileges", stringsOf (Accounts.Recon p)) ].

(** The resource data [d] hold the fields of [account] other than its
    [ID], its [EmailAddress] and its [Password]: strings, booleans and
    lists of privileges as they are; the site and the LDAP server as a
    block, or as the empty list when absent; the groups as the set built
    from their entries, in the order of the groups, with the hash that [d]
    has for [groups]. *)
Definition holdsAccount (account : Accounts.ResourceAccount)
  (d : ResourceData) : Prop :=
  let st := attrs d in
  let p := Accounts.Privileges account in
  st !! "name" = Some (VString (Accounts.Name account))
  /\ st !! "directory_user" = Some (VBool (Accounts.DirectoryUser account))
  /\ st !! "full_name" = Some (VString (Accounts.FullName account))
  /\ st !! "email" = Some (VString (Accounts.Email account))
  /\ st !! "enabled" = Some (VString (Accounts.Enabled account))
  /\ st !! "ldap_server"
     = Some (blockOf (Accounts.LdapServer_ID (Accounts.LdapServer account))
               (Accounts.LdapServer_Name (Accounts.LdapServer account)))
  /\ st !! "force_password_change"
     = Some (VBool (Accounts.ForcePasswordChange account))
  /\ st !! "access_level" = Some (VString (Accounts.AccessLevel account))
  /\ st !! "privilege_set" = Some (VString (Accounts.PrivilegeSet account))
  /\ st !! "site"
     = Some (blockOf (Accounts.Site_ID (Accounts.Site account))
               (Accounts.Site_Name (Accounts.Site account)))
  /\ st !! "groups"
     = Some (VList (setList (setFunc d "groups")
                      (groupEntry <$> Accounts.Groups account)))
  /\ st !! "jss_objects_privileges" = Some (stringsOf (Accounts.JSSObjects p))
  /\ st !! "jss_settings_privileges" = Some (stringsOf (Accounts.JSSSettings p))
  /\ st !! "jss_actions_privileges" = Some (stringsOf (Accounts.JSSActions p))
  /\ st !! "casper_admin_privileges" = Some (stringsOf (Accounts.CasperAdmin p))
  /\ st !! "casper_remote_privileges"
     = Some (stringsOf (Accounts.CasperRemote p))
  /\ st !! "casper_imaging_privileges"
     = Some (stringsOf (Accounts.CasperImaging p))
  /\ st !! "recon_privileges" = Some (stringsOf (Accounts.Recon p)).

(** The resource data [d'] are [d] after a Read has copied [account] into
    them: the identifier and the hash of the sets are those of [d], the
    fields of the account are held, the password is the one of the account
    when [d] has a non-empty password and is left as in [d] otherwise, and
    the [email_address] attribute is left as in [d]. *)
Definition readInto (account : Accounts.ResourceAccount)
  (d d' : ResourceData) : Prop :=
  Id d' = Id d
  /\ setFunc d' = setFunc d
  /\ holdsAccount account d'
  /\ attrs d' !! "password"
     = (if isZero (readAttr Accounts.resourceSchema "password" d)
        then attrs d !! "password"
        else Some (VString (Accounts.Password account)))
  /\ attrs d' !! "email_address" = attrs d !! "email_address".

(** The diagnostic is the one the department Create or Update returns
    when the constructor fails. *)
Definition reportsConstructionFailure (dg : diag.Diagnostic) : bool :=
  String.prefix "failed to construct Jamf Pro Department" (diag.Summary dg)
  || String.prefix "error constructing Jamf Pro Department" (diag.Summary dg).

(** * Scenarios *)

Module Scenarios.

Definition transport : error := errorString "connection reset by peer".
Definition notFound : error := APIError 404 "Not Found" "404 Not Found".

Definition seconds30 : ResourceTimeout := mkTimeouts 3 3 3 3.

(** A hash for the items of a set: the length of the [name] of the item. *)
Definition nameLength (_ : string) (item : Value) : Z :=
  match item with
  | VMap m =>
      match index m "name" with
      | VString n => Z.of_nat (String.length n)
      | _ => 0
      end
  | _ => 0
  end.

(** A department [Engineering] with identifier [42]. *)
Definition engineering : ResourceData :=
  mkResourceData "42" {[ "name" := VString "Engineering" ]} seconds30 nameLength.

(** The same department before it is created. *)
Definition planned : ResourceData :=
  mkResourceData "" {[ "name" := VString "Engineering" ]} seconds30 nameLength.

Definition start {Call : Type} (d : ResourceData) : Session Call nat :=
  mkSession d O [].

Module D.
Import Departments.

(** The remote state counts the calls answered so far. *)

(** Every call succeeds. *)
Definition healthy : Client Call Resp nat := fun c n =>
  match c return Resp c * nat with
  | CreateDepartment d => ((Some (mkDepartment "42" (Name d)), None), S n)
  | GetDepartmentByID id => ((Some (mkDepartment id "Engineering"), None), S n)
  | UpdateDepartmentByID id d => ((Some (mkDepartment id (Name d)), None), S n)
  | UpdateDepartmentByName _ d => ((Some (mkDepartment "42" (Name d)), None), S n)
  | DeleteDepartmentByID _ | DeleteDepartmentByName _ => (None, S n)
  end.

(** The first create call meets a transport error; later ones succeed. *)
Definition flakyCreate : Client Call Resp nat := fun c n =>
  match c return Resp c * nat with
  | CreateDepartment d =>
      match n with
      | O => ((None, Some transport), S n)
      | _ => ((Some (mkDepartment "42" (Name d)), None), S n)
      end
  | other => healthy other n
  end.

(** Creation succeeds; the department cannot be fetched, updated or
    deleted afterwards. *)
Definition gone : Client Call Resp nat := fun c n =>
  match c return Resp c * nat with
  | CreateDepartment d => ((Some (mkDepartment "42" (Name d)), None), S n)
  | GetDepartmentByID _ => ((None, Some notFound), S n)
  | UpdateDepartmentByID _ _ | UpdateDepartmentByName _ _ =>
      ((None, Some notFound), S n)
  | DeleteDepartmentByID _ | DeleteDepartmentByName _ => (Some notFound, S n)
  end.

(** Operations by identifier fail; those by name succeed. *)
Definition byNameOnly : Client Call Resp nat := fun c n =>
  match c return Resp c * nat with
  | GetDepartmentByID _ => ((None, Some notFound), S n)
  | UpdateDepartmentByID _ _ => ((None, Some notFound), S n)
  | DeleteDepartmentByID _ => (Some notFound, S n)
  | other => healthy other n
  end.
End D.

Module A.
Import Accounts.

(** Helpers that return the value when it has the wanted type and the
    zero value otherwise. *)
Definition lenient : TypeAssertion :=
  mkTypeAssertion
    (fun v => match v with VString s => s | _ => "" end)
    (fun v => match v with VInt n => n | _ => 0 end)
    (fun v => match v with VList l => omap asString l | _ => [] end).

(** The account on the server. *)
Definition onServer : ResourceAccount :=
  mkAccount 42 "Engineering" false "Engineering Admin" "eng@example.com"
    "engineering@example.com" "Enabled" zeroLdapServer false "Full Access"
    "secret" "Administrator" zeroSite [] zeroPrivileges.

(** The account the constructor builds from [planned] with the
    helpers above. *)
Definition plannedAccount : ResourceAccount :=
  mkAccount 0 "Engineering" false "" "" "" "" zeroLdapServer false "" "" ""
    zeroSite [] zeroPrivileges.

Definition admins (id : Z) : AccountsListSubsetGroups :=
  mkGroup id "admins" zeroSite zeroPrivileges.

(** An answer: the payload, or the failure when there is one. *)
Definition answer {T : Type} (payload : T) (failure : option error)
  : option T * option error :=
  match failure with
  | Some e => (None, Some e)
  | None => (Some payload, None)
  end.

(** A client that lists the given groups and whose listing, creation,
    operations by identifier and operations by name each fail with the
    given error, if any.  The remote state counts the calls. *)
Definition scripted (groups : list AccountsListSubsetGroups)
  (listing creation byID byName : option error) : Client Call Resp nat :=
  fun c n =>
    match c return Resp c * nat with
    | GetAccounts => (answer (mkAccountsList groups) listing, S n)
    | CreateAccount _ => (answer (mkCreated 42) creation, S n)
    | GetAccountByID _ => (answer onServer byID, S n)
    | GetAccountByName _ => (answer onServer byName, S n)
    | UpdateAccountByID _ _ => (answer (mkCreated 42) byID, S n)
    | UpdateAccountByName _ _ => (answer (mkCreated 42) byName, S n)
    | DeleteAccountByID _ => (byID, S n)
    | DeleteAccountByName _ => (byName, S n)
    end.

Definition healthy : Client Call Resp nat := scripted [] None None None None.

Definition auditors (id : Z) : AccountsListSubsetGroups :=
  mkGroup id "auditors" zeroSite zeroPrivileges.

(** The account on the server with three groups, [admins] twice.  With
    the hash [nameLength] the code of [admins] is [6] and that of
    [auditors] is [8]. *)
Definition withGroups : ResourceAccount :=
  mkAccount 42 "Engineering" false "Engineering Admin" "eng@example.com"
    "engineering@example.com" "Enabled" zeroLdapServer false "Full Access"
    "secret" "Administrator" zeroSite [auditors 8; admins 7; admins 9]
    zeroPrivileges.

(** A client that answers every fetch with that account. *)
Definition grouped : Client Call Resp nat := fun c n =>
  match c return Resp c * nat with
  | GetAccountByID _ | GetAccountByName _ => ((Some withGroups, None), S n)
  | other => healthy other n
  end.

(** A configuration that passes the validators of the schema, with group
    blocks naming [auditors], [admins] and [admins] again. *)
Definition configured : ResourceData :=
  mkResourceData ""
    (<[ "groups" := VList [ VMap [ ("name", VString "auditors") ];
                            VMap [ ("name", VString "admins") ];
                            VMap [ ("name", VString "admins") ] ] ]>
       (<[ "access_level" := VString "Full Access" ]>
          (<[ "enabled" := VString "Enabled" ]>
             {[ "name" := VString "Engineering" ]})))
    seconds30 nameLength.

(** The account the constructor builds from it with the helpers above,
    when [admins] is listed under [a] and [auditors] under [8]: the
    groups are in the order of their codes, [6] before [8]. *)
Definition configuredAccount (a : Z) : ResourceAccount :=
  mkAccount 0 "Engineering" false "" "" "" "Enabled" zeroLdapServer false
    "Full Access" "" "" zeroSite [admins a; auditors 8] zeroPrivileges.

(** The state of that configuration once created under [42], with an
    e-mail address. *)
Definition created : ResourceData :=
  mkResourceData "42"
    (<[ "email_address" := VString "old@example.com" ]> (attrs configured))
    seconds30 nameLength.

(** The account with a group block naming [admins]. *)
Definition withGroup : ResourceData :=
  mkResourceData ""
    (<[ "groups" := VList [ VMap [ ("name", VString "admins") ] ] ]>
       {[ "name" := VString "Engineering" ]})
    seconds30 nameLength.

(** A state whose identifier is not a number. *)
Definition imported : ResourceData :=
  mkResourceData "engineering" {[ "name" := VString "Engineering" ]} seconds30 nameLength.
End A.

End Scenarios.

(** [m] makes, after the calls already made, only calls that satisfy
    [P]. *)
Definition callsOnly {Call Remote A : Type} (P : Call -> Prop)
  (m : M (Session Call Remote) A) : Prop :=
  forall s a s', m s = Returns a s' ->
    exists l, calls s' = (calls s ++ l)%list /\ Forall P l.

(** The calls that fetch, and those that delete. *)
Definition fetchesDepartment (id : string) (c : Departments.Call) : Prop :=
  c = Departments.GetDepartmentByID id.

Definition deletesDepartment (c : Departments.Call) : Prop :=
  match c with
  | Departments.DeleteDepartmentByID _ | Departments.DeleteDepartmentByName _ => True
  | _ => False
  end.

Definition fetchesAccount (c : Accounts.Call) : Prop :=
  match c with
  | Accounts.GetAccountByID _ | Accounts.GetAccountByName _ => True
  | _ => False
  end.

(** Any call on the account client. *)
Definition anyAccountCall (c : Accounts.Call) : Prop := True.

Definition deletesAccount (c : Accounts.Call) : Prop :=
  match c with
  | Accounts.DeleteAccountByID _ | Accounts.DeleteAccountByName _ => True
  | _ => False
  end.


(** The attributes the account Read writes. *)
Definition accountAttributes : list string :=
  [ "name"; "directory_user"; "full_name"; "email"; "enabled"; "ldap_server";
    "force_password_change"; "access_level"; "password"; "privilege_set";
    "site"; "groups"; "jss_objects_privileges"; "jss_settings_privileges";
    "jss_actions_privileges"; "casper_admin_privileges";
    "casper_remote_privileges"; "casper_imaging_privileges";
    "recon_privileges" ].


(** The group [g] is what the constructor builds for the configured block
    [item], given the identifiers [ids] of the listed groups: the name of
    the block, the identifier listed under that name, no site and no
    privileges. *)
Definition builtFrom (ids : gmap string Z) (item : Value)
  (g : Accounts.AccountsListSubsetGroups) : Prop :=
  (exists m, item = VMap m /\ index m "name" = VString (Accounts.Group_Name g))
  /\ ids !! Accounts.Group_Name g = Some (Accounts.Group_ID g)
  /\ Accounts.Group_Site g = Accounts.zeroSite
  /\ Accounts.Group_Privileges g = Accounts.zeroPrivileges.

(** The configured block [item] names the group [n]. *)
Definition namesGroup (n : string) (item : Value) : Prop :=
  exists m, item = VMap m /\ index m "name" = VString n.


(** * More scenarios *)

Module MoreScenarios.
Import Scenarios.

(** A client whose fetch by identifier returns neither an account nor an
    error. *)
Definition emptyHanded : Client Accounts.Call Accounts.Resp nat := fun c n =>
  match c return Accounts.Resp c * nat with
  | Accounts.GetAccountByID _ => ((None, None), S n)
  | other => A.healthy other n
  end.

(** A client whose fetch returns neither a department nor an error. *)
Definition absent : Client Departments.Call Departments.Resp nat := fun c n =>
  match c return Departments.Resp c * nat with
  | Departments.GetDepartmentByID _ => ((None, None), S n)
  | other => D.healthy other n
  end.

(** An account state whose password is set. *)
Definition withPassword : ResourceData :=
  mkResourceData "42"
    (<[ "password" := VString "old" ]> {[ "name" := VString "Engineering" ]})
    seconds30 nameLength.

End MoreScenarios.


(** * The validators of the account schema *)

Module AccountValidators.

(** [%v] of a slice of strings. *)
Definition formatStrings (l : list string) : string :=
  "[" +:+ String.concat " " l +:+ "]".

Section Validators.

(** [util.GetString], of [internal/helpers/type_assertion]. *)
Variable GetString : Value -> string.

(** The [ValidateFunc] of [enabled]: its warnings and its errors.  [%q] of
    the key is written with [strconv.quote], as for a key without
    characters to escape. *)
Definition validateEnabled (val : Value) (key : string)
  : list string * list error :=
  let warns : list string := [] in
  let errs : list error := [] in
  let v := GetString val in
  if String.eqb v "Enabled" || String.eqb v "Disabled" then (warns, errs)
  else
    let errs := append errs
      [ Errorf (strconv.quote key
                +:+ " must be either 'Enabled' or 'Disabled', got: " +:+ v) ] in
    (warns, errs).

(** The [ValidateFunc] of [access_level]. *)
Definition validateAccessLevel (val : Value) (key : string)
  : list string * list error :=
  let warns : list string := [] in
  let errs : list error := [] in
  let v := GetString val in
  if String.eqb v "Full Access" || String.eqb v "Site Access"
     || String.eqb v "Group Access"
  then (warns, errs)
  else
    let errs := append errs
      [ Errorf (strconv.quote key
                +:+ " must be either 'Full Access' or 'Site Access' or 'Group Access', got: "
                +:+ v) ] in
    (warns, errs).

Definition validPrivileges : list string :=
  [ "Administrator"; "Auditor"; "Enrollment Only"; "Custom" ].

(** The loop of the [ValidateFunc] of [privilege_set] over the valid
    values that are left: it returns at the first one equal to [v]. *)
Fixpoint validatePrivilegeLoop (v key : string) (rest : list string)
  : list string * list error :=
  let warns : list string := [] in
  let errs : list error := [] in
  match rest with
  | validPriv :: rest' =>
      if String.eqb v validPriv then (warns, errs)
      else validatePrivilegeLoop v key rest'
  | [] =>
      let errs := append errs
        [ Errorf (strconv.quote key +:+ " must be one of "
                  +:+ formatStrings validPrivileges +:+ ", got: " +:+ v) ] in
      (warns, errs)
  end.

(** The [ValidateFunc] of [privilege_set]. *)
Definition validatePrivilegeSet (val : Value) (key : string)
  : list string * list error :=
  let v := GetString val in
  validatePrivilegeLoop v key validPrivileges.

End Validators.

End AccountValidators.

(** * Properties *)

(** ** Running a bind *)

Lemma bind_returns {S A B} (m : M S A) (k : A -> M S B) s a s' :
  m s = Returns a s' -> bind m k s = k a s'.
Proof. intros H. unfold bind. rewrite H. reflexivity. Qed.

Lemma bind_panics {S A B} (m : M S A) (k : A -> M S B) s :
  m s = Panics -> bind m k s = Panics.
Proof. intros H. unfold bind. rewrite H. reflexivity. Qed.

Ltac run H := rewrite (bind_returns _ _ _ _ _ H).


Lemma call_returns {Call} {Resp : Call -> Type} {Remote}
  (conn : Client Call Resp Remote) c (s : Session Call Remote) r w :
  conn c (remote s) = (r, w) ->
  call conn c s = Returns r (mkSession (data s) w (calls s ++ [c])).
Proof. intros H. unfold call. rewrite H. reflexivity. Qed.

(** ** Reading and writing attributes *)

Lemma readAttr_string sch k d :
  assoc k sch = Some TypeString -> exists s, readAttr sch k d = VString s.
Proof.
  intros H. unfold readAttr. rewrite H.
  destruct (attrs d !! k) as [v|]; simpl; eauto.
  destruct (conforms TypeString v) eqn:E; simpl; eauto.
  destruct v; simpl in E; try discriminate; eauto.
Qed.

Lemma readAttr_withAttr_ne sch k k' v d :
  k <> k' -> readAttr sch k (withAttr k' v d) = readAttr sch k d.
Proof.
  intros Hne. unfold readAttr, withAttr. cbn [attrs].
  rewrite lookup_insert_ne by congruence. reflexivity.
Qed.

Lemma setFunc_withAttr k v d : setFunc (withAttr k v d) = setFunc d.
Proof. reflexivity. Qed.

Lemma setFunc_withId id d : setFunc (withId id d) = setFunc d.
Proof. reflexivity. Qed.

Lemma Set_returns {Call Remote} sch k v t (s : Session Call Remote) :
  assoc k sch = Some t -> conforms t v = true ->
  Set_ sch k v s
  = Returns None
      (mkSession (withAttr k (asStored t (setFunc (data s) k) v) (data s))
         (remote s) (calls s)).
Proof. intros Hk Hv. unfold Set_, writeAttr. rewrite Hk, Hv. reflexivity. Qed.

(** ** Sets *)

Section Sets.

Variable F : Value -> Z.

Lemma compare_trans a b c :
  String.compare a b = Lt -> String.compare b c = Lt -> String.compare a c = Lt.
Proof.
  intros Hab Hbc. apply String_as_OT.cmp_lt.
  exact (String_as_OT.lt_trans _ _ _ (proj1 (String_as_OT.cmp_lt a b) Hab)
           (proj1 (String_as_OT.cmp_lt b c) Hbc)).
Qed.

Lemma codesAfter_setAdd c c' v m :
  String.compare c c' = Lt -> codesAfter c m -> codesAfter c (setAdd c' v m).
Proof.
  intros Hc. induction m as [|[c0 v0] m IH]; intros Hb; cbn [setAdd].
  - constructor; [exact Hc|constructor].
  - apply Forall_cons in Hb. destruct Hb as [H0 Hb].
    destruct (String.compare c' c0) eqn:E.
    + constructor; assumption.
    + constructor; [exact Hc|]. constructor; assumption.
    + constructor; [exact H0|]. apply IH, Hb.
Qed.

Lemma inOrder_setAdd v m : inOrder F m -> inOrder F (setAdd (hashCode F v) v m).
Proof.
  induction 1 as [|c0 v0 m Hb Hc Hm IH]; cbn [setAdd].
  - constructor; [constructor|reflexivity|constructor].
  - destruct (String.compare (hashCode F v) c0) eqn:E.
    + constructor; assumption.
    + constructor; [|reflexivity|constructor; assumption].
      constructor; [exact E|].
      eapply Forall_impl; [exact Hb|]. intros e He. cbn beta in *.
      eapply compare_trans; eassumption.
    + constructor; [|exact Hc|exact IH].
      apply codesAfter_setAdd; [|exact Hb].
      rewrite String.compare_antisym, E. reflexivity.
Qed.

Lemma inOrder_newSet items : inOrder F (newSet F items).
Proof.
  unfold newSet. generalize (inOrder_nil F).
  generalize (@nil (string * Value)).
  induction items as [|v items IH]; intros m Hm; cbn [foldl]; [exact Hm|].
  apply IH, inOrder_setAdd, Hm.
Qed.

Lemma setAdd_last c v acc :
  Forall (fun e => String.compare e.1 c = Lt) acc ->
  setAdd c v acc = (acc ++ [(c, v)])%list.
Proof.
  induction acc as [|[c0 v0] acc IH]; intros H; cbn [setAdd]; [reflexivity|].
  apply Forall_cons in H. destruct H as [H0 H]. cbn [fst] in H0.
  rewrite String.compare_antisym, H0. cbn [CompOpp]. rewrite (IH H).
  reflexivity.
Qed.

Lemma newSet_again m : inOrder F m -> forall acc,
  Forall (fun a => codesAfter a.1 m) acc ->
  foldl (fun m item => setAdd (hashCode F item) item m) acc (map snd m)
  = (acc ++ m)%list.
Proof.
  induction 1 as [|c v m Hb Hc Hm IH]; intros acc Hacc; cbn [map foldl snd].
  - rewrite app_nil_r. reflexivity.
  - rewrite Hc, setAdd_last.
    + rewrite IH; [rewrite <- app_assoc; reflexivity|].
      apply Forall_app. split.
      * eapply Forall_impl; [exact Hacc|]. intros a Ha.
        apply Forall_cons in Ha. apply Ha.
      * constructor; [exact Hb|constructor].
    + eapply Forall_impl; [exact Hacc|]. intros a Ha.
      apply Forall_cons in Ha. apply Ha.
Qed.

(** The set built from the items of a set is that set. *)
Lemma setList_again items : setList F (setList F items) = setList F items.
Proof.
  unfold setList, newSet at 1.
  rewrite newSet_again; [reflexivity|apply inOrder_newSet|constructor].
Qed.

Lemma setAdd_items c v m e : e ∈ setAdd c v m -> e = (c, v) \/ e ∈ m.
Proof.
  induction m as [|[c0 v0] m IH]; cbn [setAdd].
  - intros H. apply list_elem_of_singleton in H. left. exact H.
  - destruct (String.compare c c0).
    + right. assumption.
    + intros H. apply elem_of_cons in H. destruct H as [->|H]; auto.
    + intros H. apply elem_of_cons in H. destruct H as [->|H].
      * right. apply list_elem_of_here.
      * destruct (IH H) as [->|Hin]; [left; reflexivity|].
        right. apply list_elem_of_further, Hin.
Qed.

(** Every item of the set is one of the items it was built from. *)
Lemma setList_items items v : v ∈ setList F items -> v ∈ items.
Proof.
  unfold setList, newSet.
  assert (G : forall m e,
             e ∈ foldl (fun m item => setAdd (hashCode F item) item m) m items ->
             e ∈ m \/ e.2 ∈ items).
  { induction items as [|x items IH]; intros m e; cbn [foldl]; [auto|].
    intros H. destruct (IH _ _ H) as [Hin|Hin].
    - destruct (setAdd_items _ _ _ _ Hin) as [->|Hm]; [|left; exact Hm].
      right. apply list_elem_of_here.
    - right. apply list_elem_of_further, Hin. }
  intros H. apply list_elem_of_In, in_map_iff in H.
  destruct H as ([c x] & <- & Hin). apply list_elem_of_In in Hin.
  destruct (G _ _ Hin) as [Hnil|Hx]; [inversion Hnil|exact Hx].
Qed.

End Sets.

(** ** Invariants of the resource data along a computation *)

Section Preserves.

Context {Call : Type} {Resp : Call -> Type} {Remote : Type}.
Abbreviation S := (Session Call Remote).
Abbreviation pres := (@preservesData Call Remote _).

Variable J : ResourceData -> Prop.

Lemma preserves_ret {A} (a : A) : pres J (ret a).
Proof. intros s b s' HJ [= _ <-]. exact HJ. Qed.

Lemma preserves_panic {A} : pres J (@panic S A).
Proof. intros s b s' _ [=]. Qed.

Lemma preserves_must {A} (o : option A) : pres J (must o).
Proof. destruct o; [apply preserves_ret | apply preserves_panic]. Qed.

Lemma preserves_bind {A B} (m : M S A) (k : A -> M S B) :
  pres J m -> (forall a, pres J (k a)) ->
  pres J (bind m k).
Proof.
  intros Hm Hk s b s' HJ. unfold bind.
  destruct (m s) as [a t|] eqn:E; [|discriminate].
  apply (Hk a t). exact (Hm _ _ _ HJ E).
Qed.

Lemma preserves_call (conn : Client Call Resp Remote) c :
  pres J (call conn c).
Proof.
  intros s a s' HJ. unfold call.
  destruct (conn c (remote s)) as [r w]. intros [= _ <-]. exact HJ.
Qed.

Lemma preserves_getId : pres J (@getId Call Remote).
Proof. intros s a s' HJ [= _ <-]. exact HJ. Qed.

Lemma preserves_Timeout key : pres J (@Timeout Call Remote key).
Proof. intros s a s' HJ [= _ <-]. exact HJ. Qed.

Lemma preserves_Get sch k : pres J (@Get Call Remote sch k).
Proof. intros s a s' HJ [= _ <-]. exact HJ. Qed.

Lemma preserves_GetOk sch k : pres J (@GetOk Call Remote sch k).
Proof. intros s a s' HJ [= _ <-]. exact HJ. Qed.

Lemma preserves_Set sch k v :
  (forall v' d, J d -> J (withAttr k v' d)) ->
  pres J (@Set_ Call Remote sch k v).
Proof.
  intros HW s a s' HJ. unfold Set_, writeAttr.
  destruct (assoc k sch) as [t|]; [destruct (conforms t v)|];
    intros [= _ <-]; cbn; auto.
Qed.

Lemma preserves_attempts {A} (f : A -> M S (A * option retry.RetryError)) :
  (forall a, pres J (f a)) ->
  forall n a r, pres J (retry.attempts n f a r).
Proof.
  intros Hf n. induction n as [|n IH]; intros a r; cbn [retry.attempts].
  - apply preserves_ret.
  - apply preserves_bind; [apply Hf|]. intros [a' [e|]]; [|apply preserves_ret].
    destruct (retry.Retryable e); [apply IH | apply preserves_ret].
Qed.

Lemma preserves_RetryContext {A} n (f : A -> M S (A * option retry.RetryError)) a :
  (forall a, pres J (f a)) -> pres J (retry.RetryContext n f a).
Proof. intros Hf. apply preserves_attempts, Hf. Qed.

End Preserves.

Create HintDb frame.

#[local] Hint Resolve preserves_ret preserves_panic preserves_must preserves_call
  preserves_getId preserves_Timeout preserves_Get preserves_GetOk : frame.

(** Splits a computation along its binds and case distinctions. *)
Ltac frame :=
  repeat first
    [ progress eauto 2 with frame
    | apply preserves_bind; [|intros ?]
    | apply preserves_RetryContext; intros ?
    | match goal with
      | |- preservesData _ (match ?x with _ => _ end) => destruct x
      | |- preservesData _ (let '(_, _) := ?x in _) => destruct x
      | |- preservesData _ (if ?x then _ else _) => destruct x
      end ].

(** ** Computations that never panic *)

Section Total.

Context {Call : Type} {Resp : Call -> Type} {Remote : Type}.
Abbreviation S := (Session Call Remote).

Lemma total_ret {A} (a : A) : total (ret a : M S A).
Proof. intros s [=]. Qed.

Lemma total_bind {A B} (m : M S A) (k : A -> M S B) :
  total m -> (forall a, total (k a)) -> total (bind m k).
Proof.
  intros Hm Hk s. unfold bind.
  destruct (m s) as [a t|] eqn:E; [apply Hk | intros _; exact (Hm s E)].
Qed.

Lemma total_call (conn : Client Call Resp Remote) c : total (call conn c).
Proof. intros s. unfold call. destruct (conn c (remote s)). intros [=]. Qed.

Lemma total_getId : total (@getId Call Remote).
Proof. intros s [=]. Qed.

Lemma total_Get sch k : total (@Get Call Remote sch k).
Proof. intros s [=]. Qed.

Lemma total_attempts {A} (f : A -> M S (A * option retry.RetryError)) :
  (forall a, total (f a)) -> forall n a r, total (retry.attempts n f a r).
Proof.
  intros Hf n. induction n as [|n IH]; intros a r; cbn [retry.attempts].
  - apply total_ret.
  - apply total_bind; [apply Hf|]. intros [a' [e|]]; [|apply total_ret].
    destruct (retry.Retryable e); [apply IH | apply total_ret].
Qed.

End Total.

Create HintDb total.

#[local] Hint Resolve total_ret total_call total_getId total_Get : total.

Ltac total :=
  repeat first
    [ progress eauto 2 with total
    | apply total_bind; [|intros ?]
    | match goal with
      | |- total (match ?x with _ => _ end) => destruct x
      | |- total (let '(_, _) := ?x in _) => destruct x
      | |- total (if ?x then _ else _) => destruct x
      end ].

(** ** Two runs side by side *)

Section Related.

Context {Call : Type} {Resp : Call -> Type} {Remote : Type}.
Abbreviation S := (Session Call Remote).
Abbreviation rel := (@related Call Remote _).

Variable P : S -> S -> Prop.
Hypothesis P_data : forall s1 s2, P s1 s2 -> data s1 = data s2.

Lemma related_ret {A} (a : A) : rel P P (ret a) (ret a).
Proof. intros s1 s2 HP. cbn. auto. Qed.

Lemma related_panic {A} (Q : S -> S -> Prop) : rel P Q (@panic S A) panic.
Proof. intros s1 s2 HP. exact I. Qed.

Lemma related_must {A} (o : option A) : rel P P (must o) (must o).
Proof. destruct o; [apply related_ret | apply related_panic]. Qed.

Lemma related_Get sch k : rel P P (Get sch k) (Get sch k).
Proof. intros s1 s2 HP. cbn. rewrite (P_data _ _ HP). auto. Qed.

Lemma related_GetOk sch k : rel P P (GetOk sch k) (GetOk sch k).
Proof. intros s1 s2 HP. cbn. rewrite (P_data _ _ HP). auto. Qed.

End Related.

Lemma related_bind {Call Remote A B} (P Q R : Session Call Remote -> _ -> Prop)
  (m1 m2 : M _ A) (k1 k2 : A -> M _ B) :
  related P Q m1 m2 -> (forall a, related Q R (k1 a) (k2 a)) ->
  related P R (bind m1 k1) (bind m2 k2).
Proof.
  intros Hm Hk s1 s2 HP. specialize (Hm s1 s2 HP). unfold bind.
  destruct (m1 s1) as [a1 t1|], (m2 s2) as [a2 t2|]; try contradiction; [|exact I].
  destruct Hm as [<- HQ]. exact (Hk a1 t1 t2 HQ).
Qed.

Lemma related_call {Call} {Resp : Call -> Type} {Remote}
  (c1 c2 : Client Call Resp Remote) c w1 w2 :
  fst (c1 c w1) = fst (c2 c w2) ->
  related (sameDataAt w1 w2) sameData (call c1 c) (call c2 c).
Proof.
  intros H s1 s2 (Hd & H1 & H2). subst w1 w2. unfold call.
  destruct (c1 c (remote s1)) as [r1 v1], (c2 c (remote s2)) as [r2 v2].
  cbn in H. subst r2. split; [reflexivity | exact Hd].
Qed.

Lemma sameDataAt_data {Call Remote} (w1 w2 : Remote) (s1 s2 : Session Call Remote) :
  sameDataAt w1 w2 s1 s2 -> data s1 = data s2.
Proof. intros [H _]. exact H. Qed.

Lemma sameData_data {Call Remote} (s1 s2 : Session Call Remote) :
  sameData s1 s2 -> data s1 = data s2.
Proof. intros H. exact H. Qed.

Lemma related_value {Call Remote A} (P Q : Session Call Remote -> _ -> Prop)
  (m1 m2 : M _ A) s1 s2 :
  related P Q m1 m2 -> P s1 s2 -> value (m1 s1) = value (m2 s2).
Proof.
  intros H HP. specialize (H s1 s2 HP).
  destruct (m1 s1), (m2 s2); cbn; try contradiction; [|reflexivity].
  destruct H as [-> _]. reflexivity.
Qed.

Create HintDb rel.

#[local] Hint Resolve related_ret related_panic related_must related_Get
  related_GetOk sameDataAt_data sameData_data : rel.

Ltac relate :=
  repeat first
    [ progress eauto 3 with rel
    | eapply related_bind; [|intros ?]
    | match goal with
      | |- related _ _ (match ?x with _ => _ end) (match ?x with _ => _ end) =>
          destruct x
      | |- related _ _ (let '(_, _) := ?x in _) (let '(_, _) := ?x in _) =>
          destruct x
      | |- related _ _ (if ?x then _ else _) (if ?x then _ else _) => destruct x
      end ].

(** ** Departments *)

Module DepartmentLemmas.
Import Departments.

Section DepartmentFrames.
Context {Remote : Type}.
Variable conn : Client Call Resp Remote.
Variable J : ResourceData -> Prop.

Lemma department_construct_frame : preservesData J (@constructJamfProDepartment Remote).
Proof. unfold constructJamfProDepartment. frame. Qed.

Lemma department_update_frame id name dep u :
  preservesData J (updateAttempt conn id name dep u).
Proof. unfold updateAttempt. frame. Qed.

Lemma department_delete_frame id name u :
  preservesData J (deleteAttempt conn id name u).
Proof. unfold deleteAttempt. frame. Qed.
End DepartmentFrames.

Section DepartmentCallbacks.

Context {Remote : Type}.
Variable conn : Client Call Resp Remote.
Implicit Types s : Session Call Remote.

Lemma department_name s :
  exists name, readAttr resourceSchema "name" (data s) = VString name.
Proof. apply readAttr_string. reflexivity. Qed.

Lemma department_construct s name :
  readAttr resourceSchema "name" (data s) = VString name ->
  constructJamfProDepartment s = Returns (inl (mkDepartment "" name)) s.
Proof.
  intros Hn. unfold constructJamfProDepartment.
  cbn [bind Get ret must]. rewrite Hn. reflexivity.
Qed.

Lemma department_read_failure s department e s1 :
  retry.RetryContext (TimeoutRead (timeouts (data s)))
    (readAttempt conn (Id (data s))) None s = Returns (department, Some e) s1 ->
  exists dg,
    ResourceJamfProDepartmentsRead (APIClient conn) s
    = Returns [dg] (mkSession (withId "" (data s1)) (remote s1) (calls s1)).
Proof.
  intros H. unfold ResourceJamfProDepartmentsRead.
  cbn [bind getId Timeout]. rewrite (bind_returns _ _ _ _ _ H).
  cbn. eexists. reflexivity.
Qed.

Lemma department_read_attempt_frame J id a :
  preservesData J (readAttempt conn id a).
Proof. unfold readAttempt. frame. Qed.


Lemma department_create_readback_failure s name created w department e s2 :
  readAttr resourceSchema "name" (data s) = VString name ->
  conn (CreateDepartment (mkDepartment "" name)) (remote s)
    = ((Some created, None), w) ->
  retry.RetryContext (TimeoutRead (timeouts (data s)))
    (readAttempt conn (ID created)) None
    (mkSession (withId (ID created) (data s)) w
       (calls s ++ [CreateDepartment (mkDepartment "" name)]))
    = Returns (department, Some e) s2 ->
  exists dg,
    ResourceJamfProDepartmentsCreate (APIClient conn) s
    = Returns [dg] (mkSession (withId "" (data s2)) (remote s2) (calls s2)).
Proof.
  intros Hn Hc Hr. unfold ResourceJamfProDepartmentsCreate.
  cbn [bind Get ret must]. rewrite Hn. cbn [asString must ret bind].
  run (department_construct s name Hn).
  run (call_returns conn _ s _ _ Hc).
  cbn [must ret bind SetId modifyData].
  destruct (department_read_failure
              (mkSession (withId (ID created) (data s)) w
                 (calls s ++ [CreateDepartment (mkDepartment "" name)]))
              _ _ _ Hr) as [dg Hd].
  run Hd. eexists. reflexivity.
Qed.

Lemma department_read_success s dep s1 :
  retry.RetryContext (TimeoutRead (timeouts (data s)))
    (readAttempt conn (Id (data s))) None s = Returns (Some dep, None) s1 ->
  ResourceJamfProDepartmentsRead (APIClient conn) s
  = Returns []
      (mkSession
         (withAttr "name" (VString (Name dep)) (withId (Id (data s)) (data s1)))
         (remote s1) (calls s1)).
Proof.
  intros H. unfold ResourceJamfProDepartmentsRead.
  cbn [bind getId Timeout]. run H. reflexivity.
Qed.

Lemma department_update_failure s name e s1 :
  readAttr resourceSchema "name" (data s) = VString name ->
  retry.RetryContext (TimeoutUpdate (timeouts (data s)))
    (updateAttempt conn (Id (data s)) name (mkDepartment "" name)) tt s
    = Returns (tt, Some e) s1 ->
  exists dg,
    ResourceJamfProDepartmentsUpdate (APIClient conn) s = Returns [dg] s1
    /\ data s1 = data s.
Proof.
  intros Hn H. unfold ResourceJamfProDepartmentsUpdate.
  cbn [bind getId Get ret must]. rewrite Hn. cbn [asString must ret bind].
  run (department_construct s name Hn). cbn [bind Timeout]. run H.
  cbn. eexists. split; [reflexivity|].
  refine (preserves_RetryContext (fun d => d = data s) _ _ _ _ s _ _ eq_refl H).
  intros u. apply department_update_frame.
Qed.

Lemma department_delete_outcome s name :
  readAttr resourceSchema "name" (data s) = VString name ->
  exists s1,
    data s1 = data s /\
    ((exists e dg,
        retry.RetryContext (TimeoutDelete (timeouts (data s)))
          (deleteAttempt conn (Id (data s)) name) tt s = Returns (tt, Some e) s1
        /\ ResourceJamfProDepartmentsDelete (APIClient conn) s = Returns [dg] s1)
     \/
     (retry.RetryContext (TimeoutDelete (timeouts (data s)))
        (deleteAttempt conn (Id (data s)) name) tt s = Returns (tt, None) s1
      /\ ResourceJamfProDepartmentsDelete (APIClient conn) s
         = Returns [] (mkSession (withId "" (data s1)) (remote s1) (calls s1)))).
Proof.
  intros Hn. unfold ResourceJamfProDepartmentsDelete.
  cbn [bind getId Get ret must]. rewrite Hn. cbn [asString must ret bind Timeout].
  destruct (retry.RetryContext (TimeoutDelete (timeouts (data s)))
              (deleteAttempt conn (Id (data s)) name) tt s) as [[[] err] s1|] eqn:H.
  - exists s1. split.
    + refine (preserves_RetryContext (fun d => d = data s) _ _ _ _ s _ _ eq_refl H).
      intros u. apply department_delete_frame.
    + run H. destruct err as [e|]; cbn.
      * left. eauto.
      * right. eauto.
  - exfalso. revert H. apply total_attempts. intros u. unfold deleteAttempt. total.
Qed.

(** No diagnostic of a callback reports a failed construction. *)
Lemma department_read_reports meta s diags s' :
  ResourceJamfProDepartmentsRead (Remote := Remote) meta s = Returns diags s' ->
  Forall (fun dg => reportsConstructionFailure dg = false) diags.
Proof.
  destruct meta as [c|]; [|intros [= <- _]; repeat constructor].
  unfold ResourceJamfProDepartmentsRead. cbn [bind getId Timeout].
  unfold bind at 1.
  destruct (retry.RetryContext _ _ _ _) as [[dep [e|]] s1|]; [| |discriminate].
  - cbn. intros [= <- _]. repeat constructor.
  - destruct dep as [dep|]; cbn; intros [= <- _]; constructor.
Qed.

Lemma department_create_reports meta s diags s' :
  ResourceJamfProDepartmentsCreate (Remote := Remote) meta s = Returns diags s' ->
  Forall (fun dg => reportsConstructionFailure dg = false) diags.
Proof.
  destruct meta as [c|]; [|intros [= <- _]; repeat constructor].
  destruct (department_name s) as [n Hn].
  unfold ResourceJamfProDepartmentsCreate.
  cbn [bind Get ret must]. rewrite Hn. cbn [asString must ret bind].
  run (department_construct s n Hn). unfold bind at 1, call.
  destruct (c _ _) as [[created [e|]] w].
  - cbn. intros [= <- _]. repeat constructor.
  - destruct created as [created|]; [|discriminate].
    cbn [must ret bind SetId modifyData]. unfold bind.
    destruct (ResourceJamfProDepartmentsRead _ _) as [readDiags t|] eqn:Hr;
      [|discriminate].
    intros [= <- _]. exact (department_read_reports _ _ _ _ Hr).
Qed.

Lemma department_update_reports meta s diags s' :
  ResourceJamfProDepartmentsUpdate (Remote := Remote) meta s = Returns diags s' ->
  Forall (fun dg => reportsConstructionFailure dg = false) diags.
Proof.
  destruct meta as [c|]; [|intros [= <- _]; repeat constructor].
  destruct (department_name s) as [n Hn].
  unfold ResourceJamfProDepartmentsUpdate.
  cbn [bind getId Get ret must]. rewrite Hn. cbn [asString must ret bind].
  run (department_construct s n Hn). cbn [bind Timeout]. unfold bind at 1.
  destruct (retry.RetryContext _ _ _ _) as [[[] [e|]] s1|]; [| |discriminate].
  - cbn. intros [= <- _]. repeat constructor.
  - cbn [snd]. unfold bind.
    destruct (ResourceJamfProDepartmentsRead _ _) as [readDiags t|] eqn:Hr;
      [|discriminate].
    intros [= <- _]. exact (department_read_reports _ _ _ _ Hr).
Qed.

End DepartmentCallbacks.

End DepartmentLemmas.

(** ** Accounts *)

Module AccountLemmas.
Import Accounts.

Section AccountCallbacks.

Context {Remote : Type} {util : TypeAssertion}.
Variable conn : Client Call Resp Remote.
Implicit Types s : Session Call Remote.

Lemma diagnostics_of_error e action s :
  exists dg, generateTFDiagsFromHTTPError e action s = Returns [dg] s.
Proof.
  unfold generateTFDiagsFromHTTPError. cbn [bind GetOk ret].
  destruct (asAPIError e) as [[code msg]|]; cbn; eauto.
Qed.

Section Frames.
Variable J : ResourceData -> Prop.

Lemma firstIdName_frame k : preservesData J (@firstIdName Remote util k).
Proof. unfold firstIdName. frame. Qed.

Lemma constructGroups_frame ids items :
  forall groups, preservesData J (@constructGroups Remote ids items groups).
Proof.
  induction items as [|i items IH]; intros groups; cbn [constructGroups];
    frame; try apply IH.
Qed.

Hint Resolve firstIdName_frame constructGroups_frame : frame.

Lemma account_construct_frame : preservesData J (constructJamfProAccount conn).
Proof. unfold constructJamfProAccount. frame. Qed.

Hint Resolve account_construct_frame : frame.

Lemma account_read_attempt_frame a : preservesData J (readAttempt conn a).
Proof. unfold readAttempt. frame. Qed.

Lemma account_create_attempt_frame a : preservesData J (createAttempt conn a).
Proof. unfold createAttempt. frame. Qed.

Lemma account_update_attempt_frame u : preservesData J (updateAttempt conn u).
Proof. unfold updateAttempt. frame. Qed.

Lemma account_delete_attempt_frame u : preservesData J (deleteAttempt conn u).
Proof. unfold deleteAttempt. frame. Qed.

Lemma diagnostics_frame e action :
  preservesData J (@generateTFDiagsFromHTTPError Remote e action).
Proof. unfold generateTFDiagsFromHTTPError. frame. Qed.

End Frames.

Hint Resolve account_read_attempt_frame diagnostics_frame : frame.

Lemma writeAccount_keeps_id account x :
  preservesData (fun d => Id d = x) (@writeAccount Remote account).
Proof.
  unfold writeAccount, setOrReturn.
  frame; apply preserves_Set; intros v' d Hd; exact Hd.
Qed.

Hint Resolve writeAccount_keeps_id : frame.

(** Reading an account writes attributes only: the identifier stays. *)
Lemma account_read_keeps_id meta x :
  preservesData (fun d => Id d = x) (@ResourceJamfProAccountRead Remote meta).
Proof. unfold ResourceJamfProAccountRead. destruct meta as [c|]; frame. Qed.

Hint Resolve account_read_keeps_id : frame.

Lemma account_readback_frame meta msg x u :
  preservesData (fun d => Id d = x) (@readBackAttempt Remote meta msg u).
Proof. unfold readBackAttempt. frame. Qed.

Hint Resolve account_readback_frame account_create_attempt_frame
  account_update_attempt_frame account_delete_attempt_frame : frame.

(** The constructor reads the resource data and makes one call. *)
Lemma firstIdName_unchanged k s r s1 :
  firstIdName k s = Returns r s1 -> s1 = s.
Proof.
  unfold firstIdName. cbn [bind GetOk ret].
  destruct (negb _); cbn [bind ret must panic]; [|intros [= _ <-]; reflexivity].
  destruct (asList _) as [l|]; cbn [bind ret must panic]; [|discriminate].
  destruct l as [|f l]; [intros [= _ <-]; reflexivity|].
  destruct (isNil f); [intros [= _ <-]; reflexivity|].
  destruct (asMap f); cbn [bind ret must panic]; [|discriminate].
  intros [= _ <-]; reflexivity.
Qed.

Lemma constructGroups_unchanged ids items :
  forall groups s r s1,
    constructGroups ids items groups s = Returns r s1 -> s1 = s.
Proof.
  induction items as [|i items IH]; intros groups s r s1;
    cbn [constructGroups bind ret must].
  - intros [= _ <-]. reflexivity.
  - destruct (asMap i) as [m|]; cbn [bind ret must panic]; [|discriminate].
    destruct (asString (index m "name")) as [n|]; cbn [bind ret must panic];
      [|discriminate].
    destruct (ids !! n); [apply IH|]. intros [= _ <-]. reflexivity.
Qed.

Lemma account_construct_calls s r s1 :
  constructJamfProAccount conn s = Returns r s1 ->
  s1 = mkSession (data s) (snd (conn GetAccounts (remote s)))
         (calls s ++ [GetAccounts]).
Proof.
  unfold constructJamfProAccount. cbn [bind Get ret].
  destruct (asBool (readAttr resourceSchema "directory_user" (data s)));
    cbn [bind ret must panic Get]; [|discriminate].
  destruct (asBool (readAttr resourceSchema "force_password_change" (data s)));
    cbn [bind ret must panic Get]; [|discriminate].
  unfold bind at 1.
  destruct (firstIdName "ldap_server" s) as [l t|] eqn:E1; [|discriminate].
  apply firstIdName_unchanged in E1; subst t.
  unfold bind at 1.
  destruct (firstIdName "site" s) as [l2 t|] eqn:E2; [|discriminate].
  apply firstIdName_unchanged in E2; subst t.
  unfold bind at 1. unfold call.
  destruct (conn GetAccounts (remote s)) as [[all err] w]. cbn [snd].
  destruct err as [e|]; [intros [= _ <-]; reflexivity|].
  destruct all as [all|]; cbn [bind ret must panic]; [|discriminate].
  cbn [bind GetOk ret data].
  destruct (negb _).
  - unfold bind at 1. unfold bind at 1.
    destruct (asList _); cbn [must ret panic]; [|discriminate].
    match goal with
    | |- context [constructGroups ?a ?b ?c ?d] =>
        destruct (constructGroups a b c d) as [g t|] eqn:E3; [|discriminate]
    end.
    apply constructGroups_unchanged in E3; subst t.
    destruct g; cbn; intros [= _ <-]; reflexivity.
  - cbn. intros [= _ <-]; reflexivity.
Qed.

(** *** Read *)

Lemma account_read_attempt_by_id_error s id a e w account :
  strconv.Atoi (Id (data s)) = inl id ->
  conn (GetAccountByID id) (remote s) = ((a, Some e), w) ->
  readAttempt conn account s =
    match asAPIError e with
    | Some (code, msg) =>
        Returns (a, Some (retry.NonRetryableError (apiErrorf code msg)))
          (mkSession (data s) w (calls s ++ [GetAccountByID id]))
    | None =>
        let name := formatName (readAttr resourceSchema "name" (data s)) in
        let '(r, w') := conn (GetAccountByName name) w in
        Returns
          (fst r,
           match snd r with
           | None => None
           | Some e' =>
               Some (match asAPIError e' with
                     | Some (code, msg) =>
                         retry.NonRetryableError (apiErrorf code msg)
                     | None => retry.RetryableError e'
                     end)
           end)
          (mkSession (data s) w'
             (calls s ++ [GetAccountByID id; GetAccountByName name]))
    end.
Proof.
  intros Hid Hc. unfold readAttempt. cbn [bind getId]. rewrite Hid.
  run (call_returns conn _ s _ _ Hc).
  destruct (asAPIError e) as [[code msg]|]; [reflexivity|].
  cbn [bind Get].
  destruct (readAttr_string resourceSchema "name" (data s) eq_refl) as [n Hn].
  cbn [data]. rewrite Hn. cbn [asString formatName].
  unfold bind, call. cbn [remote data calls].
  destruct (conn (GetAccountByName n) w) as [[a' [e'|]] w']; cbn [fst snd].
  - destruct (asAPIError e') as [[code msg]|]; cbn [ret];
      rewrite <- app_assoc; reflexivity.
  - cbn [ret]. rewrite <- app_assoc. reflexivity.
Qed.

Lemma account_read_attempt_unparsed s err account :
  strconv.Atoi (Id (data s)) = inr err ->
  readAttempt conn account s
  = Returns
      (account,
       Some (retry.NonRetryableError (Errorf
         ("error converting id (" +:+ Id (data s) +:+ ") to integer: "
          +:+ Error err)))) s.
Proof.
  intros Hid. unfold readAttempt. cbn [bind getId]. rewrite Hid. reflexivity.
Qed.

Lemma account_read_unparsed s err :
  strconv.Atoi (Id (data s)) = inr err ->
  exists dg, ResourceJamfProAccountRead (APIClient conn) s = Returns [dg] s.
Proof.
  intros Hid. unfold ResourceJamfProAccountRead. cbn [bind Timeout].
  unfold retry.RetryContext.
  destruct (TimeoutRead (timeouts (data s))) as [|n]; cbn [retry.attempts].
  - cbn [bind ret]. apply diagnostics_of_error.
  - unfold bind at 1. run (account_read_attempt_unparsed s err None Hid).
    cbn [retry.Retryable retry.NonRetryableError retry.Err bind ret].
    apply diagnostics_of_error.
Qed.

Lemma account_read_failure s account e s1 :
  retry.RetryContext (TimeoutRead (timeouts (data s))) (readAttempt conn) None s
    = Returns (account, Some e) s1 ->
  exists dg,
    ResourceJamfProAccountRead (APIClient conn) s = Returns [dg] s1
    /\ data s1 = data s.
Proof.
  intros H. unfold ResourceJamfProAccountRead. cbn [bind Timeout]. run H.
  destruct (diagnostics_of_error e "read" s1) as [dg Hd].
  exists dg. split; [exact Hd|].
  refine (preserves_RetryContext (fun d => d = data s) _ _ _ _ s _ _ eq_refl H).
  intros a. apply account_read_attempt_frame.
Qed.

(** *** Create *)



Lemma account_create_readback_failure s created s1 e s2 :
  retry.RetryContext (TimeoutCreate (timeouts (data s))) (createAttempt conn) None s
    = Returns (Some created, None) s1 ->
  retry.RetryContext (TimeoutRead (timeouts (data s1)))
    (readBackAttempt (APIClient conn) "failed to read the created resource") tt
    (mkSession (withId (strconv.Itoa (Created_ID created)) (data s1))
       (remote s1) (calls s1))
    = Returns (tt, Some e) s2 ->
  exists dg,
    ResourceJamfProAccountCreate (APIClient conn) s = Returns [dg] s2
    /\ Id (data s2) = strconv.Itoa (Created_ID created).
Proof.
  intros Hc Hr. unfold ResourceJamfProAccountCreate. cbn [bind Timeout]. run Hc.
  cbn [must bind ret SetId modifyData Timeout]. run Hr. cbn [snd].
  destruct (diagnostics_of_error e "update state for" s2) as [dg Hd].
  exists dg. split; [exact Hd|].
  refine (preserves_RetryContext
            (fun d => Id d = strconv.Itoa (Created_ID created)) _ _ _ _ _ _ _ _ Hr);
    [|reflexivity].
  intros u. apply account_readback_frame.
Qed.

(** *** Update *)

Lemma account_update_attempt_unparsed s err :
  strconv.Atoi (Id (data s)) = inr err ->
  updateAttempt conn tt s =
    match constructJamfProAccount conn s with
    | Panics => Panics
    | Returns r s1 =>
        Returns
          (tt,
           Some (retry.NonRetryableError (Errorf
             match r with
             | inr e =>
                 "failed to construct the account for terraform update: "
                 +:+ Error e
             | inl _ =>
                 "error converting id (" +:+ Id (data s) +:+ ") to integer: "
                 +:+ Error err
             end)))
          s1
    end.
Proof.
  intros Hid. unfold updateAttempt. unfold bind at 1.
  destruct (constructJamfProAccount conn s) as [[account|e] s1|] eqn:E;
    [|reflexivity|reflexivity].
  cbn [bind getId]. rewrite (account_construct_calls _ _ _ E). cbn [data].
  rewrite Hid. reflexivity.
Qed.

Lemma account_update_unparsed s err r s1 :
  strconv.Atoi (Id (data s)) = inr err ->
  constructJamfProAccount conn s = Returns r s1 ->
  exists dg,
    ResourceJamfProAccountUpdate (APIClient conn) s
    = Returns [dg]
        match TimeoutUpdate (timeouts (data s)) with
        | O => s
        | Datatypes.S _ => s1
        end.
Proof.
  intros Hid Hk. unfold ResourceJamfProAccountUpdate. cbn [bind Timeout].
  unfold retry.RetryContext.
  destruct (TimeoutUpdate (timeouts (data s))) as [|n]; cbn [retry.attempts].
  - cbn [bind ret snd]. apply diagnostics_of_error.
  - unfold bind at 1. unfold bind at 1.
    rewrite (account_update_attempt_unparsed s err Hid), Hk.
    cbn [retry.Retryable retry.NonRetryableError retry.Err bind ret snd].
    apply diagnostics_of_error.
Qed.

Lemma account_update_failure s e s1 :
  retry.RetryContext (TimeoutUpdate (timeouts (data s))) (updateAttempt conn) tt s
    = Returns (tt, Some e) s1 ->
  exists dg,
    ResourceJamfProAccountUpdate (APIClient conn) s = Returns [dg] s1
    /\ data s1 = data s.
Proof.
  intros H. unfold ResourceJamfProAccountUpdate. cbn [bind Timeout]. run H.
  cbn [snd]. destruct (diagnostics_of_error e "update" s1) as [dg Hd].
  exists dg. split; [exact Hd|].
  refine (preserves_RetryContext (fun d => d = data s) _ _ _ _ s _ _ eq_refl H).
  intros u. apply account_update_attempt_frame.
Qed.

(** *** Delete *)

Lemma account_delete_attempt_total u : total (deleteAttempt conn u).
Proof. unfold deleteAttempt. total. Qed.

Lemma account_delete_outcome s :
  exists s1,
    data s1 = data s /\
    ((exists e dg,
        retry.RetryContext (TimeoutDelete (timeouts (data s)))
          (deleteAttempt conn) tt s = Returns (tt, Some e) s1
        /\ ResourceJamfProAccountDelete (APIClient conn) s = Returns [dg] s1)
     \/
     (retry.RetryContext (TimeoutDelete (timeouts (data s)))
        (deleteAttempt conn) tt s = Returns (tt, None) s1
      /\ ResourceJamfProAccountDelete (APIClient conn) s
         = Returns [] (mkSession (withId "" (data s1)) (remote s1) (calls s1)))).
Proof.
  unfold ResourceJamfProAccountDelete. cbn [bind Timeout].
  destruct (retry.RetryContext (TimeoutDelete (timeouts (data s)))
              (deleteAttempt conn) tt s) as [[[] err] s1|] eqn:H.
  - exists s1. split.
    + refine (preserves_RetryContext (fun d => d = data s) _ _ _ _ s _ _ eq_refl H).
      intros u. apply account_delete_attempt_frame.
    + run H. destruct err as [e|]; cbn [snd].
      * left. destruct (diagnostics_of_error e "delete" s1) as [dg Hd]. eauto.
      * right. split; reflexivity.
  - exfalso. revert H. apply total_attempts. apply account_delete_attempt_total.
Qed.

Lemma account_delete_unparsed s err :
  strconv.Atoi (Id (data s)) = inr err ->
  deleteAttempt conn tt s
  = Returns
      (tt, Some (retry.NonRetryableError (Errorf
         ("failed to parse dock item ID: " +:+ Error err)))) s
  /\ exists dg, ResourceJamfProAccountDelete (APIClient conn) s = Returns [dg] s.
Proof.
  intros Hid.
  assert (Ha : deleteAttempt conn tt s
               = Returns
                   (tt, Some (retry.NonRetryableError (Errorf
                      ("failed to parse dock item ID: " +:+ Error err)))) s).
  { unfold deleteAttempt. cbn [bind getId]. rewrite Hid. reflexivity. }
  split; [exact Ha|].
  unfold ResourceJamfProAccountDelete. cbn [bind Timeout].
  unfold retry.RetryContext.
  destruct (TimeoutDelete (timeouts (data s))) as [|n]; cbn [retry.attempts].
  - cbn [bind ret snd]. apply diagnostics_of_error.
  - unfold bind at 1. run Ha.
    cbn [retry.Retryable retry.NonRetryableError retry.Err bind ret snd].
    apply diagnostics_of_error.
Qed.

End AccountCallbacks.

(** *** What a read writes *)

Section AccountWrites.

Context {Remote : Type}.
Implicit Types s : Session Call Remote.

Lemma conforms_strings l : conforms (TypeList TypeString) (strings l) = true.
Proof. unfold strings. cbn [conforms]. induction l; cbn; auto. Qed.

Lemma conforms_idNameBlock id name :
  conforms (TypeList idNameResource) (idNameBlock id name) = true.
Proof. unfold idNameBlock. destruct (_ || _); reflexivity. Qed.

Lemma conforms_groupValue group : conforms groupResource (groupValue group) = true.
Proof.
  unfold groupValue, groupResource, privilegeLists.
  cbn [conforms forallb assoc app String.eqb Ascii.eqb Bool.eqb].
  rewrite !conforms_strings, conforms_idNameBlock. reflexivity.
Qed.

Lemma conforms_groups groups :
  conforms (TypeSet groupResource) (VList (map groupValue groups)) = true.
Proof.
  cbn [conforms]. induction groups as [|g groups IH]; cbn [map forallb];
    [reflexivity|].
  rewrite conforms_groupValue. exact IH.
Qed.

Ltac conformance :=
  first [ apply conforms_strings | apply conforms_idNameBlock
        | apply conforms_groups | reflexivity ].

(** Runs the next [d.Set]. *)
Ltac store :=
  erewrite bind_returns by (eapply Set_returns; [reflexivity | conformance]);
  cbn beta iota; cbn [data remote calls asStored]; rewrite ?setFunc_withAttr.

Ltac stored :=
  cbn [attrs withAttr data setFunc];
  rewrite ?lookup_insert_ne by discriminate;
  first [ apply lookup_insert_eq | reflexivity ].

(** The values the Read builds are the ones the statements speak of. *)
Lemma strings_stringsOf l : strings l = stringsOf l.
Proof. reflexivity. Qed.

Lemma idNameBlock_blockOf id name : idNameBlock id name = blockOf id name.
Proof.
  unfold idNameBlock, blockOf.
  destruct (Z.eqb_spec id 0) as [->|Hid], (String.eqb_spec name "") as [->|Hn];
    cbn [negb orb]; destruct (decide _) as [[? ?]|Hno]; try reflexivity;
    try congruence; exfalso; apply Hno; split; reflexivity.
Qed.

Lemma groupValue_groupEntry group : groupValue group = groupEntry group.
Proof. unfold groupValue, groupEntry. rewrite idNameBlock_blockOf. reflexivity. Qed.

Lemma groupValues_groupEntries groups :
  map groupValue groups = (groupEntry <$> groups).
Proof. apply map_ext. intros g. apply groupValue_groupEntry. Qed.

Lemma writeAccount_returns account s :
  exists d',
    writeAccount account s = Returns [] (mkSession d' (remote s) (calls s))
    /\ Id d' = Id (data s)
    /\ timeouts d' = timeouts (data s)
    /\ holdsAccount account d'
    /\ attrs d' !! "password"
       = (if isZero (readAttr resourceSchema "password" (data s))
          then attrs (data s) !! "password"
          else Some (VString (Password account)))
    /\ setFunc d' = setFunc (data s)
    /\ attrs d' !! "email_address" = attrs (data s) !! "email_address".
Proof.
  destruct (isZero (readAttr resourceSchema "password" (data s))) eqn:Hp;
    eexists; (split; [|split; [|split; [|split; [|split; [|split]]]]]).
  - unfold writeAccount, setOrReturn. do 8 store.
    cbn [bind GetOk data remote calls].
    rewrite !readAttr_withAttr_ne by discriminate. rewrite Hp.
    cbn [negb snd bind ret]. do 10 store. reflexivity.
  - reflexivity.
  - reflexivity.
  - unfold holdsAccount; cbn zeta.
    rewrite <- !idNameBlock_blockOf, <- groupValues_groupEntries.
    repeat split; stored.
  - stored.
  - reflexivity.
  - stored.
  - unfold writeAccount, setOrReturn. do 8 store.
    cbn [bind GetOk data remote calls].
    rewrite !readAttr_withAttr_ne by discriminate. rewrite Hp.
    cbn [negb snd bind ret]. do 11 store. reflexivity.
  - reflexivity.
  - reflexivity.
  - unfold holdsAccount; cbn zeta.
    rewrite <- !idNameBlock_blockOf, <- groupValues_groupEntries.
    repeat split; stored.
  - stored.
  - reflexivity.
  - stored.
Qed.

End AccountWrites.

(** *** The constructor in two runs *)

Section AccountConstructor.

Context {Remote : Type} {util : TypeAssertion}.
Implicit Types s : Session Call Remote.

Section Pure.
Variable P : Session Call Remote -> Session Call Remote -> Prop.
Hypothesis P_data : forall s1 s2, P s1 s2 -> data s1 = data s2.

Lemma related_firstIdName k : related P P (firstIdName k) (firstIdName k).
Proof. unfold firstIdName. relate. Qed.

Lemma related_constructGroups ids items :
  forall groups,
    related P P (constructGroups ids items groups)
                (constructGroups ids items groups).
Proof.
  induction items as [|i items IH]; intros groups; cbn [constructGroups];
    relate; try apply IH.
Qed.
End Pure.

Hint Resolve related_firstIdName related_constructGroups : rel.

Lemma related_construct (c1 c2 : Client Call Resp Remote) w1 w2 :
  fst (c1 GetAccounts w1) = fst (c2 GetAccounts w2) ->
  related (sameDataAt w1 w2) sameData
    (constructJamfProAccount c1) (constructJamfProAccount c2).
Proof.
  intros H. unfold constructJamfProAccount.
  do 13 (eapply related_bind; [solve [eauto 3 with rel]|intros ?]).
  eapply related_bind; [apply related_call, H|intros [all [e|]]]; relate.
Qed.

End AccountConstructor.

End AccountLemmas.

(** * Attempts, calls and outcomes *)

(** ** The first attempt of a retry loop *)

Section FirstAttempt.

Context {S A : Type}.
Variable f : A -> M S (A * option retry.RetryError).

Lemma attempts_success n a r s a' s' :
  f a s = Returns (a', None) s' ->
  retry.attempts (Datatypes.S n) f a r s = Returns (a', None) s'.
Proof. intros H. cbn [retry.attempts]. run H. reflexivity. Qed.

Lemma attempts_nonretryable n a r s a' e s' :
  f a s = Returns (a', Some (retry.NonRetryableError e)) s' ->
  retry.attempts (Datatypes.S n) f a r s = Returns (a', Some e) s'.
Proof. intros H. cbn [retry.attempts]. run H. reflexivity. Qed.

Lemma attempts_retryable n a r s a' e s' :
  f a s = Returns (a', Some (retry.RetryableError e)) s' ->
  retry.attempts (Datatypes.S n) f a r s = retry.attempts n f a' (Some e) s'.
Proof. intros H. cbn [retry.attempts]. run H. reflexivity. Qed.

End FirstAttempt.

Module AccountAttempts.
Import Accounts AccountLemmas.

Section WithClient.

Context {Remote : Type} {util : TypeAssertion}.
Variable conn : Client Call Resp Remote.
Implicit Types s : Session Call Remote.

Lemma account_name s :
  readAttr resourceSchema "name" (data s)
  = VString (formatName (readAttr resourceSchema "name" (data s))).
Proof.
  destruct (readAttr_string resourceSchema "name" (data s) eq_refl) as [n Hn].
  rewrite Hn. reflexivity.
Qed.

Lemma account_update_by_id s s1 account id u apiErr w :
  constructJamfProAccount conn s = Returns (inl account) s1 ->
  strconv.Atoi (Id (data s)) = inl id ->
  conn (UpdateAccountByID id account) (remote s1) = ((u, apiErr), w) ->
  updateAttempt conn tt s =
    match apiErr with
    | None =>
        Returns (tt, None)
          (mkSession (data s) w (calls s1 ++ [UpdateAccountByID id account]))
    | Some e =>
        match asAPIError e with
        | Some (code, msg) =>
            Returns (tt, Some (retry.NonRetryableError (apiErrorf code msg)))
              (mkSession (data s) w (calls s1 ++ [UpdateAccountByID id account]))
        | None =>
            let name := formatName (readAttr resourceSchema "name" (data s)) in
            let '(r, w') := conn (UpdateAccountByName name account) w in
            Returns
              (tt,
               match snd r with
               | None => None
               | Some e' =>
                   Some (match asAPIError e' with
                         | Some (code, msg) =>
                             retry.NonRetryableError (apiErrorf code msg)
                         | None => retry.RetryableError e'
                         end)
               end)
              (mkSession (data s) w'
                 (calls s1 ++ [UpdateAccountByID id account;
                               UpdateAccountByName name account]))
        end
    end.
Proof.
  intros Hk Hid Hc.
  pose proof (account_construct_calls conn s _ s1 Hk) as Hs1.
  assert (Hd : data s1 = data s) by (rewrite Hs1; reflexivity).
  unfold updateAttempt. run Hk. cbn [bind getId]. rewrite Hd, Hid.
  run (call_returns conn _ s1 _ _ Hc). rewrite Hd.
  destruct apiErr as [e|]; [|reflexivity].
  destruct (asAPIError e) as [[code msg]|]; [reflexivity|].
  cbn [bind Get data].
  destruct (readAttr_string resourceSchema "name" (data s) eq_refl) as [n Hn].
  rewrite Hn. cbn [asString formatName].
  unfold bind, call. cbn [remote data calls].
  destruct (conn (UpdateAccountByName _ account) w) as [[a' [e'|]] w']; cbn [fst snd].
  - destruct (asAPIError e') as [[code msg]|]; cbn [ret];
      rewrite <- app_assoc; reflexivity.
  - cbn [ret]. rewrite <- app_assoc. reflexivity.
Qed.

Lemma account_delete_by_id s id apiErr w :
  strconv.Atoi (Id (data s)) = inl id ->
  conn (DeleteAccountByID id) (remote s) = (apiErr, w) ->
  deleteAttempt conn tt s =
    match apiErr with
    | None =>
        Returns (tt, None) (mkSession (data s) w (calls s ++ [DeleteAccountByID id]))
    | Some _ =>
        let name := formatName (readAttr resourceSchema "name" (data s)) in
        let '(byName, w') := conn (DeleteAccountByName name) w in
        Returns (tt, retry.RetryableError <$> byName)
          (mkSession (data s) w'
             (calls s ++ [DeleteAccountByID id; DeleteAccountByName name]))
    end.
Proof.
  intros Hid Hc. unfold deleteAttempt. cbn [bind getId]. rewrite Hid.
  run (call_returns conn _ s _ _ Hc).
  destruct apiErr as [e|]; [|reflexivity].
  cbn [bind Get data].
  destruct (readAttr_string resourceSchema "name" (data s) eq_refl) as [n Hn].
  rewrite Hn. cbn [asString formatName].
  unfold bind, call. cbn [remote data calls].
  destruct (conn (DeleteAccountByName _) w) as [[e'|] w']; cbn [ret fmap option_fmap option_map];
    rewrite <- app_assoc; reflexivity.
Qed.

End WithClient.

End AccountAttempts.

(** ** The calls a computation makes *)

Section CallsOnly.

Context {Call : Type} {Resp : Call -> Type} {Remote : Type}.
Abbreviation S := (Session Call Remote).
Abbreviation only := (@callsOnly Call Remote _).

Variable P : Call -> Prop.

Lemma silent_callsOnly {A} (m : M S A) :
  (forall s a s', m s = Returns a s' -> calls s' = calls s) -> only P m.
Proof.
  intros H s a s' Hm. exists []. rewrite app_nil_r. split; [eauto|constructor].
Qed.

Lemma callsOnly_ret {A} (a : A) : only P (ret a).
Proof. apply silent_callsOnly. intros s b s' [= _ <-]. reflexivity. Qed.

Lemma callsOnly_panic {A} : only P (@panic S A).
Proof. intros s a s' [=]. Qed.

Lemma callsOnly_must {A} (o : option A) : only P (must o).
Proof. destruct o; [apply callsOnly_ret | apply callsOnly_panic]. Qed.

Lemma callsOnly_bind {A B} (m : M S A) (k : A -> M S B) :
  only P m -> (forall a, only P (k a)) -> only P (bind m k).
Proof.
  intros Hm Hk s b s'. unfold bind.
  destruct (m s) as [a t|] eqn:E; [|discriminate]. intros H.
  destruct (Hm _ _ _ E) as (l1 & E1 & F1). destruct (Hk _ _ _ _ H) as (l2 & E2 & F2).
  exists (l1 ++ l2)%list. split.
  - rewrite E2, E1, app_assoc. reflexivity.
  - apply Forall_app. split; assumption.
Qed.

Lemma callsOnly_call (conn : Client Call Resp Remote) c :
  P c -> only P (call conn c).
Proof.
  intros Hc s a s'. unfold call. destruct (conn c (remote s)) as [r w].
  intros [= _ <-]. exists [c]. split; [reflexivity|]. repeat constructor. exact Hc.
Qed.

Lemma callsOnly_getId : only P (@getId Call Remote).
Proof. apply silent_callsOnly. intros s a s' [= _ <-]. reflexivity. Qed.

Lemma callsOnly_SetId id : only P (@SetId Call Remote id).
Proof. apply silent_callsOnly. intros s a s' H. inversion H. reflexivity. Qed.

Lemma callsOnly_Timeout key : only P (@Timeout Call Remote key).
Proof. apply silent_callsOnly. intros s a s' [= _ <-]. reflexivity. Qed.

Lemma callsOnly_Get sch k : only P (@Get Call Remote sch k).
Proof. apply silent_callsOnly. intros s a s' [= _ <-]. reflexivity. Qed.

Lemma callsOnly_GetOk sch k : only P (@GetOk Call Remote sch k).
Proof. apply silent_callsOnly. intros s a s' [= _ <-]. reflexivity. Qed.

Lemma callsOnly_Set sch k v : only P (@Set_ Call Remote sch k v).
Proof.
  apply silent_callsOnly. intros s a s'. unfold Set_.
  destruct (writeAttr sch k v (data s)). intros [= _ <-]. reflexivity.
Qed.

Lemma callsOnly_attempts {A} (f : A -> M S (A * option retry.RetryError)) :
  (forall a, only P (f a)) -> forall n a r, only P (retry.attempts n f a r).
Proof.
  intros Hf n. induction n as [|n IH]; intros a r; cbn [retry.attempts].
  - apply callsOnly_ret.
  - apply callsOnly_bind; [apply Hf|]. intros [a' [e|]]; [|apply callsOnly_ret].
    destruct (retry.Retryable e); [apply IH | apply callsOnly_ret].
Qed.

Lemma callsOnly_RetryContext {A} n (f : A -> M S (A * option retry.RetryError)) a :
  (forall a, only P (f a)) -> only P (retry.RetryContext n f a).
Proof. intros Hf. apply callsOnly_attempts, Hf. Qed.

End CallsOnly.

Create HintDb trace.

#[local] Hint Resolve callsOnly_ret callsOnly_panic callsOnly_must callsOnly_getId
  callsOnly_SetId callsOnly_Timeout callsOnly_Get callsOnly_GetOk callsOnly_Set
  : trace.

Ltac trace :=
  repeat first
    [ progress eauto 2 with trace
    | apply callsOnly_bind; [|intros ?]
    | apply callsOnly_RetryContext; intros ?
    | apply callsOnly_call; first [reflexivity | exact I]
    | match goal with
      | |- callsOnly _ (match ?x with _ => _ end) => destruct x
      | |- callsOnly _ (let '(_, _) := ?x in _) => destruct x
      | |- callsOnly _ (if ?x then _ else _) => destruct x
      end ].

(** ** The calls of the reads and of the deletes *)

Module DepartmentTraces.
Import Departments DepartmentLemmas.

Section WithClient.

Context {Remote : Type}.
Variable conn : Client Call Resp Remote.
Implicit Types s : Session Call Remote.

Lemma read_attempts_trace id n :
  forall a r s x s',
    retry.attempts n (readAttempt conn id) a r s = Returns x s' ->
    exists k, (k <= n)%nat
      /\ calls s' = (calls s ++ replicate k (GetDepartmentByID id))%list.
Proof.
  induction n as [|n IH]; intros a r s x s'; cbn [retry.attempts].
  - intros [= _ <-]. exists 0%nat. split; [lia|]. cbn. rewrite app_nil_r. reflexivity.
  - unfold bind at 1. unfold readAttempt at 1. unfold bind at 1, call.
    destruct (conn (GetDepartmentByID id) (remote s)) as [[dep [e|]] w]; cbn [ret].
    + cbn [retry.Retryable retry.RetryableError retry.Err]. intros H.
      destruct (IH _ _ _ _ _ H) as (k & Hk & Hc). exists (Datatypes.S k).
      split; [lia|]. rewrite Hc. cbn [calls replicate].
      rewrite <- app_assoc. reflexivity.
    + intros [= _ <-]. exists 1%nat. split; [lia|]. reflexivity.
Qed.

Lemma read_attempts_all_fail id :
  (forall w, exists dep e w', conn (GetDepartmentByID id) w = ((dep, Some e), w')) ->
  forall n a r s x s',
    retry.attempts n (readAttempt conn id) a r s = Returns x s' ->
    calls s' = (calls s ++ replicate n (GetDepartmentByID id))%list
    /\ exists e, snd x = Some e.
Proof.
  intros Hfail. induction n as [|n IH]; intros a r s x s'; cbn [retry.attempts].
  - intros [= <- <-]. cbn. rewrite app_nil_r. eauto.
  - unfold bind at 1. unfold readAttempt at 1. unfold bind at 1, call.
    destruct (Hfail (remote s)) as (dep & e & w & ->). cbn [ret].
    cbn [retry.Retryable retry.RetryableError retry.Err]. intros H.
    destruct (IH _ _ _ _ _ H) as (Hc & He). split; [|exact He].
    rewrite Hc. cbn [calls replicate]. rewrite <- app_assoc. reflexivity.
Qed.

Lemma department_read_attempt_total id a : total (readAttempt conn id a).
Proof. unfold readAttempt. total. Qed.

(** The three ways a department Read ends. *)
Lemma read_outcome s :
  exists x s1,
    retry.RetryContext (TimeoutRead (timeouts (data s)))
      (readAttempt conn (Id (data s))) None s = Returns x s1
    /\ data s1 = data s
    /\ match x with
       | (_, Some e) =>
           exists dg,
             ResourceJamfProDepartmentsRead (APIClient conn) s
             = Returns [dg] (mkSession (withId "" (data s)) (remote s1) (calls s1))
       | (Some dep, None) =>
           ResourceJamfProDepartmentsRead (APIClient conn) s
           = Returns []
               (mkSession (withAttr "name" (VString (Name dep)) (data s))
                  (remote s1) (calls s1))
       | (None, None) =>
           ResourceJamfProDepartmentsRead (APIClient conn) s
           = Returns [] (mkSession (withId "" (data s)) (remote s1) (calls s1))
       end.
Proof.
  destruct (retry.RetryContext (TimeoutRead (timeouts (data s)))
              (readAttempt conn (Id (data s))) None s) as [x s1|] eqn:H.
  - assert (Hd : data s1 = data s).
    { refine (preserves_RetryContext (fun d => d = data s) _ _ _ _ s _ _ eq_refl H).
      intros a. apply department_read_attempt_frame. }
    exists x, s1. split; [reflexivity|]. split; [exact Hd|].
    destruct x as [[dep|] [e|]].
    + destruct (department_read_failure conn s _ e s1 H) as [dg Hdg].
      exists dg. rewrite Hdg, Hd. reflexivity.
    + rewrite (department_read_success conn s dep s1 H), Hd.
      destruct (data s); reflexivity.
    + destruct (department_read_failure conn s _ e s1 H) as [dg Hdg].
      exists dg. rewrite Hdg, Hd. reflexivity.
    + unfold ResourceJamfProDepartmentsRead. cbn [bind getId Timeout]. run H.
      cbn. rewrite Hd. reflexivity.
  - exfalso. revert H. apply total_attempts. apply department_read_attempt_total.
Qed.

Lemma department_delete_trace meta : callsOnly deletesDepartment
                            (ResourceJamfProDepartmentsDelete (Remote := Remote) meta).
Proof.
  unfold ResourceJamfProDepartmentsDelete. destruct meta as [c|]; [|trace].
  unfold deleteAttempt. trace.
Qed.

End WithClient.

End DepartmentTraces.

Module AccountTraces.
Import Accounts AccountLemmas.

Section WithClient.

Context {Remote : Type}.

Lemma diagnostics_trace P e action :
  callsOnly P (@generateTFDiagsFromHTTPError Remote e action).
Proof.
  unfold generateTFDiagsFromHTTPError.
  apply callsOnly_bind; [trace|]. intros [v b]. cbv zeta.
  destruct (asAPIError e) as [[code msg]|]; trace.
Qed.

Hint Resolve diagnostics_trace : trace.

Lemma account_read_trace meta :
  callsOnly fetchesAccount (ResourceJamfProAccountRead (Remote := Remote) meta).
Proof.
  unfold ResourceJamfProAccountRead. destruct meta as [c|]; [|trace].
  unfold readAttempt, writeAccount, setOrReturn.
  trace.
Qed.

Lemma account_delete_trace meta :
  callsOnly deletesAccount (ResourceJamfProAccountDelete (Remote := Remote) meta).
Proof.
  unfold ResourceJamfProAccountDelete. destruct meta as [c|]; [|trace].
  unfold deleteAttempt. trace.
Qed.

(** The calls of a Create only add to the calls made, and every attempt
    of its loop begins with the listing call of the constructor. *)
Section Create.

Context {util : TypeAssertion}.
Variable conn : Client Call Resp Remote.

Lemma firstIdName_trace P k : callsOnly P (@firstIdName Remote util k).
Proof. unfold firstIdName. trace. Qed.

Lemma constructGroups_trace P ids items :
  forall groups, callsOnly P (@constructGroups Remote ids items groups).
Proof.
  induction items as [|i items IH]; intros groups; cbn [constructGroups];
    trace; apply IH.
Qed.

Hint Resolve firstIdName_trace constructGroups_trace : trace.

Lemma account_construct_trace :
  callsOnly anyAccountCall (constructJamfProAccount conn).
Proof. unfold constructJamfProAccount. trace. Qed.

Hint Resolve account_construct_trace : trace.


Lemma account_read_calls meta :
  callsOnly anyAccountCall (ResourceJamfProAccountRead (Remote := Remote) meta).
Proof.
  unfold ResourceJamfProAccountRead. destruct meta as [c|]; [|trace].
  unfold readAttempt, writeAccount, setOrReturn.
  trace.
Qed.

Hint Resolve account_read_calls : trace.



End Create.

End WithClient.

End AccountTraces.

(** ** How the callbacks end *)

Module AccountOutcomes.
Import Accounts AccountLemmas AccountAttempts.

Section WithClient.

Context {Remote : Type} {util : TypeAssertion}.
Variable conn : Client Call Resp Remote.
Implicit Types s : Session Call Remote.

Lemma diagnostics_total e action : total (@generateTFDiagsFromHTTPError Remote e action).
Proof.
  intros s. destruct (diagnostics_of_error e action s) as [dg ->]. discriminate.
Qed.

Lemma account_read_attempt_total a : total (readAttempt conn a).
Proof. unfold readAttempt. total. Qed.

Lemma writeAccount_total account : total (@writeAccount Remote account).
Proof.
  intros s. destruct (writeAccount_returns account s) as (d' & -> & _). discriminate.
Qed.

Hint Resolve account_update_attempt_frame diagnostics_frame
  account_readback_frame : frame.

Lemma update_keeps_id meta x :
  preservesData (fun d => Id d = x) (@ResourceJamfProAccountUpdate Remote util meta).
Proof. unfold ResourceJamfProAccountUpdate. destruct meta as [c|]; frame. Qed.

End WithClient.

End AccountOutcomes.

(** ** Decimal identifiers *)

Module StrconvLemmas.
Import strconv.

Lemma digit_cases d : 0 <= d <= 9 ->
  d = 0 \/ d = 1 \/ d = 2 \/ d = 3 \/ d = 4 \/ d = 5 \/ d = 6 \/ d = 7 \/ d = 8
  \/ d = 9.
Proof. lia. Qed.

Lemma digitValue_digitChar d : 0 <= d <= 9 -> digitValue (digitChar d) = Some d.
Proof.
  intros H. destruct (digit_cases d H) as [->|[->|[->|[->|[->|[->|[->|[->|[->| ->]]]]]]]]];
    reflexivity.
Qed.

Lemma splitSign_digit d rest : 0 <= d <= 9 ->
  splitSign (String (digitChar d) rest) = (false, String (digitChar d) rest).
Proof.
  intros H. destruct (digit_cases d H) as [->|[->|[->|[->|[->|[->|[->|[->|[->| ->]]]]]]]]];
    reflexivity.
Qed.

(** The digits written before [acc] read back as the number. *)
Lemma parseDigits_digitsOf fuel :
  forall n acc, fuel <> O -> 0 <= n < 2 ^ Z.of_nat fuel ->
    (exists k, forall a,
        parseDigits (digitsOf fuel n acc) a = parseDigits acc (a * 10 ^ k + n)
        /\ 0 <= k)
    /\ exists d rest, 0 <= d <= 9 /\ digitsOf fuel n acc = String (digitChar d) rest.
Proof.
  induction fuel as [|fuel IH]; intros n acc Hf Hn; [congruence|].
  cbn [digitsOf].
  assert (Hd : 0 <= n mod 10 <= 9) by (pose proof (Z.mod_pos_bound n 10); lia).
  destruct (Z.eqb_spec (n / 10) 0) as [Hz|Hz].
  - split.
    + exists 1. intros a. cbn [parseDigits]. rewrite (digitValue_digitChar _ Hd).
      split; [|lia]. f_equal.
      pose proof (Z.div_mod n 10 ltac:(lia)). lia.
    + eauto.
  - assert (Hq : 0 <= n / 10 < 2 ^ Z.of_nat fuel).
    { split; [apply Z.div_pos; lia|].
      apply Z.div_lt_upper_bound; [lia|].
      rewrite Nat2Z.inj_succ, Z.pow_succ_r in Hn by lia. lia. }
    assert (Hf' : fuel <> O).
    { intros ->. cbn in Hq. lia. }
    destruct (IH (n / 10) (String (digitChar (n mod 10)) acc) Hf' Hq)
      as [(k & Hk) Hfirst].
    split; [|exact Hfirst].
    exists (k + 1). intros a. destruct (Hk a) as [-> Hk0]. split; [|lia].
    cbn [parseDigits]. rewrite (digitValue_digitChar _ Hd). f_equal.
    rewrite Z.pow_add_r by lia.
    pose proof (Z.div_mod n 10 ltac:(lia)). lia.
Qed.

Lemma FormatUint_parses n : 0 <= n ->
  parseDigits (FormatUint n) 0 = Some n
  /\ exists d rest, 0 <= d <= 9 /\ FormatUint n = String (digitChar d) rest.
Proof.
  intros Hn. unfold FormatUint.
  assert (Hb : 0 <= n < 2 ^ Z.of_nat (S (Z.to_nat (Z.log2 n)))).
  { split; [exact Hn|]. rewrite Nat2Z.inj_succ, Z2Nat.id by apply Z.log2_nonneg.
    destruct (Z.eq_dec n 0) as [->|Hz]; [reflexivity|].
    apply Z.log2_spec. lia. }
  destruct (parseDigits_digitsOf _ n "" (Nat.neq_succ_0 _) Hb) as [(k & Hk) Hfirst].
  split; [|exact Hfirst].
  destruct (Hk 0) as [-> _]. cbn [parseDigits]. f_equal; lia.
Qed.

Lemma digitValue_nonneg c d : digitValue c = Some d -> 0 <= d.
Proof.
  unfold digitValue. destruct (Z.leb_spec 48 (Z.of_nat (nat_of_ascii c))); cbn;
    [|discriminate].
  destruct (_ <=? 57); [|discriminate]. intros [= <-]. lia.
Qed.

Lemma parseDigits_ge s : forall a m, 0 <= a -> parseDigits s a = Some m -> a <= m.
Proof.
  induction s as [|c s IH]; intros a m Ha; cbn [parseDigits].
  - intros [= <-]. lia.
  - destruct (digitValue c) as [d|] eqn:Hd; [|discriminate].
    pose proof (digitValue_nonneg _ _ Hd) as Hd0. intros H.
    pose proof (IH (10 * a + d) m ltac:(lia) H). lia.
Qed.

(** On digits whose number fits 64 bits the loop of [ParseUint] reads
    what the fast path reads. *)
Lemma parseUintLoop_parseDigits s :
  forall a m, 0 <= a -> parseDigits s a = Some m -> m <= maxUint64 ->
    parseUintLoop s a = inl m.
Proof.
  induction s as [|c s IH]; intros a m Ha; cbn [parseDigits parseUintLoop].
  - intros [= <-] _. reflexivity.
  - destruct (digitValue c) as [d|] eqn:Hd; [|discriminate].
    pose proof (digitValue_nonneg _ _ Hd) as Hd0. intros H Hm.
    pose proof (parseDigits_ge s (10 * a + d) m ltac:(lia) H) as Hge.
    assert (Hmax : maxUint64 = 18446744073709551615) by reflexivity.
    destruct (Z.geb_spec a (maxUint64 / 10 + 1)) as [Hc|Hc].
    { rewrite Hmax in Hc. change (18446744073709551615 / 10) with
        1844674407370955161 in Hc. lia. }
    cbn zeta. destruct (Z.gtb_spec (a * 10 + d) maxUint64) as [Ho|Ho]; [lia|].
    apply IH; [lia| |exact Hm]. rewrite <- H. f_equal. lia.
Qed.

(** [Atoi] reads back what [Itoa] writes, for every value of an [int]. *)
Lemma Atoi_Itoa n : intMin <= n <= intMax -> Atoi (Itoa n) = inl n.
Proof.
  intros Hr.
  assert (Hmin : intMin = - 9223372036854775808) by reflexivity.
  assert (Hmax : intMax = 9223372036854775807) by reflexivity.
  assert (Hu : maxUint64 = 18446744073709551615) by reflexivity.
  assert (Hcut : 2 ^ 63 = 9223372036854775808) by reflexivity.
  unfold Itoa. destruct (Z.ltb_spec n 0) as [Hneg|Hpos].
  - destruct (FormatUint_parses (- n) ltac:(lia)) as [Hp (d & rest & Hd & Hs)].
    unfold Atoi. destruct (_ && _).
    + cbn [splitSign]. rewrite Hs in *. rewrite Hp. f_equal. lia.
    + unfold ParseInt. cbn [splitSign]. unfold ParseUint. rewrite Hs in *.
      rewrite (parseUintLoop_parseDigits _ 0 (- n) ltac:(lia) Hp ltac:(lia)).
      cbn [negb andb]. rewrite Hcut.
      destruct (Z.gtb_spec (- n) 9223372036854775808); [lia|]. f_equal. lia.
  - destruct (FormatUint_parses n Hpos) as [Hp (d & rest & Hd & Hs)].
    unfold Atoi. destruct (_ && _).
    + rewrite Hs in *. rewrite (splitSign_digit d rest Hd), Hp. reflexivity.
    + unfold ParseInt. rewrite Hs in *. rewrite (splitSign_digit d rest Hd).
      unfold ParseUint.
      rewrite (parseUintLoop_parseDigits _ 0 n ltac:(lia) Hp ltac:(lia)).
      cbn [negb andb]. rewrite Hcut.
      destruct (Z.geb_spec n 9223372036854775808); [lia|]. reflexivity.
Qed.

End StrconvLemmas.

(** ** What the account Read writes, again *)

Module AccountWritesTwice.
Import Accounts AccountLemmas.

Section Writes.

Context {Remote : Type}.
Implicit Types s : Session Call Remote.

Ltac put_attr :=
  erewrite bind_returns
    by (eapply Set_returns;
        [reflexivity
        |first [ apply conforms_strings | apply conforms_idNameBlock
               | apply conforms_groups | reflexivity ]]);
  cbn beta iota; cbn [data remote calls asStored]; rewrite ?setFunc_withAttr.

Lemma writeAccount_others account s :
  exists d',
    writeAccount account s = Returns [] (mkSession d' (remote s) (calls s))
    /\ forall k, k ∉ accountAttributes -> attrs d' !! k = attrs (data s) !! k.
Proof.
  assert (Hne : forall k, k ∉ accountAttributes ->
                Forall (fun k' => k' <> k) accountAttributes).
  { intros k Hk. apply Forall_forall. intros k' Hin ->. exact (Hk Hin). }
  destruct (isZero (readAttr resourceSchema "password" (data s))) eqn:Hp;
    eexists; split.
  - unfold writeAccount, setOrReturn. do 8 put_attr.
    cbn [bind GetOk data remote calls].
    rewrite !readAttr_withAttr_ne by discriminate. rewrite Hp.
    cbn [negb snd bind ret]. do 10 put_attr. reflexivity.
  - intros k Hk. specialize (Hne k Hk). unfold accountAttributes in Hne.
    repeat match goal with
           | H : Forall _ (_ :: _) |- _ => apply Forall_cons in H; destruct H as [? H]
           end.
    cbn [attrs withAttr data]. rewrite !lookup_insert_ne by assumption. reflexivity.
  - unfold writeAccount, setOrReturn. do 8 put_attr.
    cbn [bind GetOk data remote calls].
    rewrite !readAttr_withAttr_ne by discriminate. rewrite Hp.
    cbn [negb snd bind ret]. do 11 put_attr. reflexivity.
  - intros k Hk. specialize (Hne k Hk). unfold accountAttributes in Hne.
    repeat match goal with
           | H : Forall _ (_ :: _) |- _ => apply Forall_cons in H; destruct H as [? H]
           end.
    cbn [attrs withAttr data]. rewrite !lookup_insert_ne by assumption. reflexivity.
Qed.

Lemma readAttr_lookup sch k d d' :
  attrs d !! k = attrs d' !! k -> setFunc d = setFunc d' ->
  readAttr sch k d = readAttr sch k d'.
Proof. intros H Hf. unfold readAttr. rewrite H, Hf. reflexivity. Qed.

(** Writing the same account a second time changes nothing. *)
Lemma writeAccount_again account s (s' t : Session Call Remote) :
  writeAccount account s = Returns [] s' ->
  data t = data s' ->
  writeAccount account t = Returns [] t.
Proof.
  intros H1 Ht.
  destruct (writeAccount_returns account s)
    as (d1 & Hr1 & Hid1 & Ht1 & Hh1 & Hp1 & Hf1 & _).
  destruct (writeAccount_others account s) as (d1' & Hr1' & Ho1).
  rewrite Hr1 in Hr1'. injection Hr1' as <-.
  rewrite Hr1 in H1. injection H1 as <-. cbn [data] in Ht.
  destruct t as [dt rt ct]. cbn [data] in Ht. subst dt.
  set (t := mkSession d1 rt ct).
  destruct (writeAccount_returns account t)
    as (d2 & Hr2 & Hid2 & Ht2 & Hh2 & Hp2 & Hf2 & _).
  destruct (writeAccount_others account t) as (d2' & Hr2' & Ho2).
  rewrite Hr2 in Hr2'. injection Hr2' as <-.
  rewrite Hr2. unfold t. cbn [remote calls]. do 2 f_equal.
  unfold holdsAccount in Hh1, Hh2.
  destruct d1 as [i1 a1 t1 f1], d2 as [i2 a2 t2 f2].
  cbn [t data Id timeouts attrs setFunc] in *.
  subst i2 t2 f2. f_equal. apply map_eq. intros k.
  destruct (decide (k ∈ accountAttributes)) as [Hin|Hout];
    [|rewrite (Ho2 k Hout); reflexivity].
  destruct Hh1 as (?&?&?&?&?&?&?&?&?&?&?&?&?&?&?&?&?&?).
  destruct Hh2 as (?&?&?&?&?&?&?&?&?&?&?&?&?&?&?&?&?&?).
  destruct (decide (k = "password")) as [->|Hk].
  - rewrite Hp2.
    destruct (isZero (readAttr resourceSchema "password"
                        (mkResourceData i1 a1 t1 f1))) eqn:Hz2; [reflexivity|].
    rewrite Hp1.
    destruct (isZero (readAttr resourceSchema "password" (data s))) eqn:Hz1;
      [|reflexivity].
    rewrite (readAttr_lookup resourceSchema "password"
               (mkResourceData i1 a1 t1 f1) (data s) Hp1 Hf1) in Hz2.
    congruence.
  - unfold accountAttributes in Hin.
    repeat (apply elem_of_cons in Hin; destruct Hin as [->|Hin]; [congruence|]).
    apply elem_of_nil in Hin. contradiction.
Qed.

(** What a Read does once its retry loop has ended. *)
Lemma read_after_loop (conn : Client Call Resp Remote) s x s1 :
  retry.RetryContext (TimeoutRead (timeouts (data s))) (readAttempt conn) None s
    = Returns x s1 ->
  data s1 = data s
  /\ ResourceJamfProAccountRead (APIClient conn) s
     = match x with
       | (_, Some e) => generateTFDiagsFromHTTPError e "read" s1
       | (Some account, None) => writeAccount account s1
       | (None, None) => Panics
       end.
Proof.
  intros H. split.
  - refine (preserves_RetryContext (fun d => d = data s) _ _ _ _ s _ _ eq_refl H).
    intros a. apply account_read_attempt_frame.
  - unfold ResourceJamfProAccountRead. cbn [bind Timeout]. run H.
    destruct x as [[account|] [e|]]; reflexivity.
Qed.

End Writes.

End AccountWritesTwice.

(** ** The groups of a constructed account *)

Module AccountGroups.
Import Accounts AccountLemmas.

Lemma readAttr_set sch k t d :
  assoc k sch = Some (TypeSet t) -> exists l, readAttr sch k d = VList l.
Proof.
  intros H. unfold readAttr. rewrite H.
  destruct (attrs d !! k) as [v|]; cbn; eauto.
  destruct (conforms (TypeSet t) v) eqn:E; cbn; eauto.
  destruct v; cbn in E; try discriminate; eauto.
Qed.

Lemma asString_Some v n : asString v = Some n -> v = VString n.
Proof. destruct v; cbn; congruence. Qed.

Lemma asMap_Some v m : asMap v = Some m -> v = VMap m.
Proof. destruct v; cbn; congruence. Qed.

Section WithClient.

Context {Remote : Type} {util : TypeAssertion}.
Variable conn : Client Call Resp Remote.
Implicit Types s : Session Call Remote.

Lemma constructGroups_built ids items :
  forall groups s r s',
    constructGroups ids items groups s = Returns r s' ->
    match r with
    | inl built =>
        exists new, built = (groups ++ new)%list /\ Forall2 (builtFrom ids) items new
    | inr e =>
        exists n,
          e = Errorf ("group name " +:+ n +:+ " does not exist")
          /\ ids !! n = None
          /\ Exists (namesGroup n) items
    end.
Proof.
  induction items as [|item items IH]; intros groups s r s';
    cbn [constructGroups bind ret must].
  - intros [= <- _]. exists []. rewrite app_nil_r. split; [reflexivity|constructor].
  - destruct (asMap item) as [m|] eqn:Em; cbn [bind ret must panic]; [|discriminate].
    destruct (asString (index m "name")) as [n|] eqn:En; cbn [bind ret must panic];
      [|discriminate].
    apply asMap_Some in Em. apply asString_Some in En.
    destruct (ids !! n) as [id|] eqn:Ei.
    + intros H. specialize (IH _ _ _ _ H). destruct r as [built|e].
      * destruct IH as (new & -> & Hnew).
        exists (mkGroup id n zeroSite zeroPrivileges :: new). split.
        { unfold append. rewrite <- app_assoc. reflexivity. }
        constructor; [|exact Hnew]. repeat split; cbn; eauto.
      * destruct IH as (n' & -> & Hn' & Hex). exists n'. repeat split; auto.
    + intros [= <- _]. exists n. repeat split; auto.
      constructor. exists m. split; assumption.
Qed.

Lemma construct_groups s r s1 :
  constructJamfProAccount conn s = Returns r s1 ->
  exists items,
    readAttr resourceSchema "groups" (data s) = VList items
    /\ match r with
       | inl account =>
           exists all,
             fst (conn GetAccounts (remote s)) = (Some all, None)
             /\ Forall2 (builtFrom (groupNameToID (AccountsList_Groups all)))
                  items (Groups account)
       | inr e =>
           (exists a, fst (conn GetAccounts (remote s)) = (a, Some e))
           \/ exists all n,
                fst (conn GetAccounts (remote s)) = (Some all, None)
                /\ e = Errorf ("group name " +:+ n +:+ " does not exist")
                /\ groupNameToID (AccountsList_Groups all) !! n = None
                /\ Exists (namesGroup n) items
       end.
Proof.
  destruct (readAttr_set resourceSchema "groups" _ (data s) eq_refl) as [items Hi].
  exists items. split; [exact Hi|]. revert H.
  unfold constructJamfProAccount. cbn [bind Get ret].
  destruct (asBool (readAttr resourceSchema "directory_user" (data s)));
    cbn [bind ret must panic Get]; [|discriminate].
  destruct (asBool (readAttr resourceSchema "force_password_change" (data s)));
    cbn [bind ret must panic Get]; [|discriminate].
  unfold bind at 1.
  destruct (firstIdName "ldap_server" s) as [l t|] eqn:E1; [|discriminate].
  apply firstIdName_unchanged in E1; subst t.
  unfold bind at 1.
  destruct (firstIdName "site" s) as [l2 t|] eqn:E2; [|discriminate].
  apply firstIdName_unchanged in E2; subst t.
  unfold bind at 1. unfold call.
  destruct (conn GetAccounts (remote s)) as [[all err] w]. cbn [fst snd].
  destruct err as [e|]; [intros [= <- _]; left; eauto|].
  destruct all as [all|]; cbn [bind ret must panic]; [|discriminate].
  cbn [bind GetOk ret data]. rewrite Hi. cbn [isZero asList].
  destruct items as [|item items]; cbn [negb].
  - cbn. intros [= <- _]. exists all. split; [reflexivity|constructor].
  - unfold bind at 1. unfold bind at 1. cbn [must ret].
    match goal with
    | |- context [constructGroups ?a ?b ?c ?d] =>
        destruct (constructGroups a b c d) as [g t|] eqn:E3; [|discriminate]
    end.
    pose proof (constructGroups_built _ _ _ _ _ _ E3) as Hb.
    destruct g as [built|e]; cbn.
    + intros [= <- _]. exists all. split; [reflexivity|].
      destruct Hb as (new & -> & Hnew). exact Hnew.
    + intros [= <- _]. right. destruct Hb as (n & -> & Hn & Hex).
      exists all, n. repeat split; auto.
Qed.

End WithClient.

(** The identifier listed last under a name is the one the table holds. *)
Lemma groupNameToID_last before g after :
  Forall (fun g' => Group_Name g' <> Group_Name g) after ->
  groupNameToID (before ++ g :: after) !! Group_Name g = Some (Group_ID g).
Proof.
  intros Hall. unfold groupNameToID. rewrite foldl_app. cbn [foldl].
  match goal with
  | |- foldl _ ?m0 after !! _ = _ =>
      assert (H0 : m0 !! Group_Name g = Some (Group_ID g))
        by apply lookup_insert_eq;
      revert H0; generalize m0
  end.
  induction after as [|g' after IH]; intros m Hm; [exact Hm|].
  apply Forall_cons in Hall. destruct Hall as [Hne Hall]. cbn [foldl].
  apply IH; [exact Hall|]. rewrite lookup_insert_ne by exact Hne. exact Hm.
Qed.

Lemma groupNameToID_unlisted groups n :
  groupNameToID groups !! n = None <-> Forall (fun g => Group_Name g <> n) groups.
Proof.
  unfold groupNameToID.
  assert (G : forall m : gmap string Z,
             foldl (fun m group => <[Group_Name group := Group_ID group]> m) m groups
             !! n = None
             <-> m !! n = None /\ Forall (fun g => Group_Name g <> n) groups).
  { induction groups as [|g groups IH]; intros m; cbn [foldl].
    - split; [intros H; split; [exact H|constructor]|intros [H _]; exact H].
    - rewrite IH. rewrite lookup_insert_None. rewrite Forall_cons. tauto. }
  rewrite G. rewrite lookup_empty. tauto.
Qed.

End AccountGroups.

(** ** The department callbacks, attempt by attempt *)

Module DepartmentOutcomes.
Import Departments DepartmentLemmas DepartmentTraces.

Section WithClient.

Context {Remote : Type}.
Variable conn : Client Call Resp Remote.
Implicit Types s : Session Call Remote.

Lemma department_update_by_id s id name department u e w :
  conn (UpdateDepartmentByID id department) (remote s) = ((u, Some e), w) ->
  updateAttempt conn id name department tt s =
    let '(r, w') := conn (UpdateDepartmentByName name department) w in
    Returns
      (tt,
       match snd r with
       | None => None
       | Some e' =>
           Some (retry.RetryableError (Errorf
             ("failed to update department '" +:+ name +:+ "' by ID '" +:+ id
              +:+ "' and by name due to errors: " +:+ Error e +:+ ", "
              +:+ Error e')))
       end)
      (mkSession (data s) w'
         (calls s ++ [UpdateDepartmentByID id department;
                      UpdateDepartmentByName name department])).
Proof.
  intros Hc. unfold updateAttempt. run (call_returns conn _ s _ _ Hc).
  unfold bind, call. cbn [remote data calls].
  destruct (conn (UpdateDepartmentByName name department) w) as [[u' [e'|]] w'];
    cbn [ret snd]; rewrite <- app_assoc; reflexivity.
Qed.

Lemma department_delete_by_id s id name e w :
  conn (DeleteDepartmentByID id) (remote s) = (Some e, w) ->
  deleteAttempt conn id name tt s =
    let '(byName, w') := conn (DeleteDepartmentByName name) w in
    Returns
      (tt,
       match byName with
       | None => None
       | Some e' =>
           Some (retry.RetryableError (Errorf
             ("failed to delete department '" +:+ name +:+ "' by ID '" +:+ id
              +:+ "' and by name due to errors: " +:+ Error e +:+ ", "
              +:+ Error e')))
       end)
      (mkSession (data s) w'
         (calls s ++ [DeleteDepartmentByID id; DeleteDepartmentByName name])).
Proof.
  intros Hc. unfold deleteAttempt. run (call_returns conn _ s _ _ Hc).
  unfold bind, call. cbn [remote data calls].
  destruct (conn (DeleteDepartmentByName name) w) as [[e'|] w'];
    cbn [ret]; rewrite <- app_assoc; reflexivity.
Qed.

(** A department Read always returns, with the identifier it found or
    with none. *)
Lemma read_identifier meta s :
  exists diags s',
    ResourceJamfProDepartmentsRead (Remote := Remote) meta s = Returns diags s'
    /\ (Id (data s') = Id (data s) \/ Id (data s') = "").
Proof.
  destruct meta as [c|]; [|cbn; eauto].
  destruct (read_outcome c s) as ([[dep|] [e|]] & s1 & _ & _ & H).
  - destruct H as [dg ->]. eauto.
  - rewrite H. eauto.
  - destruct H as [dg ->]. eauto.
  - rewrite H. eauto.
Qed.

Lemma update_identifier meta s :
  exists diags s',
    ResourceJamfProDepartmentsUpdate (Remote := Remote) meta s = Returns diags s'
    /\ (Id (data s') = Id (data s) \/ Id (data s') = "").
Proof.
  destruct meta as [c|]; [|cbn; eauto].
  destruct (department_name s) as [n Hn].
  unfold ResourceJamfProDepartmentsUpdate.
  cbn [bind getId Get ret must]. rewrite Hn. cbn [asString must ret bind].
  run (department_construct s n Hn). cbn [bind Timeout]. unfold bind at 1.
  destruct (retry.RetryContext _ _ _ _) as [[[] [e|]] s1|] eqn:H.
  - assert (Hd : data s1 = data s).
    { refine (preserves_RetryContext (fun d => d = data s) _ _ _ _ s _ _ eq_refl H).
      intros u. apply department_update_frame. }
    cbn. eexists _, s1. split; [reflexivity|]. left. rewrite Hd. reflexivity.
  - assert (Hd : data s1 = data s).
    { refine (preserves_RetryContext (fun d => d = data s) _ _ _ _ s _ _ eq_refl H).
      intros u. apply department_update_frame. }
    cbn [snd]. destruct (read_identifier (APIClient c) s1) as (diags & s' & Hr & Hi).
    run Hr. rewrite Hd in Hi. cbn. eauto.
  - exfalso. revert H. apply total_attempts. intros u. unfold updateAttempt. total.
Qed.

End WithClient.

End DepartmentOutcomes.

(** ** The account Read and the read-back when the fetch succeeds *)

Module AccountReadBack.
Import Accounts AccountLemmas.

Section WithClient.

Context {Remote : Type}.
Variable conn : Client Call Resp Remote.
Implicit Types s : Session Call Remote.

Lemma read_attempt_fetches s a id fetched w :
  strconv.Atoi (Id (data s)) = inl id ->
  conn (GetAccountByID id) (remote s) = ((fetched, None), w) ->
  readAttempt conn a s
  = Returns (fetched, None) (mkSession (data s) w (calls s ++ [GetAccountByID id])).
Proof.
  intros Hid Hc. unfold readAttempt. cbn [bind getId]. rewrite Hid.
  run (call_returns conn _ s _ _ Hc). reflexivity.
Qed.

Lemma read_by_id s id fetched w n :
  strconv.Atoi (Id (data s)) = inl id ->
  TimeoutRead (timeouts (data s)) = S n ->
  conn (GetAccountByID id) (remote s) = ((Some fetched, None), w) ->
  exists d',
    ResourceJamfProAccountRead (APIClient conn) s
    = Returns [] (mkSession d' w (calls s ++ [GetAccountByID id]))
    /\ timeouts d' = timeouts (data s)
    /\ readInto fetched (data s) d'.
Proof.
  intros Hid Ht Hc.
  pose proof (read_attempt_fetches s None id _ w Hid Hc) as Ha.
  destruct (writeAccount_returns fetched
              (mkSession (data s) w (calls s ++ [GetAccountByID id])))
    as (d' & Hw & Hi & Htm & Hh & Hp & Hf & He).
  exists d'. split; [|split; [exact Htm|]];
    [|exact (conj Hi (conj Hf (conj Hh (conj Hp He))))].
  unfold ResourceJamfProAccountRead. cbn [bind Timeout]. rewrite Ht.
  unfold retry.RetryContext. run (attempts_success _ n _ None _ _ _ Ha).
  cbn [must bind ret]. exact Hw.
Qed.

Lemma readback_by_id s id fetched w n msg :
  strconv.Atoi (Id (data s)) = inl id ->
  TimeoutRead (timeouts (data s)) = S n ->
  conn (GetAccountByID id) (remote s) = ((Some fetched, None), w) ->
  exists d',
    retry.RetryContext (TimeoutRead (timeouts (data s)))
      (readBackAttempt (APIClient conn) msg) tt s
    = Returns (tt, None) (mkSession d' w (calls s ++ [GetAccountByID id]))
    /\ readInto fetched (data s) d'.
Proof.
  intros Hid Ht Hc.
  destruct (read_by_id s id fetched w n Hid Ht Hc) as (d' & Hr & _ & Hh).
  exists d'. split; [|exact Hh].
  rewrite Ht. unfold retry.RetryContext. apply attempts_success.
  unfold readBackAttempt. run Hr. reflexivity.
Qed.

End WithClient.

End AccountReadBack.

(** * The claims *)

Import Scenarios.

(** ** C1 *)

(** C1, as amended.  In an attempt of the account Read, a structured API
    error from the fetch by identifier ends the attempt at once with a
    non-retryable error, and the account is not fetched by name.  Any other
    error from the fetch by identifier is followed by a fetch by the name in
    the state, and the attempt fails only if that fetch fails too. *)
Theorem account_read_name_fallback_on_transport_error
  {Remote : Type}
  (conn : Client Accounts.Call Accounts.Resp Remote)
  (s : Session Accounts.Call Remote) (id : Z)
  (a : option Accounts.ResourceAccount) (e : error) (w : Remote)
  (account : option Accounts.ResourceAccount) :
  strconv.Atoi (Id (data s)) = inl id ->
  conn (Accounts.GetAccountByID id) (remote s) = ((a, Some e), w) ->
  Accounts.readAttempt conn account s =
    match asAPIError e with
    | Some (code, msg) =>
        Returns (a, Some (retry.NonRetryableError (Accounts.apiErrorf code msg)))
          (mkSession (data s) w (calls s ++ [Accounts.GetAccountByID id]))
    | None =>
        let name :=
          Accounts.formatName (readAttr Accounts.resourceSchema "name" (data s)) in
        let '(r, w') := conn (Accounts.GetAccountByName name) w in
        Returns
          (fst r,
           match snd r with
           | None => None
           | Some e' =>
               Some (match asAPIError e' with
                     | Some (code, msg) =>
                         retry.NonRetryableError (Accounts.apiErrorf code msg)
                     | None => retry.RetryableError e'
                     end)
           end)
          (mkSession (data s) w'
             (calls s ++ [Accounts.GetAccountByID id;
                          Accounts.GetAccountByName name]))
    end.
Proof. apply AccountLemmas.account_read_attempt_by_id_error. Qed.

(** A transport error on the fetch by identifier, a name fetch that
    succeeds: the attempt succeeds with the account found by name. *)
Lemma account_read_name_fallback_witness :
  let conn := A.scripted [] None None (Some transport) None in
  strconv.Atoi "42" = inl 42
  /\ conn (Accounts.GetAccountByID 42) O = ((None, Some transport), 1%nat)
  /\ Accounts.readAttempt conn None (start engineering)
     = Returns (Some A.onServer, None)
         (mkSession engineering 2%nat
            [Accounts.GetAccountByID 42; Accounts.GetAccountByName "Engineering"]).
Proof.
  intros conn. split; [reflexivity|]. split; [reflexivity|].
  rewrite (account_read_name_fallback_on_transport_error
             conn (start engineering) 42 None transport 1%nat None
             eq_refl eq_refl).
  vm_compute. reflexivity.
Defined.

(** C1 fails as stated: the fetch by identifier meets a structured API
    error and the fetch by name would succeed, yet the Read fails after the
    one call, without fetching by name. *)
Lemma read_skips_name_fetch_on_api_error :
  let conn := A.scripted [] None None (Some notFound) None in
  let run :=
    Accounts.ResourceJamfProAccountRead (APIClient conn)
      (start engineering) in
  fst (conn (Accounts.GetAccountByID 42) O) = (None, Some notFound)
  /\ isAPIError notFound = true
  /\ fst (conn (Accounts.GetAccountByName "Engineering") 1%nat)
     = (Some A.onServer, None)
  /\ (exists dg, value run = Some [dg])
  /\ calls <$> final run = Some [Accounts.GetAccountByID 42].
Proof.
  cbv zeta. repeat split; try reflexivity.
  eexists. vm_compute. reflexivity.
Qed.

(** ** C2 *)

(** C2, as amended.  A department Read whose retry loop ends in an error
    clears the identifier and returns a diagnostic.  An account Read whose
    retry loop ends in an error returns a diagnostic and leaves the
    resource data, the identifier included, as they were. *)
Theorem read_failure_clears_department_id_only :
  (forall (Remote : Type)
          (conn : Client Departments.Call Departments.Resp Remote)
          (s s1 : Session Departments.Call Remote)
          (department : option Departments.ResourceDepartment) (e : error),
      retry.RetryContext (TimeoutRead (timeouts (data s)))
        (Departments.readAttempt conn (Id (data s))) None s
        = Returns (department, Some e) s1 ->
      exists dg,
        Departments.ResourceJamfProDepartmentsRead (APIClient conn) s
        = Returns [dg] (mkSession (withId "" (data s1)) (remote s1) (calls s1)))
  /\
  (forall (Remote : Type)
          (conn : Client Accounts.Call Accounts.Resp Remote)
          (s s1 : Session Accounts.Call Remote)
          (account : option Accounts.ResourceAccount) (e : error),
      retry.RetryContext (TimeoutRead (timeouts (data s)))
        (Accounts.readAttempt conn) None s
        = Returns (account, Some e) s1 ->
      exists dg,
        Accounts.ResourceJamfProAccountRead (APIClient conn) s = Returns [dg] s1
        /\ data s1 = data s).
Proof.
  split.
  - intros Remote conn s s1 department e H.
    exact (DepartmentLemmas.department_read_failure conn s department e s1 H).
  - intros Remote conn s s1 account e H.
    exact (AccountLemmas.account_read_failure conn s account e s1 H).
Qed.

(** The department is gone: three attempts fail, the identifier is
    cleared.  The account cannot be reached: three attempts fail, each by
    identifier and by name, and the identifier stays. *)
Lemma read_failure_witness :
  (exists dg,
     Departments.ResourceJamfProDepartmentsRead (APIClient D.gone)
       (start engineering)
     = Returns [dg]
         (mkSession (withId "" engineering) 3%nat
            (replicate 3 (Departments.GetDepartmentByID "42"))))
  /\
  (exists dg,
     Accounts.ResourceJamfProAccountRead
       (APIClient (A.scripted [] None None (Some transport) (Some transport)))
       (start engineering)
     = Returns [dg]
         (mkSession engineering 6%nat
            (concat (replicate 3 [Accounts.GetAccountByID 42;
                                  Accounts.GetAccountByName "Engineering"])))
     /\ engineering = engineering).
Proof.
  split.
  - refine (proj1 read_failure_clears_department_id_only nat D.gone
              (start engineering)
              (mkSession engineering 3%nat
                 (replicate 3 (Departments.GetDepartmentByID "42")))
              None notFound _).
    vm_compute. reflexivity.
  - refine (proj2 read_failure_clears_department_id_only nat
              (A.scripted [] None None (Some transport) (Some transport))
              (start engineering)
              (mkSession engineering 6%nat
                 (concat (replicate 3 [Accounts.GetAccountByID 42;
                                       Accounts.GetAccountByName "Engineering"])))
              None transport _).
    vm_compute. reflexivity.
Defined.

(** C2 fails as stated: an account Read fails after all its attempts, by
    identifier and by name, with a diagnostic, and the identifier is still
    [42]. *)
Lemma failed_account_read_keeps_identifier :
  let conn := A.scripted [] None None (Some transport) (Some transport) in
  let run :=
    Accounts.ResourceJamfProAccountRead (APIClient conn) (start engineering) in
  (exists dg, value run = Some [dg])
  /\ length <$> (calls <$> final run) = Some 6%nat
  /\ (Id ∘ data) <$> final run = Some "42"
  /\ "42" <> "".
Proof.
  cbv zeta. repeat split; try reflexivity; try discriminate.
  eexists. vm_compute. reflexivity.
Qed.

(** ** C3 *)




(** ** C4 *)

(** C4.  A Delete, of a department or of an account, always returns, and
    whenever it returns without a diagnostic, whichever of the delete by
    identifier and the delete by name succeeded, the identifier in the
    state is the empty string. *)
Theorem delete_success_clears_identifier :
  (forall (Remote : Type) (meta : Meta Departments.Call Departments.Resp Remote)
          (s s' : Session Departments.Call Remote),
      Departments.ResourceJamfProDepartmentsDelete meta s = Returns [] s' ->
      Id (data s') = "")
  /\
  (forall (Remote : Type) (meta : Meta Departments.Call Departments.Resp Remote)
          (s : Session Departments.Call Remote),
      Departments.ResourceJamfProDepartmentsDelete meta s <> Panics)
  /\
  (forall (Remote : Type) (meta : Meta Accounts.Call Accounts.Resp Remote)
          (s s' : Session Accounts.Call Remote),
      Accounts.ResourceJamfProAccountDelete meta s = Returns [] s' ->
      Id (data s') = "")
  /\
  (forall (Remote : Type) (meta : Meta Accounts.Call Accounts.Resp Remote)
          (s : Session Accounts.Call Remote),
      Accounts.ResourceJamfProAccountDelete meta s <> Panics).
Proof.
  repeat split.
  - intros Remote [conn|] s s'; [|discriminate].
    destruct (DepartmentLemmas.department_name s) as [n Hn].
    destruct (DepartmentLemmas.department_delete_outcome conn s n Hn)
      as (s1 & _ & [(e & dg & _ & Hrun) | (_ & Hrun)]);
      rewrite Hrun; [discriminate|]. intros [= <-]. reflexivity.
  - intros Remote [conn|] s; [|discriminate].
    destruct (DepartmentLemmas.department_name s) as [n Hn].
    destruct (DepartmentLemmas.department_delete_outcome conn s n Hn)
      as (s1 & _ & [(e & dg & _ & Hrun) | (_ & Hrun)]);
      rewrite Hrun; discriminate.
  - intros Remote [conn|] s s'; [|discriminate].
    destruct (AccountLemmas.account_delete_outcome conn s)
      as (s1 & _ & [(e & dg & _ & Hrun) | (_ & Hrun)]);
      rewrite Hrun; [discriminate|]. intros [= <-]. reflexivity.
  - intros Remote [conn|] s; [|discriminate].
    destruct (AccountLemmas.account_delete_outcome conn s)
      as (s1 & _ & [(e & dg & _ & Hrun) | (_ & Hrun)]);
      rewrite Hrun; discriminate.
Qed.

(** A department deleted by name after the delete by identifier failed,
    and an account deleted by identifier: both end with an empty
    identifier. *)
Lemma delete_success_witness :
  (Departments.ResourceJamfProDepartmentsDelete (APIClient D.byNameOnly)
     (start engineering)
   = Returns []
       (mkSession (withId "" engineering) 2%nat
          [Departments.DeleteDepartmentByID "42";
           Departments.DeleteDepartmentByName "Engineering"])
   /\ Id (withId "" engineering) = "")
  /\
  (Accounts.ResourceJamfProAccountDelete (APIClient A.healthy) (start engineering)
   = Returns []
       (mkSession (withId "" engineering) 1%nat [Accounts.DeleteAccountByID 42])
   /\ Id (withId "" engineering) = "").
Proof.
  assert (Hd : Departments.ResourceJamfProDepartmentsDelete (APIClient D.byNameOnly)
                 (start engineering)
               = Returns []
                   (mkSession (withId "" engineering) 2%nat
                      [Departments.DeleteDepartmentByID "42";
                       Departments.DeleteDepartmentByName "Engineering"]))
    by (vm_compute; reflexivity).
  assert (Ha : Accounts.ResourceJamfProAccountDelete (APIClient A.healthy)
                 (start engineering)
               = Returns []
                   (mkSession (withId "" engineering) 1%nat
                      [Accounts.DeleteAccountByID 42]))
    by (vm_compute; reflexivity).
  split; (split; [assumption|]).
  - exact (proj1 delete_success_clears_identifier nat _ _ _ Hd).
  - exact (proj1 (proj2 (proj2 delete_success_clears_identifier)) nat _ _ _ Ha).
Defined.

(** ** C5 *)

(** C5.  When the retry loop of an Update or of a Delete ends in an
    error, which is the case when the operation by identifier and the one
    by name have failed in every attempt, the callback returns a
    diagnostic and the resource data, the identifier included, are what
    they were before the invocation. *)
Theorem failed_update_or_delete_leaves_state :
  (forall (Remote : Type)
          (conn : Client Departments.Call Departments.Resp Remote)
          (s s1 : Session Departments.Call Remote) (name : string) (e : error),
      readAttr Departments.resourceSchema "name" (data s) = VString name ->
      (retry.RetryContext (TimeoutUpdate (timeouts (data s)))
         (Departments.updateAttempt conn (Id (data s)) name
            (Departments.mkDepartment "" name)) tt s
       = Returns (tt, Some e) s1 ->
       exists dg,
         Departments.ResourceJamfProDepartmentsUpdate (APIClient conn) s
         = Returns [dg] s1
         /\ data s1 = data s)
      /\
      (retry.RetryContext (TimeoutDelete (timeouts (data s)))
         (Departments.deleteAttempt conn (Id (data s)) name) tt s
       = Returns (tt, Some e) s1 ->
       exists dg,
         Departments.ResourceJamfProDepartmentsDelete (APIClient conn) s
         = Returns [dg] s1
         /\ data s1 = data s))
  /\
  (forall (Remote : Type) (util : Accounts.TypeAssertion)
          (conn : Client Accounts.Call Accounts.Resp Remote)
          (s s1 : Session Accounts.Call Remote) (e : error),
      (retry.RetryContext (TimeoutUpdate (timeouts (data s)))
         (Accounts.updateAttempt conn) tt s
       = Returns (tt, Some e) s1 ->
       exists dg,
         Accounts.ResourceJamfProAccountUpdate (APIClient conn) s = Returns [dg] s1
         /\ data s1 = data s)
      /\
      (retry.RetryContext (TimeoutDelete (timeouts (data s)))
         (Accounts.deleteAttempt conn) tt s
       = Returns (tt, Some e) s1 ->
       exists dg,
         Accounts.ResourceJamfProAccountDelete (APIClient conn) s = Returns [dg] s1
         /\ data s1 = data s)).
Proof.
  split.
  - intros Remote conn s s1 name e Hn. split; intros H.
    + exact (DepartmentLemmas.department_update_failure conn s name e s1 Hn H).
    + destruct (DepartmentLemmas.department_delete_outcome conn s name Hn)
        as (t & Hd & [(e' & dg & Hr & Hrun) | (Hr & _)]);
        rewrite Hr in H; [|discriminate].
      injection H as _ <-. exists dg. split; assumption.
  - intros Remote util conn s s1 e. split; intros H.
    + exact (AccountLemmas.account_update_failure conn s e s1 H).
    + destruct (AccountLemmas.account_delete_outcome conn s)
        as (t & Hd & [(e' & dg & Hr & Hrun) | (Hr & _)]);
        rewrite Hr in H; [|discriminate].
      injection H as _ <-. exists dg. split; assumption.
Qed.

(** A department that can be neither updated nor deleted, by identifier
    or by name, in any of three attempts: the state keeps identifier
    [42]. *)
Lemma failed_update_or_delete_witness :
  (exists dg,
     Departments.ResourceJamfProDepartmentsUpdate (APIClient D.gone)
       (start engineering)
     = Returns [dg]
         (mkSession engineering 6%nat
            (concat (replicate 3
               [Departments.UpdateDepartmentByID "42"
                  (Departments.mkDepartment "" "Engineering");
                Departments.UpdateDepartmentByName "Engineering"
                  (Departments.mkDepartment "" "Engineering")])))
     /\ engineering = engineering)
  /\
  (exists dg,
     Accounts.ResourceJamfProAccountDelete
       (APIClient (A.scripted [] None None (Some transport) (Some transport)))
       (start engineering)
     = Returns [dg]
         (mkSession engineering 6%nat
            (concat (replicate 3
               [Accounts.DeleteAccountByID 42;
                Accounts.DeleteAccountByName "Engineering"])))
     /\ engineering = engineering).
Proof.
  split.
  - refine (proj1 (proj1 failed_update_or_delete_leaves_state nat D.gone
                     (start engineering) _ "Engineering" _ _) _).
    + vm_compute. reflexivity.
    + vm_compute. reflexivity.
  - refine (proj2 (proj2 failed_update_or_delete_leaves_state nat A.lenient
                     (A.scripted [] None None (Some transport) (Some transport))
                     (start engineering) _ _) _).
    vm_compute. reflexivity.
Defined.

(** ** C6 *)

(** C6, as amended.  When an account Create has created the account and
    the retried read-back ends in an error, the Create returns a
    diagnostic and the identifier in the state is the decimal form of the
    identifier the create call returned.  When a department Create has
    created the department and the retry loop of the read-back ends in an
    error, the Create returns a diagnostic and the identifier in the state
    is the empty string. *)
Theorem create_keeps_account_id_when_read_back_fails :
  (forall (Remote : Type) (util : Accounts.TypeAssertion)
          (conn : Client Accounts.Call Accounts.Resp Remote)
          (s s1 s2 : Session Accounts.Call Remote)
          (created : Accounts.ResponseAccountCreatedAndUpdated) (e : error),
      retry.RetryContext (TimeoutCreate (timeouts (data s)))
        (Accounts.createAttempt conn) None s
        = Returns (Some created, None) s1 ->
      retry.RetryContext (TimeoutRead (timeouts (data s1)))
        (Accounts.readBackAttempt (APIClient conn)
           "failed to read the created resource") tt
        (mkSession
           (withId (strconv.Itoa (Accounts.Created_ID created)) (data s1))
           (remote s1) (calls s1))
        = Returns (tt, Some e) s2 ->
      exists dg,
        Accounts.ResourceJamfProAccountCreate (APIClient conn) s = Returns [dg] s2
        /\ Id (data s2) = strconv.Itoa (Accounts.Created_ID created))
  /\
  (forall (Remote : Type)
          (conn : Client Departments.Call Departments.Resp Remote)
          (s s2 : Session Departments.Call Remote) (name : string)
          (created : Departments.ResourceDepartment) (w : Remote)
          (department : option Departments.ResourceDepartment) (e : error),
      readAttr Departments.resourceSchema "name" (data s) = VString name ->
      conn (Departments.CreateDepartment (Departments.mkDepartment "" name))
        (remote s) = ((Some created, None), w) ->
      retry.RetryContext (TimeoutRead (timeouts (data s)))
        (Departments.readAttempt conn (Departments.ID created)) None
        (mkSession (withId (Departments.ID created) (data s)) w
           (calls s ++ [Departments.CreateDepartment
                          (Departments.mkDepartment "" name)]))
        = Returns (department, Some e) s2 ->
      exists dg,
        Departments.ResourceJamfProDepartmentsCreate (APIClient conn) s
        = Returns [dg] (mkSession (withId "" (data s2)) (remote s2) (calls s2))).
Proof.
  split.
  - intros Remote util conn s s1 s2 created e Hc Hr.
    exact (AccountLemmas.account_create_readback_failure conn s created s1 e s2
             Hc Hr).
  - intros Remote conn s s2 name created w department e Hn Hc Hr.
    exact (DepartmentLemmas.department_create_readback_failure conn s name created
             w department e s2 Hn Hc Hr).
Qed.

(** An account is created with identifier 42 and cannot be read back: the
    state keeps [42].  A department is created with identifier [42] and
    cannot be read back: the identifier is cleared. *)
Lemma create_read_back_witness :
  (exists dg s2,
     Accounts.ResourceJamfProAccountCreate (util := A.lenient)
       (APIClient (A.scripted [] None None (Some notFound) None)) (start planned)
     = Returns [dg] s2
     /\ Id (data s2) = "42")
  /\
  (exists dg,
     Departments.ResourceJamfProDepartmentsCreate (APIClient D.gone) (start planned)
     = Returns [dg]
         (mkSession (withId "" planned) 4%nat
            (Departments.CreateDepartment (Departments.mkDepartment "" "Engineering")
             :: replicate 3 (Departments.GetDepartmentByID "42")))).
Proof.
  split.
  - pose (conn := A.scripted [] None None (Some notFound) None).
    pose (s1 := mkSession planned 2%nat
                  [Accounts.GetAccounts; Accounts.CreateAccount A.plannedAccount]).
    pose (s2 := mkSession (withId "42" planned) 5%nat
                  (calls s1 ++ replicate 3 (Accounts.GetAccountByID 42))).
    destruct (proj1 create_keeps_account_id_when_read_back_fails nat A.lenient
                conn (start planned) s1 s2 (Accounts.mkCreated 42)
                (Errorf "failed to read the created resource"))
      as [dg Hdg].
    + vm_compute. reflexivity.
    + vm_compute. reflexivity.
    + exists dg, s2. exact Hdg.
  - refine (proj2 create_keeps_account_id_when_read_back_fails nat D.gone
              (start planned)
              (mkSession (withId "42" planned) 4%nat
                 (Departments.CreateDepartment
                    (Departments.mkDepartment "" "Engineering")
                  :: replicate 3 (Departments.GetDepartmentByID "42")))
              "Engineering"
              (Departments.mkDepartment "42" "Engineering") 1%nat None notFound
              _ _ _).
    + vm_compute. reflexivity.
    + reflexivity.
    + vm_compute. reflexivity.
Defined.

(** C6 fails as stated: the department is created with identifier [42],
    the read-back fails in all its attempts, and the Create returns a
    diagnostic with the identifier in the state empty. *)
Lemma department_create_loses_identifier :
  let run :=
    Departments.ResourceJamfProDepartmentsCreate (APIClient D.gone)
      (start planned) in
  fst (D.gone (Departments.CreateDepartment
                 (Departments.mkDepartment "" "Engineering")) 0%nat)
    = (Some (Departments.mkDepartment "42" "Engineering"), None)
  /\ (exists dg, value run = Some [dg])
  /\ (Id ∘ data) <$> final run = Some ""
  /\ "" <> "42".
Proof.
  cbv zeta. repeat split; try reflexivity; try discriminate.
  eexists. vm_compute. reflexivity.
Qed.

(** ** C7 *)

(** C7, as amended.  Two runs of the department constructor on the same
    resource data give the same result, whatever the remote states and the
    calls made so far.  Two runs of the account constructor on the same
    resource data give the same result when the two calls of [GetAccounts]
    are answered alike: the account depends on the configuration and on
    the groups the remote lists. *)
Theorem constructor_is_a_function_of_configuration_and_listing :
  (forall (Remote : Type) (s1 s2 : Session Departments.Call Remote),
      data s1 = data s2 ->
      value (Departments.constructJamfProDepartment s1)
      = value (Departments.constructJamfProDepartment s2))
  /\
  (forall (Remote : Type) (util : Accounts.TypeAssertion)
          (c1 c2 : Client Accounts.Call Accounts.Resp Remote)
          (s1 s2 : Session Accounts.Call Remote),
      data s1 = data s2 ->
      fst (c1 Accounts.GetAccounts (remote s1))
      = fst (c2 Accounts.GetAccounts (remote s2)) ->
      value (Accounts.constructJamfProAccount c1 s1)
      = value (Accounts.constructJamfProAccount c2 s2)).
Proof.
  split.
  - intros Remote s1 s2 Hd.
    destruct (DepartmentLemmas.department_name s1) as [n Hn].
    rewrite (DepartmentLemmas.department_construct s1 n Hn).
    rewrite Hd in Hn.
    rewrite (DepartmentLemmas.department_construct s2 n Hn). reflexivity.
  - intros Remote util c1 c2 s1 s2 Hd Hl.
    apply (related_value (sameDataAt (remote s1) (remote s2)) sameData).
    + apply AccountLemmas.related_construct, Hl.
    + repeat split. exact Hd.
Qed.

(** The same configuration in two sessions that differ in the remote
    state, in the calls made and, for the account, in the client, with the
    same listing of groups. *)
Lemma constructor_witness :
  value (Departments.constructJamfProDepartment
           (mkSession engineering 0%nat []))
  = value (Departments.constructJamfProDepartment
             (mkSession engineering 7%nat [Departments.GetDepartmentByID "42"]))
  /\
  value (Accounts.constructJamfProAccount (util := A.lenient)
           (A.scripted [A.admins 1; A.auditors 8] None None None None)
           (mkSession A.configured 0%nat []))
  = value (Accounts.constructJamfProAccount (util := A.lenient)
             (A.scripted [A.admins 1; A.auditors 8] None (Some transport)
                (Some notFound) None)
             (mkSession A.configured 5%nat [Accounts.GetAccountByID 42])).
Proof.
  split.
  - apply (proj1 constructor_is_a_function_of_configuration_and_listing).
    reflexivity.
  - apply (proj2 constructor_is_a_function_of_configuration_and_listing);
      reflexivity.
Defined.

(** C7 fails as stated.  The configuration has the attributes the schema
    requires, and the validators of the schema accept its [enabled] and its
    [access_level].  The account constructor runs twice on it and builds
    two different accounts, because the remote lists the group [admins]
    under another identifier. *)
Lemma account_constructor_depends_on_remote :
  let run (id : Z) :=
    value (Accounts.constructJamfProAccount (util := A.lenient)
             (A.scripted [A.admins id; A.auditors 8] None None None None)
             (start A.configured)) in
  let GetString := Accounts.GetStringFromInterface (TypeAssertion := A.lenient) in
  readAttr Accounts.resourceSchema "name" A.configured = VString "Engineering"
  /\ AccountValidators.validateEnabled GetString
       (readAttr Accounts.resourceSchema "enabled" A.configured) "enabled"
     = ([], [])
  /\ AccountValidators.validateAccessLevel GetString
       (readAttr Accounts.resourceSchema "access_level" A.configured)
       "access_level"
     = ([], [])
  /\ run 1 = Some (inl (A.configuredAccount 1))
  /\ run 2 = Some (inl (A.configuredAccount 2))
  /\ Accounts.Groups (A.configuredAccount 1) = [A.admins 1; A.auditors 8]
  /\ Accounts.Groups (A.configuredAccount 2) = [A.admins 2; A.auditors 8]
  /\ A.configuredAccount 1 <> A.configuredAccount 2.
Proof.
  cbv zeta. repeat split; try (vm_compute; reflexivity). discriminate.
Qed.

(** ** C8 *)

(** C8, as amended.  When the retry loop of an account Read has fetched
    the account, the Read returns no diagnostic and leaves the identifier
    as it was.  The resource data then hold the fields of the account other
    than its [ID], its [EmailAddress] and its [Password]: the groups as the
    set built from them, one item for each hash code and in the order of
    the codes, the rest as they are.  The [ID] is not copied, the
    [email_address] attribute is left as it was, and the password is
    written only when the state already holds a non-empty one.  A site or
    LDAP server without identifier and name is held as the empty list, also
    inside a group, and an empty privilege list as the empty list.  When
    the retry loop of a department Read has fetched the department, the
    Read returns no diagnostic, confirms the identifier and writes the
    name. *)
Theorem read_success_writes_fields_except_password :
  (forall (Remote : Type) (conn : Client Accounts.Call Accounts.Resp Remote)
          (s s1 : Session Accounts.Call Remote)
          (account : Accounts.ResourceAccount),
      retry.RetryContext (TimeoutRead (timeouts (data s)))
        (Accounts.readAttempt conn) None s
        = Returns (Some account, None) s1 ->
      exists d',
        Accounts.ResourceJamfProAccountRead (APIClient conn) s
        = Returns [] (mkSession d' (remote s1) (calls s1))
        /\ Id d' = Id (data s)
        /\ setFunc d' = setFunc (data s)
        /\ holdsAccount account d'
        /\ attrs d' !! "password"
           = (if isZero (readAttr Accounts.resourceSchema "password" (data s))
              then attrs (data s) !! "password"
              else Some (VString (Accounts.Password account)))
        /\ attrs d' !! "email_address" = attrs (data s) !! "email_address")
  /\
  (blockOf 0 "" = VList []
   /\ stringsOf [] = VList []
   /\ forall group : Accounts.AccountsListSubsetGroups,
        Accounts.Group_Site group = Accounts.zeroSite ->
        Accounts.Group_Privileges group = Accounts.zeroPrivileges ->
        groupEntry group
        = VMap [ ("name", VString (Accounts.Group_Name group));
                 ("id", VInt (Accounts.Group_ID group));
                 ("site", VList []);
                 ("jss_objects_privileges", VList []);
                 ("jss_settings_privileges", VList []);
                 ("jss_actions_privileges", VList []);
                 ("casper_admin_privileges", VList []);
                 ("casper_remote_privileges", VList []);
                 ("casper_imaging_privileges", VList []);
                 ("recon_privileges", VList []) ])
  /\
  (forall (Remote : Type)
          (conn : Client Departments.Call Departments.Resp Remote)
          (s s1 : Session Departments.Call Remote)
          (department : Departments.ResourceDepartment),
      retry.RetryContext (TimeoutRead (timeouts (data s)))
        (Departments.readAttempt conn (Id (data s))) None s
        = Returns (Some department, None) s1 ->
      Departments.ResourceJamfProDepartmentsRead (APIClient conn) s
      = Returns []
          (mkSession
             (withAttr "name" (VString (Departments.Name department))
                (withId (Id (data s)) (data s1)))
             (remote s1) (calls s1))).
Proof.
  split; [|split].
  - intros Remote conn s s1 account H.
    assert (Hd : data s1 = data s).
    { refine (preserves_RetryContext (fun d => d = data s) _ _ _ _ s _ _ eq_refl H).
      intros a. apply AccountLemmas.account_read_attempt_frame. }
    destruct (AccountLemmas.writeAccount_returns account s1)
      as (d' & Hrun & Hid & _ & Hholds & Hpw & Hf & He).
    exists d'. rewrite Hd in Hid, Hpw, Hf, He.
    split; [|repeat (split; [assumption|]); assumption].
    unfold Accounts.ResourceJamfProAccountRead. cbn [bind Timeout].
    rewrite (bind_returns _ _ _ _ _ H). exact Hrun.
  - split; [reflexivity|]. split; [reflexivity|].
    intros group Hs Hp. unfold groupEntry. rewrite Hs, Hp. reflexivity.
  - intros Remote conn s s1 department H.
    exact (DepartmentLemmas.department_read_success conn s department s1 H).
Qed.

(** An account with two groups of the same hash and one of another is read
    into a state that holds an e-mail address and no password: the fields
    are written, the groups as a set of two, the password is not written
    and the e-mail address stays.  A department is read. *)
Lemma read_success_witness :
  (exists d',
     Accounts.ResourceJamfProAccountRead (APIClient A.grouped) (start A.created)
     = Returns [] (mkSession d' 1%nat [Accounts.GetAccountByID 42])
     /\ Id d' = "42"
     /\ setFunc d' = nameLength
     /\ holdsAccount A.withGroups d'
     /\ attrs d' !! "password" = None
     /\ attrs d' !! "email_address" = Some (VString "old@example.com"))
  /\
  Departments.ResourceJamfProDepartmentsRead (APIClient D.healthy)
    (start engineering)
  = Returns []
      (mkSession (withAttr "name" (VString "Engineering") engineering) 1%nat
         [Departments.GetDepartmentByID "42"]).
Proof.
  split.
  - refine (proj1 read_success_writes_fields_except_password nat A.grouped
              (start A.created)
              (mkSession A.created 1%nat [Accounts.GetAccountByID 42])
              A.withGroups _).
    vm_compute. reflexivity.
  - refine (proj2 (proj2 read_success_writes_fields_except_password) nat D.healthy
              (start engineering)
              (mkSession engineering 1%nat [Departments.GetDepartmentByID "42"])
              (Departments.mkDepartment "42" "Engineering") _).
    vm_compute. reflexivity.
Defined.

(** C8 fails as stated: the Read succeeds; the fetched account has the
    identifier [42], the e-mail address [engineering@example.com], the
    password [secret] and three groups, [admins] twice.  Afterwards the
    state has no password and no e-mail address attribute, and holds two
    groups, not in the order of the account. *)
Lemma account_read_leaves_password_unset :
  let run :=
    Accounts.ResourceJamfProAccountRead (APIClient A.grouped) (start engineering) in
  fst (A.grouped (Accounts.GetAccountByID 42) 0%nat) = (Some A.withGroups, None)
  /\ Accounts.Password A.withGroups = "secret"
  /\ Accounts.EmailAddress A.withGroups = "engineering@example.com"
  /\ Accounts.Groups A.withGroups = [A.auditors 8; A.admins 7; A.admins 9]
  /\ value run = Some []
  /\ (fun s => attrs (data s) !! "password") <$> final run = Some None
  /\ (fun s => attrs (data s) !! "email_address") <$> final run = Some None
  /\ (fun s => attrs (data s) !! "groups") <$> final run
     = Some (Some (VList [groupEntry (A.admins 7); groupEntry (A.auditors 8)]))
  /\ (fun s => attrs (data s) !! "name") <$> final run
     = Some (Some (VString "Engineering")).
Proof.
  cbv zeta. repeat split; try reflexivity; vm_compute; reflexivity.
Qed.

(** ** C9 *)

(** C9.  The department constructor returns a department in every
    session: marshalling the department to XML meets strings only and
    cannot fail.  So no diagnostic a department Create or Update returns
    is the one of a failed construction. *)
Theorem department_constructor_never_fails :
  (forall (Remote : Type) (s : Session Departments.Call Remote),
      exists department,
        Departments.constructJamfProDepartment s = Returns (inl department) s
        /\ readAttr Departments.resourceSchema "name" (data s)
           = VString (Departments.Name department)
        /\ xml.MarshalIndent (Departments.reflectDepartment department) = None)
  /\
  (forall (Remote : Type) (meta : Meta Departments.Call Departments.Resp Remote)
          (s s' : Session Departments.Call Remote) (diags : diag.Diagnostics),
      Departments.ResourceJamfProDepartmentsCreate meta s = Returns diags s' ->
      Forall (fun dg => reportsConstructionFailure dg = false) diags)
  /\
  (forall (Remote : Type) (meta : Meta Departments.Call Departments.Resp Remote)
          (s s' : Session Departments.Call Remote) (diags : diag.Diagnostics),
      Departments.ResourceJamfProDepartmentsUpdate meta s = Returns diags s' ->
      Forall (fun dg => reportsConstructionFailure dg = false) diags).
Proof.
  split; [|split].
  - intros Remote s. destruct (DepartmentLemmas.department_name s) as [n Hn].
    exists (Departments.mkDepartment "" n). split; [|split].
    + exact (DepartmentLemmas.department_construct s n Hn).
    + exact Hn.
    + reflexivity.
  - intros Remote meta s s' diags.
    apply DepartmentLemmas.department_create_reports.
  - intros Remote meta s s' diags.
    apply DepartmentLemmas.department_update_reports.
Qed.

(** A Create and an Update that fail, for other reasons than the
    construction. *)
Lemma department_constructor_witness :
  Forall (fun dg => reportsConstructionFailure dg = false)
    (diag.FromErr (Errorf
       "failed to create Jamf Pro Department 'Engineering': connection reset by peer"))
  /\
  Forall (fun dg => reportsConstructionFailure dg = false)
    (diag.FromErr (Errorf
       ("final attempt to update department 'Engineering' failed: "
        +:+ "failed to update department 'Engineering' by ID '42' and by name "
        +:+ "due to errors: 404 Not Found, 404 Not Found"))).
Proof.
  split.
  - refine (proj1 (proj2 department_constructor_never_fails) nat
              (APIClient D.flakyCreate) (start planned)
              (mkSession planned 1%nat
                 [Departments.CreateDepartment
                    (Departments.mkDepartment "" "Engineering")])
              _ _).
    vm_compute. reflexivity.
  - refine (proj2 (proj2 department_constructor_never_fails) nat
              (APIClient D.gone) (start engineering)
              (mkSession engineering 6%nat
                 (concat (replicate 3
                    [Departments.UpdateDepartmentByID "42"
                       (Departments.mkDepartment "" "Engineering");
                     Departments.UpdateDepartmentByName "Engineering"
                       (Departments.mkDepartment "" "Engineering")])))
              _ _).
    vm_compute. reflexivity.
Defined.

(** ** C10 *)

(** C10, as amended.  When the identifier in the state does not parse as
    an integer, an account Read and an account Delete fail in the first
    attempt with a non-retryable error, return a diagnostic, and leave the
    session as it was: no remote call is made and the resource data are
    unchanged.  An account Update runs the constructor first, which calls
    [GetAccounts] on the remote; when the constructor returns, the attempt
    fails with a non-retryable error after that one call, no update call is
    made, and the Update returns a diagnostic with the resource data
    unchanged. *)
Theorem unparsed_account_id_fails_without_calls_except_update
  {Remote : Type} {util : Accounts.TypeAssertion}
  (conn : Client Accounts.Call Accounts.Resp Remote)
  (s : Session Accounts.Call Remote) (err : error) :
  strconv.Atoi (Id (data s)) = inr err ->
  ((forall account,
       Accounts.readAttempt conn account s
       = Returns
           (account,
            Some (retry.NonRetryableError (Errorf
              ("error converting id (" +:+ Id (data s) +:+ ") to integer: "
               +:+ Error err)))) s)
   /\ exists dg,
        Accounts.ResourceJamfProAccountRead (APIClient conn) s = Returns [dg] s)
  /\
  (Accounts.deleteAttempt conn tt s
   = Returns
       (tt, Some (retry.NonRetryableError (Errorf
          ("failed to parse dock item ID: " +:+ Error err)))) s
   /\ exists dg,
        Accounts.ResourceJamfProAccountDelete (APIClient conn) s = Returns [dg] s)
  /\
  (forall r s1,
      Accounts.constructJamfProAccount conn s = Returns r s1 ->
      s1 = mkSession (data s) (snd (conn Accounts.GetAccounts (remote s)))
             (calls s ++ [Accounts.GetAccounts])
      /\ (exists e,
            Accounts.updateAttempt conn tt s
            = Returns (tt, Some (retry.NonRetryableError e)) s1)
      /\ exists dg,
           Accounts.ResourceJamfProAccountUpdate (APIClient conn) s
           = Returns [dg]
               match TimeoutUpdate (timeouts (data s)) with
               | O => s
               | S _ => s1
               end).
Proof.
  intros Hid. split; [|split].
  - split.
    + intros account.
      exact (AccountLemmas.account_read_attempt_unparsed conn s err account Hid).
    + exact (AccountLemmas.account_read_unparsed conn s err Hid).
  - exact (AccountLemmas.account_delete_unparsed conn s err Hid).
  - intros r s1 Hk. split; [|split].
    + exact (AccountLemmas.account_construct_calls conn s r s1 Hk).
    + rewrite (AccountLemmas.account_update_attempt_unparsed conn s err Hid), Hk.
      eexists. reflexivity.
    + exact (AccountLemmas.account_update_unparsed conn s err r s1 Hid Hk).
Qed.

(** A state imported under the identifier [engineering]: the Delete
    fails without a call, the Update after the call of [GetAccounts]. *)
Lemma unparsed_account_id_witness :
  let s := start (Call := Accounts.Call) A.imported in
  (exists dg,
     Accounts.ResourceJamfProAccountDelete (APIClient A.healthy) s = Returns [dg] s)
  /\
  (exists dg,
     Accounts.ResourceJamfProAccountUpdate (util := A.lenient)
       (APIClient A.healthy) s
     = Returns [dg] (mkSession A.imported 1%nat [Accounts.GetAccounts])).
Proof.
  intros s.
  pose proof (unparsed_account_id_fails_without_calls_except_update
                (util := A.lenient) A.healthy s
                (strconv.syntaxError "engineering") eq_refl)
    as (_ & (_ & Hdelete) & Hupdate).
  split; [exact Hdelete|].
  destruct (Hupdate (inl (Accounts.mkAccount 0 "Engineering" false "" "" "" ""
                            Accounts.zeroLdapServer false "" "" ""
                            Accounts.zeroSite [] Accounts.zeroPrivileges))
              (mkSession A.imported 1%nat [Accounts.GetAccounts]))
    as (_ & _ & H).
  - vm_compute. reflexivity.
  - exact H.
Defined.

(** C10 fails as stated: the identifier does not parse, and the Update
    has called [GetAccounts] on the remote by the time it fails. *)
Lemma account_update_calls_remote_before_parsing :
  let run :=
    Accounts.ResourceJamfProAccountUpdate (util := A.lenient)
      (APIClient A.healthy) (start A.imported) in
  strconv.Atoi (Id A.imported) = inr (strconv.syntaxError "engineering")
  /\ (exists dg, value run = Some [dg])
  /\ calls <$> final run = Some [Accounts.GetAccounts].
Proof.
  cbv zeta. repeat split; try reflexivity.
  eexists. vm_compute. reflexivity.
Qed.

(** * Further properties of the callbacks *)

Import Scenarios MoreScenarios.

(** ** X1 *)

(** X1.  When the identifier parses, the read timeout leaves room for an
    attempt and the fetch by identifier fails with a structured API error,
    the account Read makes that one call and returns one error diagnostic,
    whose summary names the read and the resource (or [unknown] when the
    name is empty) and whose detail carries the status code and the
    message; the resource data are unchanged. *)
Theorem account_read_reports_api_error
  {Remote : Type} (conn : Client Accounts.Call Accounts.Resp Remote)
  (s : Session Accounts.Call Remote) (id : Z) (n : nat)
  (a : option Accounts.ResourceAccount) (e : error) (w : Remote)
  (code : Z) (msg : string) :
  strconv.Atoi (Id (data s)) = inl id ->
  TimeoutRead (timeouts (data s)) = S n ->
  conn (Accounts.GetAccountByID id) (remote s) = ((a, Some e), w) ->
  asAPIError e = Some (code, msg) ->
  Accounts.ResourceJamfProAccountRead (APIClient conn) s
  = Returns
      [ diag.mkDiagnostic diag.Error_
          ("Failed to read the resource with name: "
           +:+ (let v := readAttr Accounts.resourceSchema "name" (data s) in
                if isZero v then "unknown" else Accounts.formatName v))
          ("API Error (Code: " +:+ strconv.Itoa code +:+ "): " +:+ msg) ]
      (mkSession (data s) w (calls s ++ [Accounts.GetAccountByID id])).
Proof.
  intros Hid Ht Hc He.
  pose proof (AccountLemmas.account_read_attempt_by_id_error conn s id a e w None
                Hid Hc) as Ha.
  rewrite He in Ha.
  unfold Accounts.ResourceJamfProAccountRead. cbn [bind Timeout]. rewrite Ht.
  unfold retry.RetryContext. run (attempts_nonretryable _ n _ None _ _ _ _ Ha).
  unfold Accounts.generateTFDiagsFromHTTPError. cbn [bind GetOk ret data].
  destruct (isZero _); reflexivity.
Qed.

(** The server answers 404: the diagnostic says so. *)
Lemma account_read_reports_api_error_witness :
  Accounts.ResourceJamfProAccountRead
    (APIClient (A.scripted [] None None (Some notFound) None)) (start engineering)
  = Returns
      [ diag.mkDiagnostic diag.Error_
          "Failed to read the resource with name: Engineering"
          "API Error (Code: 404): Not Found" ]
      (mkSession engineering 1%nat [Accounts.GetAccountByID 42]).
Proof.
  exact (account_read_reports_api_error
           (A.scripted [] None None (Some notFound) None) (start engineering)
           42 2%nat None notFound 1%nat 404 "Not Found"
           eq_refl eq_refl eq_refl eq_refl).
Defined.

(** ** X2 *)

(** X2.  In an attempt of the account Update, once the constructor has
    built the account and the identifier parses: when the update by
    identifier succeeds the account is not updated by name; a structured
    API error from it ends the attempt with a non-retryable error, again
    without an update by name; any other error is followed by an update by
    the name in the state, whose error, if any, is non-retryable when
    structured and retryable otherwise. *)
Theorem account_update_attempt_by_id_then_name
  {Remote : Type} {util : Accounts.TypeAssertion}
  (conn : Client Accounts.Call Accounts.Resp Remote)
  (s s1 : Session Accounts.Call Remote) (account : Accounts.ResourceAccount)
  (id : Z) (u : option Accounts.ResponseAccountCreatedAndUpdated)
  (apiErr : option error) (w : Remote) :
  Accounts.constructJamfProAccount conn s = Returns (inl account) s1 ->
  strconv.Atoi (Id (data s)) = inl id ->
  conn (Accounts.UpdateAccountByID id account) (remote s1) = ((u, apiErr), w) ->
  Accounts.updateAttempt conn tt s =
    match apiErr with
    | None =>
        Returns (tt, None)
          (mkSession (data s) w
             (calls s1 ++ [Accounts.UpdateAccountByID id account]))
    | Some e =>
        match asAPIError e with
        | Some (code, msg) =>
            Returns
              (tt, Some (retry.NonRetryableError (Accounts.apiErrorf code msg)))
              (mkSession (data s) w
                 (calls s1 ++ [Accounts.UpdateAccountByID id account]))
        | None =>
            let name :=
              Accounts.formatName
                (readAttr Accounts.resourceSchema "name" (data s)) in
            let '(r, w') := conn (Accounts.UpdateAccountByName name account) w in
            Returns
              (tt,
               match snd r with
               | None => None
               | Some e' =>
                   Some (match asAPIError e' with
                         | Some (code, msg) =>
                             retry.NonRetryableError (Accounts.apiErrorf code msg)
                         | None => retry.RetryableError e'
                         end)
               end)
              (mkSession (data s) w'
                 (calls s1 ++ [Accounts.UpdateAccountByID id account;
                               Accounts.UpdateAccountByName name account]))
        end
    end.
Proof. apply AccountAttempts.account_update_by_id. Qed.

(** The update by identifier meets a transport error and the update by
    name succeeds. *)
Lemma account_update_attempt_witness :
  Accounts.updateAttempt (util := A.lenient)
    (A.scripted [] None None (Some transport) None) tt (start engineering)
  = Returns (tt, None)
      (mkSession engineering 3%nat
         [Accounts.GetAccounts;
          Accounts.UpdateAccountByID 42 A.plannedAccount;
          Accounts.UpdateAccountByName "Engineering" A.plannedAccount]).
Proof.
  rewrite (account_update_attempt_by_id_then_name (util := A.lenient)
             (A.scripted [] None None (Some transport) None) (start engineering)
             (mkSession engineering 1%nat [Accounts.GetAccounts])
             A.plannedAccount 42 None (Some transport) 2%nat);
    [|vm_compute; reflexivity|reflexivity|reflexivity].
  vm_compute. reflexivity.
Defined.

(** ** X3 *)

(** X3.  In the retry loop of the account Delete, when the identifier
    parses and the delete by identifier fails with any error, structured or
    not, the account is deleted by the name in the state; if that succeeds
    the loop ends in success, and if it fails, with any error, structured
    or not, the loop goes on to the next attempt. *)
Theorem account_delete_falls_back_and_retries_on_any_error
  {Remote : Type} (conn : Client Accounts.Call Accounts.Resp Remote)
  (s : Session Accounts.Call Remote) (id : Z) (n : nat) (r : option error)
  (e : error) (w : Remote) :
  strconv.Atoi (Id (data s)) = inl id ->
  conn (Accounts.DeleteAccountByID id) (remote s) = (Some e, w) ->
  retry.attempts (S n) (Accounts.deleteAttempt conn) tt r s =
    let name :=
      Accounts.formatName (readAttr Accounts.resourceSchema "name" (data s)) in
    let '(byName, w') := conn (Accounts.DeleteAccountByName name) w in
    let s2 :=
      mkSession (data s) w'
        (calls s ++ [Accounts.DeleteAccountByID id;
                     Accounts.DeleteAccountByName name]) in
    match byName with
    | None => Returns (tt, None) s2
    | Some e' => retry.attempts n (Accounts.deleteAttempt conn) tt (Some e') s2
    end.
Proof.
  intros Hid Hc.
  pose proof (AccountAttempts.account_delete_by_id conn s id (Some e) w Hid Hc) as Ha.
  cbv zeta in *. destruct (conn (Accounts.DeleteAccountByName _) w) as [[e'|] w'].
  - exact (attempts_retryable _ n tt r s tt e' _ Ha).
  - exact (attempts_success _ n tt r s tt _ Ha).
Qed.

(** Both deletes meet a structured API error: the first attempt is
    followed by a second. *)
Lemma account_delete_retries_witness :
  let conn := A.scripted [] None None (Some notFound) (Some notFound) in
  retry.attempts 3 (Accounts.deleteAttempt conn) tt None (start engineering)
  = retry.attempts 2 (Accounts.deleteAttempt conn) tt (Some notFound)
      (mkSession engineering 2%nat
         [Accounts.DeleteAccountByID 42; Accounts.DeleteAccountByName "Engineering"]).
Proof.
  intros conn.
  exact (account_delete_falls_back_and_retries_on_any_error conn
           (start engineering) 42 2%nat None notFound 1%nat eq_refl eq_refl).
Defined.

(** ** X4 *)

(** X4.  In the retry loops of the department Update and Delete, when the
    operation by identifier fails with any error, structured or not, the
    operation by name follows; if it succeeds the loop ends in success, and
    if it fails the loop goes on to the next attempt with an error that
    quotes both failures. *)
Theorem department_update_and_delete_fall_back_on_any_error
  {Remote : Type} (conn : Client Departments.Call Departments.Resp Remote)
  (s : Session Departments.Call Remote) (id name : string) (n : nat)
  (r : option error) (e : error) (w : Remote) :
  (forall (department : Departments.ResourceDepartment)
          (u : option Departments.ResourceDepartment),
      conn (Departments.UpdateDepartmentByID id department) (remote s)
        = ((u, Some e), w) ->
      retry.attempts (S n) (Departments.updateAttempt conn id name department) tt r s
      = let '(byName, w') :=
          conn (Departments.UpdateDepartmentByName name department) w in
        let s2 :=
          mkSession (data s) w'
            (calls s ++ [Departments.UpdateDepartmentByID id department;
                         Departments.UpdateDepartmentByName name department]) in
        match snd byName with
        | None => Returns (tt, None) s2
        | Some e' =>
            retry.attempts n (Departments.updateAttempt conn id name department) tt
              (Some (Errorf
                 ("failed to update department '" +:+ name +:+ "' by ID '" +:+ id
                  +:+ "' and by name due to errors: " +:+ Error e +:+ ", "
                  +:+ Error e')))
              s2
        end)
  /\
  (conn (Departments.DeleteDepartmentByID id) (remote s) = (Some e, w) ->
   retry.attempts (S n) (Departments.deleteAttempt conn id name) tt r s
   = let '(byName, w') := conn (Departments.DeleteDepartmentByName name) w in
     let s2 :=
       mkSession (data s) w'
         (calls s ++ [Departments.DeleteDepartmentByID id;
                      Departments.DeleteDepartmentByName name]) in
     match byName with
     | None => Returns (tt, None) s2
     | Some e' =>
         retry.attempts n (Departments.deleteAttempt conn id name) tt
           (Some (Errorf
              ("failed to delete department '" +:+ name +:+ "' by ID '" +:+ id
               +:+ "' and by name due to errors: " +:+ Error e +:+ ", "
               +:+ Error e')))
           s2
     end).
Proof.
  split.
  - intros department u Hc.
    pose proof (DepartmentOutcomes.department_update_by_id conn s id name department
                  u e w Hc) as Ha.
    destruct (conn (Departments.UpdateDepartmentByName name department) w)
      as [[u' [e'|]] w']; cbn [snd] in *.
    + exact (attempts_retryable _ n tt r s tt _ _ Ha).
    + exact (attempts_success _ n tt r s tt _ Ha).
  - intros Hc.
    pose proof (DepartmentOutcomes.department_delete_by_id conn s id name e w Hc) as Ha.
    destruct (conn (Departments.DeleteDepartmentByName name) w) as [[e'|] w'].
    + exact (attempts_retryable _ n tt r s tt _ _ Ha).
    + exact (attempts_success _ n tt r s tt _ Ha).
Qed.

(** The operations by identifier meet a structured API error and those by
    name succeed: one attempt is enough. *)
Lemma department_fall_back_witness :
  let department := Departments.mkDepartment "" "Engineering" in
  retry.attempts 3
    (Departments.updateAttempt D.byNameOnly "42" "Engineering" department) tt None
    (start engineering)
  = Returns (tt, None)
      (mkSession engineering 2%nat
         [Departments.UpdateDepartmentByID "42" department;
          Departments.UpdateDepartmentByName "Engineering" department])
  /\
  retry.attempts 3 (Departments.deleteAttempt D.byNameOnly "42" "Engineering") tt
    None (start engineering)
  = Returns (tt, None)
      (mkSession engineering 2%nat
         [Departments.DeleteDepartmentByID "42";
          Departments.DeleteDepartmentByName "Engineering"]).
Proof.
  intros department.
  destruct (department_update_and_delete_fall_back_on_any_error D.byNameOnly
              (start engineering) "42" "Engineering" 2%nat None notFound 1%nat)
    as [Hu Hd].
  split.
  - exact (Hu department None eq_refl).
  - exact (Hd eq_refl).
Defined.

(** ** X5 *)

(** X5.  The department Read retries every error of the fetch, structured
    or not: when the fetch by the identifier in the state fails in every
    remote state, the Read makes exactly as many fetches as the read
    timeout has room for and no other call, clears the identifier and
    returns one diagnostic. *)
Theorem department_read_retries_every_error
  {Remote : Type} (conn : Client Departments.Call Departments.Resp Remote)
  (s : Session Departments.Call Remote) :
  (forall w, exists department e w',
      conn (Departments.GetDepartmentByID (Id (data s))) w
      = ((department, Some e), w')) ->
  exists dg w,
    Departments.ResourceJamfProDepartmentsRead (APIClient conn) s
    = Returns [dg]
        (mkSession (withId "" (data s)) w
           (calls s ++ replicate (TimeoutRead (timeouts (data s)))
                         (Departments.GetDepartmentByID (Id (data s))))).
Proof.
  intros Hfail.
  destruct (DepartmentTraces.read_outcome conn s) as (x & s1 & Hr & Hd & Ho).
  destruct (DepartmentTraces.read_attempts_all_fail conn (Id (data s)) Hfail
              _ _ _ _ _ _ Hr) as (Hc & e & He).
  destruct x as [[dep|] [e'|]]; try discriminate;
    destruct Ho as [dg Ho]; exists dg, (remote s1); rewrite Ho, Hc; reflexivity.
Qed.

(** A department the server reports as not found, with room for three
    attempts. *)
Lemma department_read_retries_witness :
  exists dg w,
    Departments.ResourceJamfProDepartmentsRead (APIClient D.gone) (start engineering)
    = Returns [dg]
        (mkSession (withId "" engineering) w
           (replicate 3 (Departments.GetDepartmentByID "42"))).
Proof.
  apply (department_read_retries_every_error D.gone (start engineering)).
  intros w. exists None, notFound, (S w). reflexivity.
Defined.

(** ** X6 *)

(** X6.  A Read only fetches and a Delete only deletes.  Every call a
    department Read makes is the fetch by the identifier in the state, and
    there are at most as many as the read timeout has room for; every call
    an account Read makes is a fetch, by identifier or by name; every call
    a department or account Delete makes is a delete, by identifier or by
    name. *)
Theorem reads_only_fetch_and_deletes_only_delete :
  (forall (Remote : Type) (conn : Client Departments.Call Departments.Resp Remote)
          (s s' : Session Departments.Call Remote) (diags : diag.Diagnostics),
      Departments.ResourceJamfProDepartmentsRead (APIClient conn) s
        = Returns diags s' ->
      exists k, (k <= TimeoutRead (timeouts (data s)))%nat
        /\ calls s'
           = (calls s
              ++ replicate k (Departments.GetDepartmentByID (Id (data s))))%list)
  /\
  (forall (Remote : Type) (meta : Meta Accounts.Call Accounts.Resp Remote),
      callsOnly fetchesAccount (Accounts.ResourceJamfProAccountRead meta))
  /\
  (forall (Remote : Type) (meta : Meta Departments.Call Departments.Resp Remote),
      callsOnly deletesDepartment (Departments.ResourceJamfProDepartmentsDelete meta))
  /\
  (forall (Remote : Type) (meta : Meta Accounts.Call Accounts.Resp Remote),
      callsOnly deletesAccount (Accounts.ResourceJamfProAccountDelete meta)).
Proof.
  split; [|split; [|split]].
  - intros Remote conn s s' diags H.
    destruct (DepartmentTraces.read_outcome conn s) as (x & s1 & Hr & Hd & Ho).
    destruct (DepartmentTraces.read_attempts_trace conn _ _ _ _ _ _ _ Hr)
      as (k & Hk & Hc).
    exists k. split; [exact Hk|]. rewrite <- Hc.
    destruct x as [[dep|] [e|]].
    + destruct Ho as [dg Ho]. rewrite Ho in H. injection H as _ <-. reflexivity.
    + rewrite Ho in H. injection H as _ <-. reflexivity.
    + destruct Ho as [dg Ho]. rewrite Ho in H. injection H as _ <-. reflexivity.
    + rewrite Ho in H. injection H as _ <-. reflexivity.
  - intros Remote meta. apply AccountTraces.account_read_trace.
  - intros Remote meta. apply DepartmentTraces.department_delete_trace.
  - intros Remote meta. apply AccountTraces.account_delete_trace.
Qed.

(** An account found by name after a transport error, and a department
    deleted by name. *)
Lemma reads_and_deletes_witness :
  (exists l,
     [Accounts.GetAccountByID 42; Accounts.GetAccountByName "Engineering"]
     = ([] ++ l)%list
     /\ Forall fetchesAccount l)
  /\
  (exists l,
     [Departments.DeleteDepartmentByID "42";
      Departments.DeleteDepartmentByName "Engineering"] = ([] ++ l)%list
     /\ Forall deletesDepartment l).
Proof.
  split.
  - refine (proj1 (proj2 reads_only_fetch_and_deletes_only_delete) nat
              (APIClient (A.scripted [] None None (Some transport) None))
              (start engineering) []
              (mkSession _ 2%nat
                 [Accounts.GetAccountByID 42;
                  Accounts.GetAccountByName "Engineering"]) _).
    vm_compute. reflexivity.
  - refine (proj1 (proj2 (proj2 reads_only_fetch_and_deletes_only_delete)) nat
              (APIClient D.byNameOnly) (start engineering) []
              (mkSession _ 2%nat
                 [Departments.DeleteDepartmentByID "42";
                  Departments.DeleteDepartmentByName "Engineering"]) _).
    vm_compute. reflexivity.
Defined.

(** ** X7 *)

(** X7.  An account Read and an account Update never change the
    identifier in the state, however they end.  A department Read and a
    department Update always return, and leave the identifier as it was or
    empty. *)
Theorem identifier_after_read_and_update :
  (forall (Remote : Type) (meta : Meta Accounts.Call Accounts.Resp Remote)
          (s s' : Session Accounts.Call Remote) (diags : diag.Diagnostics),
      Accounts.ResourceJamfProAccountRead meta s = Returns diags s' ->
      Id (data s') = Id (data s))
  /\
  (forall (Remote : Type) (util : Accounts.TypeAssertion)
          (meta : Meta Accounts.Call Accounts.Resp Remote)
          (s s' : Session Accounts.Call Remote) (diags : diag.Diagnostics),
      Accounts.ResourceJamfProAccountUpdate meta s = Returns diags s' ->
      Id (data s') = Id (data s))
  /\
  (forall (Remote : Type) (meta : Meta Departments.Call Departments.Resp Remote)
          (s : Session Departments.Call Remote),
      exists diags s',
        Departments.ResourceJamfProDepartmentsRead meta s = Returns diags s'
        /\ (Id (data s') = Id (data s) \/ Id (data s') = ""))
  /\
  (forall (Remote : Type) (meta : Meta Departments.Call Departments.Resp Remote)
          (s : Session Departments.Call Remote),
      exists diags s',
        Departments.ResourceJamfProDepartmentsUpdate meta s = Returns diags s'
        /\ (Id (data s') = Id (data s) \/ Id (data s') = "")).
Proof.
  split; [|split; [|split]].
  - intros Remote meta s s' diags H.
    exact (AccountLemmas.account_read_keeps_id meta (Id (data s)) s diags s'
             eq_refl H).
  - intros Remote util meta s s' diags H.
    exact (AccountOutcomes.update_keeps_id meta (Id (data s)) s diags s' eq_refl H).
  - intros Remote meta s. apply DepartmentOutcomes.read_identifier.
  - intros Remote meta s. apply DepartmentOutcomes.update_identifier.
Qed.

(** An account read and updated on a healthy server keeps identifier
    [42]. *)
Lemma identifier_witness :
  let read :=
    Accounts.ResourceJamfProAccountRead (APIClient A.healthy) (start engineering) in
  let update :=
    Accounts.ResourceJamfProAccountUpdate (util := A.lenient) (APIClient A.healthy)
      (start engineering) in
  (Id ∘ data) <$> final read = Some "42"
  /\ (Id ∘ data) <$> final update = Some "42".
Proof.
  cbv zeta. split.
  - destruct (Accounts.ResourceJamfProAccountRead (APIClient A.healthy)
                (start engineering)) as [diags s'|] eqn:H;
      [|vm_compute in H; discriminate].
    cbn. f_equal.
    exact (proj1 identifier_after_read_and_update nat _ _ _ _ H).
  - destruct (Accounts.ResourceJamfProAccountUpdate (util := A.lenient)
                (APIClient A.healthy) (start engineering)) as [diags s'|] eqn:H;
      [|vm_compute in H; discriminate].
    cbn. f_equal.
    exact (proj1 (proj2 identifier_after_read_and_update) nat _ _ _ _ _ H).
Defined.

(** ** X8 *)

(** X8.  Reading the same account twice writes once: when an account Read
    has fetched an account and written it, a later Read that starts from
    the resource data the first one left and fetches the same account
    returns no diagnostic and leaves the resource data as they are,
    whatever the remote state and the calls made in between. *)
Theorem account_read_is_idempotent
  {Remote : Type} (conn conn' : Client Accounts.Call Accounts.Resp Remote)
  (s s1 s2 t t1 : Session Accounts.Call Remote)
  (account : Accounts.ResourceAccount) (diags : diag.Diagnostics) :
  retry.RetryContext (TimeoutRead (timeouts (data s)))
    (Accounts.readAttempt conn) None s = Returns (Some account, None) s1 ->
  Accounts.ResourceJamfProAccountRead (APIClient conn) s = Returns diags s2 ->
  data t = data s2 ->
  retry.RetryContext (TimeoutRead (timeouts (data t)))
    (Accounts.readAttempt conn') None t = Returns (Some account, None) t1 ->
  Accounts.ResourceJamfProAccountRead (APIClient conn') t
  = Returns [] (mkSession (data s2) (remote t1) (calls t1)).
Proof.
  intros H1 Hr Ht H2.
  destruct (AccountWritesTwice.read_after_loop conn s _ s1 H1) as [Hd1 Hw1].
  destruct (AccountWritesTwice.read_after_loop conn' t _ t1 H2) as [Hd2 Hw2].
  rewrite Hw1 in Hr. rewrite Hw2.
  destruct (AccountLemmas.writeAccount_returns account s1) as (d & Hd & _).
  rewrite Hd in Hr. injection Hr as <- <-.
  rewrite (AccountWritesTwice.writeAccount_again account s1 _ t1 Hd)
    by (rewrite Hd2, Ht; reflexivity).
  destruct t1 as [dt rt ct]. cbn [data remote calls] in *.
  rewrite Hd2, Ht. reflexivity.
Qed.

(** The account on the server, read twice. *)
Lemma account_read_is_idempotent_witness :
  exists s2,
    Accounts.ResourceJamfProAccountRead (APIClient A.healthy) (start engineering)
    = Returns [] s2
    /\ Accounts.ResourceJamfProAccountRead (APIClient A.healthy) s2
       = Returns []
           (mkSession (data s2) 2%nat
              [Accounts.GetAccountByID 42; Accounts.GetAccountByID 42]).
Proof.
  pose (s0 := start engineering : Session Accounts.Call nat).
  pose (s1 := mkSession engineering 1%nat [Accounts.GetAccountByID 42]).
  assert (H1 : retry.RetryContext (TimeoutRead (timeouts (data s0)))
                 (Accounts.readAttempt A.healthy) None s0
               = Returns (Some A.onServer, None) s1)
    by (vm_compute; reflexivity).
  destruct (AccountWritesTwice.read_after_loop A.healthy _ _ _ H1) as [_ Hw].
  destruct (AccountLemmas.writeAccount_returns A.onServer s1)
    as (d' & Hd & Hid & Htm & _).
  rewrite Hd in Hw. cbn [s1 remote calls data] in Hw, Hid, Htm.
  exists (mkSession d' 1%nat [Accounts.GetAccountByID 42]). split; [exact Hw|].
  refine (account_read_is_idempotent A.healthy A.healthy s0 s1
            _ (mkSession d' 1%nat [Accounts.GetAccountByID 42])
            (mkSession d' 2%nat
               [Accounts.GetAccountByID 42; Accounts.GetAccountByID 42])
            A.onServer [] H1 Hw eq_refl _).
  cbn [data]. rewrite Htm. unfold retry.RetryContext. cbn [TimeoutRead engineering].
  apply attempts_success. unfold Accounts.readAttempt. cbn [bind getId data].
  rewrite Hid. reflexivity.
Defined.

(** ** X9 *)

(** X9.  An account Read changes no attribute outside the nineteen it
    writes: every other attribute, [email_address] among them, is after the
    Read what it was before, however the Read ends. *)
Theorem account_read_leaves_other_attributes
  {Remote : Type} (meta : Meta Accounts.Call Accounts.Resp Remote)
  (s s' : Session Accounts.Call Remote) (diags : diag.Diagnostics) (k : string) :
  Accounts.ResourceJamfProAccountRead meta s = Returns diags s' ->
  k ∉ accountAttributes ->
  attrs (data s') !! k = attrs (data s) !! k.
Proof.
  intros H Hk. destruct meta as [conn|]; [|injection H as _ <-; reflexivity].
  destruct (retry.RetryContext (TimeoutRead (timeouts (data s)))
              (Accounts.readAttempt conn) None s) as [x s1|] eqn:Hl.
  - destruct (AccountWritesTwice.read_after_loop conn s x s1 Hl) as [Hd Hw].
    rewrite Hw in H. destruct x as [[account|] [e|]].
    + destruct (AccountLemmas.diagnostics_of_error e "read" s1) as [dg Hdg].
      rewrite Hdg in H. injection H as _ <-. rewrite Hd. reflexivity.
    + destruct (AccountWritesTwice.writeAccount_others account s1) as (d' & Hr & Ho).
      rewrite Hr in H. injection H as _ <-. cbn [data]. rewrite (Ho k Hk), Hd.
      reflexivity.
    + destruct (AccountLemmas.diagnostics_of_error e "read" s1) as [dg Hdg].
      rewrite Hdg in H. injection H as _ <-. rewrite Hd. reflexivity.
    + discriminate.
  - unfold Accounts.ResourceJamfProAccountRead in H. cbn [bind Timeout] in H.
    unfold bind in H. rewrite Hl in H. discriminate.
Qed.

(** The state holds an e-mail address the server does not return: it is
    still there after the Read. *)
Lemma account_read_leaves_other_attributes_witness :
  let d :=
    mkResourceData "42"
      (<[ "email_address" := VString "old@example.com" ]>
         {[ "name" := VString "Engineering" ]}) seconds30 nameLength in
  (fun s => attrs (data s) !! "email_address")
    <$> final (Accounts.ResourceJamfProAccountRead (APIClient A.healthy) (start d))
  = Some (Some (VString "old@example.com")).
Proof.
  intros d.
  destruct (Accounts.ResourceJamfProAccountRead (APIClient A.healthy) (start d))
    as [diags s'|] eqn:H; [|vm_compute in H; discriminate].
  cbn [final fmap option_fmap option_map]. f_equal.
  rewrite (account_read_leaves_other_attributes _ _ _ _ "email_address" H).
  - reflexivity.
  - unfold accountAttributes. intros Hin.
    repeat (apply elem_of_cons in Hin; destruct Hin as [Hin|Hin]; [discriminate|]).
    apply elem_of_nil in Hin. exact Hin.
Defined.

(** ** X10 *)

(** X10.  When the constructor builds the account, the create timeout and
    the read timeout each leave room for an attempt, the remote create
    succeeds with an identifier in the range of an [int] and the account
    is then fetched under that identifier, the account Create returns no
    diagnostic after exactly three calls (the listing, the create, the
    fetch by the new identifier).  The state then has the new identifier in
    decimal and holds the fields of the fetched account other than its
    [ID], its [EmailAddress] and its [Password], the groups as a set; the
    password is that of the fetched account when the configuration has a
    non-empty one and is left as it was otherwise, and the [email_address]
    attribute is left as it was. *)
Theorem account_create_reads_back_the_created_identifier
  {Remote : Type} {util : Accounts.TypeAssertion}
  (conn : Client Accounts.Call Accounts.Resp Remote)
  (s s1 : Session Accounts.Call Remote)
  (account fetched : Accounts.ResourceAccount)
  (created : Accounts.ResponseAccountCreatedAndUpdated)
  (w2 w3 : Remote) (n k : nat) :
  Accounts.constructJamfProAccount conn s = Returns (inl account) s1 ->
  TimeoutCreate (timeouts (data s)) = S n ->
  TimeoutRead (timeouts (data s)) = S k ->
  conn (Accounts.CreateAccount account) (remote s1) = ((Some created, None), w2) ->
  strconv.intMin <= Accounts.Created_ID created <= strconv.intMax ->
  conn (Accounts.GetAccountByID (Accounts.Created_ID created)) w2
  = ((Some fetched, None), w3) ->
  exists d',
    Accounts.ResourceJamfProAccountCreate (APIClient conn) s
    = Returns []
        (mkSession d' w3
           (calls s ++ [Accounts.GetAccounts; Accounts.CreateAccount account;
                        Accounts.GetAccountByID (Accounts.Created_ID created)]))
    /\ Id d' = strconv.Itoa (Accounts.Created_ID created)
    /\ setFunc d' = setFunc (data s)
    /\ holdsAccount fetched d'
    /\ attrs d' !! "password"
       = (if isZero (readAttr Accounts.resourceSchema "password" (data s))
          then attrs (data s) !! "password"
          else Some (VString (Accounts.Password fetched)))
    /\ attrs d' !! "email_address" = attrs (data s) !! "email_address".
Proof.
  intros Hk Hc Hr Hcreate Hrange Hfetch.
  pose proof (AccountLemmas.account_construct_calls conn s _ s1 Hk) as Hs1.
  assert (Hd : data s1 = data s) by (rewrite Hs1; reflexivity).
  assert (Hl : calls s1 = (calls s ++ [Accounts.GetAccounts])%list)
    by (rewrite Hs1; reflexivity).
  assert (Ha : Accounts.createAttempt conn None s
               = Returns (Some created, None)
                   (mkSession (data s) w2
                      (calls s1 ++ [Accounts.CreateAccount account]))).
  { unfold Accounts.createAttempt. run Hk.
    run (call_returns conn _ s1 _ _ Hcreate). rewrite Hd. reflexivity. }
  pose (s3 := mkSession (withId (strconv.Itoa (Accounts.Created_ID created)) (data s))
                w2 (calls s1 ++ [Accounts.CreateAccount account])).
  destruct (AccountReadBack.readback_by_id conn s3 (Accounts.Created_ID created)
              fetched w3 k "failed to read the created resource"
              (StrconvLemmas.Atoi_Itoa _ Hrange) Hr Hfetch)
    as (d' & Hb & Hinto).
  exists d'. split; [|exact Hinto].
  unfold Accounts.ResourceJamfProAccountCreate. cbn [bind Timeout]. rewrite Hc.
  unfold retry.RetryContext at 1. run (attempts_success _ n _ None _ _ _ Ha).
  cbn [must bind ret].
  erewrite bind_returns; [|reflexivity]. erewrite bind_returns; [|reflexivity].
  unfold s3 in Hb. cbn [data remote calls] in Hb |- *. run Hb.
  cbn [snd ret data remote calls]. rewrite Hl, <- !app_assoc. reflexivity.
Qed.

(** The configured account is created under [42] and read back. *)
Lemma account_create_reads_back_witness :
  exists d',
    Accounts.ResourceJamfProAccountCreate (util := A.lenient)
      (APIClient (A.scripted [A.admins 7; A.auditors 8] None None None None))
      (start A.configured)
    = Returns []
        (mkSession d' 3%nat
           [Accounts.GetAccounts; Accounts.CreateAccount (A.configuredAccount 7);
            Accounts.GetAccountByID 42])
    /\ Id d' = "42"
    /\ setFunc d' = nameLength
    /\ holdsAccount A.onServer d'
    /\ attrs d' !! "password" = None
    /\ attrs d' !! "email_address" = None.
Proof.
  refine (account_create_reads_back_the_created_identifier (util := A.lenient)
            (A.scripted [A.admins 7; A.auditors 8] None None None None)
            (start A.configured)
            (mkSession A.configured 1%nat [Accounts.GetAccounts])
            (A.configuredAccount 7) A.onServer (Accounts.mkCreated 42)
            2%nat 3%nat 2%nat 2%nat _ eq_refl eq_refl eq_refl _ eq_refl).
  - vm_compute. reflexivity.
  - vm_compute. split; discriminate.
Defined.

(** ** X11 *)

(** X11.  When the account constructor succeeds, the listing call has
    returned a listing without error, and the groups of the account are
    built one for one, in order, from the items that [List()] gives for
    the configured set of group blocks: when the configuration holds the
    blocks [blocks], these are the items of the set built from them, one
    for each hash code and in the order of the codes, not the blocks in
    the order of the configuration.  Each group has the name of its item
    and the identifier the listing holds under that name, and neither site
    nor privileges. *)
Theorem account_constructor_takes_group_ids_from_listing
  {Remote : Type} {util : Accounts.TypeAssertion}
  (conn : Client Accounts.Call Accounts.Resp Remote)
  (s s1 : Session Accounts.Call Remote) (account : Accounts.ResourceAccount) :
  Accounts.constructJamfProAccount conn s = Returns (inl account) s1 ->
  exists items all,
    readAttr Accounts.resourceSchema "groups" (data s) = VList items
    /\ (forall blocks,
          attrs (data s) !! "groups" = Some (VList blocks) ->
          conforms (TypeSet Accounts.groupResource) (VList blocks) = true ->
          items = setList (setFunc (data s) "groups") blocks)
    /\ fst (conn Accounts.GetAccounts (remote s)) = (Some all, None)
    /\ Forall2
         (builtFrom (Accounts.groupNameToID (Accounts.AccountsList_Groups all)))
         items (Accounts.Groups account).
Proof.
  intros H. destruct (AccountGroups.construct_groups conn s _ s1 H)
    as (items & Hi & all & Hl & Hb).
  exists items, all. split; [exact Hi|]. split; [|auto].
  intros blocks Hblocks Hconf. unfold readAttr in Hi.
  replace (assoc "groups" Accounts.resourceSchema)
    with (Some (TypeSet Accounts.groupResource)) in Hi by reflexivity.
  rewrite Hblocks, Hconf in Hi. cbn [asStored] in Hi. congruence.
Qed.

(** The configuration names [auditors], [admins] and [admins] again; the
    groups built are [admins] and [auditors], in the order of their
    codes. *)
Lemma account_constructor_group_witness :
  exists items all,
    readAttr Accounts.resourceSchema "groups" A.configured = VList items
    /\ (forall blocks,
          attrs A.configured !! "groups" = Some (VList blocks) ->
          conforms (TypeSet Accounts.groupResource) (VList blocks) = true ->
          items = setList (nameLength "groups") blocks)
    /\ fst (A.scripted [A.admins 7; A.auditors 8] None None None None
              Accounts.GetAccounts O)
       = (Some all, None)
    /\ Forall2
         (builtFrom (Accounts.groupNameToID (Accounts.AccountsList_Groups all)))
         items [A.admins 7; A.auditors 8].
Proof.
  refine (account_constructor_takes_group_ids_from_listing (util := A.lenient)
            (A.scripted [A.admins 7; A.auditors 8] None None None None)
            (start A.configured)
            (mkSession A.configured 1%nat [Accounts.GetAccounts])
            (A.configuredAccount 7) _).
  vm_compute. reflexivity.
Defined.

(** ** X12 *)

(** X12.  When the listing call succeeds and the account constructor
    fails, the error is that a group name does not exist, for a name that
    a configured group block carries and that no listed group has. *)
Theorem account_constructor_refuses_unlisted_group
  {Remote : Type} {util : Accounts.TypeAssertion}
  (conn : Client Accounts.Call Accounts.Resp Remote)
  (s s1 : Session Accounts.Call Remote) (e : error)
  (all : Accounts.ResponseAccountsList) :
  Accounts.constructJamfProAccount conn s = Returns (inr e) s1 ->
  fst (conn Accounts.GetAccounts (remote s)) = (Some all, None) ->
  exists n items,
    readAttr Accounts.resourceSchema "groups" (data s) = VList items
    /\ e = Errorf ("group name " +:+ n +:+ " does not exist")
    /\ Exists (namesGroup n) items
    /\ Forall (fun g => Accounts.Group_Name g <> n) (Accounts.AccountsList_Groups all).
Proof.
  intros H Hl. destruct (AccountGroups.construct_groups conn s _ s1 H)
    as (items & Hi & [(a & Ha)|(all' & n & Hl' & He & Hn & Hex)]).
  - rewrite Hl in Ha. discriminate.
  - rewrite Hl in Hl'. injection Hl' as <-.
    exists n, items. repeat split; auto.
    apply AccountGroups.groupNameToID_unlisted. exact Hn.
Qed.

(** The configured group [admins] is not among the listed groups. *)
Lemma account_constructor_unlisted_witness :
  exists n items,
    readAttr Accounts.resourceSchema "groups" A.withGroup = VList items
    /\ Errorf "group name admins does not exist"
       = Errorf ("group name " +:+ n +:+ " does not exist")
    /\ Exists (namesGroup n) items
    /\ Forall (fun g => Accounts.Group_Name g <> n) [].
Proof.
  refine (account_constructor_refuses_unlisted_group (util := A.lenient)
            A.healthy (start A.withGroup)
            (mkSession A.withGroup 1%nat [Accounts.GetAccounts])
            (Errorf "group name admins does not exist")
            (Accounts.mkAccountsList []) _ eq_refl).
  vm_compute. reflexivity.
Defined.

(** ** X13 *)

(** X13.  When the listing names a group more than once, the constructor
    takes the identifier of the last one: every group it builds under that
    name has the identifier of the last listed group of that name. *)
Theorem account_constructor_takes_last_listed_identifier
  {Remote : Type} {util : Accounts.TypeAssertion}
  (conn : Client Accounts.Call Accounts.Resp Remote)
  (s s1 : Session Accounts.Call Remote) (account : Accounts.ResourceAccount)
  (before after : list Accounts.AccountsListSubsetGroups)
  (g : Accounts.AccountsListSubsetGroups) :
  Accounts.constructJamfProAccount conn s = Returns (inl account) s1 ->
  fst (conn Accounts.GetAccounts (remote s))
  = (Some (Accounts.mkAccountsList (before ++ g :: after)), None) ->
  Forall (fun g' => Accounts.Group_Name g' <> Accounts.Group_Name g) after ->
  Forall (fun built =>
            Accounts.Group_Name built = Accounts.Group_Name g ->
            Accounts.Group_ID built = Accounts.Group_ID g)
    (Accounts.Groups account).
Proof.
  intros H Hl Hafter. destruct (AccountGroups.construct_groups conn s _ s1 H)
    as (items & Hi & all & Hl' & Hb).
  rewrite Hl in Hl'. injection Hl' as <-. cbn [Accounts.AccountsList_Groups] in Hb.
  pose proof (AccountGroups.groupNameToID_last before g after Hafter) as Hg.
  clear Hi. induction Hb as [|item built items builts Hone _ IH]; [constructor|].
  constructor; [|exact IH].
  intros Hname. destruct Hone as (_ & Hid & _). rewrite Hname, Hg in Hid.
  injection Hid as <-. reflexivity.
Qed.

(** [admins] is listed under [7] and then under [9]: the group built has
    identifier [9]. *)
Lemma account_constructor_last_listed_witness :
  Forall (fun built =>
            Accounts.Group_Name built = "admins" -> Accounts.Group_ID built = 9)
    [A.admins 9].
Proof.
  refine (account_constructor_takes_last_listed_identifier (util := A.lenient)
            (A.scripted [A.admins 7; A.admins 9] None None None None)
            (start A.withGroup)
            (mkSession A.withGroup 1%nat [Accounts.GetAccounts])
            (Accounts.mkAccount 0 "Engineering" false "" "" "" ""
               Accounts.zeroLdapServer false "" "" "" Accounts.zeroSite
               [A.admins 9] Accounts.zeroPrivileges)
            [A.admins 7] [] (A.admins 9) _ eq_refl _).
  - vm_compute. reflexivity.
  - constructor.
Defined.

(** ** X14 *)

(** X14.  An account Read panics exactly when its retry loop ends with
    neither an error nor an account, which is when a fetch returns a nil
    account and a nil error: the fields of the nil account are read.  In
    every other case the Read returns. *)
Theorem account_read_panics_only_without_account_and_error
  {Remote : Type} (conn : Client Accounts.Call Accounts.Resp Remote)
  (s : Session Accounts.Call Remote) :
  Accounts.ResourceJamfProAccountRead (APIClient conn) s = Panics
  <-> exists s1,
        retry.RetryContext (TimeoutRead (timeouts (data s)))
          (Accounts.readAttempt conn) None s
        = Returns (None, None) s1.
Proof.
  destruct (retry.RetryContext (TimeoutRead (timeouts (data s)))
              (Accounts.readAttempt conn) None s) as [x s1|] eqn:H.
  - destruct (AccountWritesTwice.read_after_loop conn s x s1 H) as [_ Hr].
    rewrite Hr. destruct x as [[account|] [e|]].
    + split; [intros Hp; exfalso; exact (AccountOutcomes.diagnostics_total _ _ _ Hp)|].
      intros (t & [=]).
    + split; [intros Hp; exfalso; exact (AccountOutcomes.writeAccount_total _ _ Hp)|].
      intros (t & [=]).
    + split; [intros Hp; exfalso; exact (AccountOutcomes.diagnostics_total _ _ _ Hp)|].
      intros (t & [=]).
    + split; [eauto|reflexivity].
  - exfalso. revert H. apply total_attempts. apply AccountOutcomes.account_read_attempt_total.
Qed.

(** The fetch by identifier returns neither an account nor an error. *)
Lemma account_read_panics_witness :
  Accounts.ResourceJamfProAccountRead (APIClient emptyHanded) (start engineering)
  = Panics.
Proof.
  apply (proj2 (account_read_panics_only_without_account_and_error emptyHanded
                  (start engineering))).
  exists (mkSession engineering 1%nat [Accounts.GetAccountByID 42]).
  vm_compute. reflexivity.
Defined.

(** ** X15 *)

(** X15.  When the account constructor fails, a Create and an Update with
    room for one attempt stop after the listing call, without retrying and
    without a create or update call, whatever the kind of the error: they
    return one error diagnostic whose detail is the constructor's error
    behind a fixed prefix, and the resource data are unchanged. *)
Theorem account_construction_failure_ends_create_and_update
  {Remote : Type} {util : Accounts.TypeAssertion}
  (conn : Client Accounts.Call Accounts.Resp Remote)
  (s s1 : Session Accounts.Call Remote) (e : error) (n m : nat) :
  Accounts.constructJamfProAccount conn s = Returns (inr e) s1 ->
  TimeoutCreate (timeouts (data s)) = S n ->
  TimeoutUpdate (timeouts (data s)) = S m ->
  let name :=
    let v := readAttr Accounts.resourceSchema "name" (data s) in
    if isZero v then "unknown" else Accounts.formatName v in
  Accounts.ResourceJamfProAccountCreate (APIClient conn) s
  = Returns
      [ diag.mkDiagnostic diag.Error_
          ("Failed to create the resource with name: " +:+ name)
          ("failed to construct the account for terraform create: " +:+ Error e) ]
      s1
  /\ Accounts.ResourceJamfProAccountUpdate (APIClient conn) s
     = Returns
         [ diag.mkDiagnostic diag.Error_
             ("Failed to update the resource with name: " +:+ name)
             ("failed to construct the account for terraform update: " +:+ Error e) ]
         s1
  /\ data s1 = data s
  /\ calls s1 = (calls s ++ [Accounts.GetAccounts])%list.
Proof.
  intros Hk Hc Hu name.
  pose proof (AccountLemmas.account_construct_calls conn s _ s1 Hk) as Hs1.
  assert (Hd : data s1 = data s) by (rewrite Hs1; reflexivity).
  split; [|split; [|split; [exact Hd|rewrite Hs1; reflexivity]]].
  - assert (Ha : Accounts.createAttempt conn None s
                 = Returns (None, Some (retry.NonRetryableError (Errorf
                     ("failed to construct the account for terraform create: "
                      +:+ Error e)))) s1)
      by (unfold Accounts.createAttempt; run Hk; reflexivity).
    unfold Accounts.ResourceJamfProAccountCreate. cbn [bind Timeout]. rewrite Hc.
    unfold retry.RetryContext. run (attempts_nonretryable _ n _ None _ _ _ _ Ha).
    unfold Accounts.generateTFDiagsFromHTTPError. cbn [bind GetOk ret data].
    rewrite Hd. subst name. cbn zeta. destruct (isZero _); reflexivity.
  - assert (Ha : Accounts.updateAttempt conn tt s
                 = Returns (tt, Some (retry.NonRetryableError (Errorf
                     ("failed to construct the account for terraform update: "
                      +:+ Error e)))) s1)
      by (unfold Accounts.updateAttempt; run Hk; reflexivity).
    unfold Accounts.ResourceJamfProAccountUpdate. cbn [bind Timeout]. rewrite Hu.
    unfold retry.RetryContext. run (attempts_nonretryable _ m _ None _ _ _ _ Ha).
    cbn [snd]. unfold Accounts.generateTFDiagsFromHTTPError.
    cbn [bind GetOk ret data].
    rewrite Hd. subst name. cbn zeta. destruct (isZero _); reflexivity.
Qed.

(** The listing fails with a structured 404: one call, and the detail
    carries the text of the error behind the prefix. *)
Lemma account_construction_failure_witness :
  let conn := A.scripted [] (Some notFound) None None None in
  let s1 := mkSession planned 1%nat [Accounts.GetAccounts] in
  Accounts.ResourceJamfProAccountCreate (util := A.lenient) (APIClient conn)
    (start planned)
  = Returns
      [ diag.mkDiagnostic diag.Error_
          "Failed to create the resource with name: Engineering"
          "failed to construct the account for terraform create: 404 Not Found" ]
      s1
  /\ Accounts.ResourceJamfProAccountUpdate (util := A.lenient) (APIClient conn)
       (start planned)
     = Returns
         [ diag.mkDiagnostic diag.Error_
             "Failed to update the resource with name: Engineering"
             "failed to construct the account for terraform update: 404 Not Found" ]
         s1
  /\ data s1 = planned
  /\ calls s1 = [Accounts.GetAccounts].
Proof.
  intros conn s1.
  refine (account_construction_failure_ends_create_and_update (util := A.lenient)
            conn (start planned) s1 notFound 2%nat 2%nat _ eq_refl eq_refl).
  vm_compute. reflexivity.
Defined.

(** ** X16 *)

(** X16.  When the remote create returns a department and the read
    timeout leaves room for an attempt in which that department is fetched
    under the returned identifier, a department Create makes exactly these
    two calls and returns no diagnostic; the state then has the returned
    identifier, and as name the name of the fetched department, not the
    configured one. *)
Theorem department_create_stores_fetched_name
  {Remote : Type} (conn : Client Departments.Call Departments.Resp Remote)
  (s : Session Departments.Call Remote) (name : string)
  (created fetched : Departments.ResourceDepartment) (w1 w2 : Remote) (n : nat) :
  readAttr Departments.resourceSchema "name" (data s) = VString name ->
  conn (Departments.CreateDepartment (Departments.mkDepartment "" name)) (remote s)
  = ((Some created, None), w1) ->
  TimeoutRead (timeouts (data s)) = S n ->
  conn (Departments.GetDepartmentByID (Departments.ID created)) w1
  = ((Some fetched, None), w2) ->
  Departments.ResourceJamfProDepartmentsCreate (APIClient conn) s
  = Returns []
      (mkSession
         (withAttr "name" (VString (Departments.Name fetched))
            (withId (Departments.ID created) (data s)))
         w2
         (calls s ++ [Departments.CreateDepartment (Departments.mkDepartment "" name);
                      Departments.GetDepartmentByID (Departments.ID created)])).
Proof.
  intros Hn Hc Ht Hf.
  unfold Departments.ResourceJamfProDepartmentsCreate.
  cbn [bind Get ret must]. rewrite Hn. cbn [asString must bind ret].
  run (DepartmentLemmas.department_construct s name Hn).
  run (call_returns conn _ s _ _ Hc). cbn [must bind ret].
  erewrite bind_returns; [|reflexivity].
  pose (s2 := mkSession (withId (Departments.ID created) (data s)) w1
                (calls s ++ [Departments.CreateDepartment
                               (Departments.mkDepartment "" name)])).
  assert (Ha : Departments.readAttempt conn (Id (data s2)) None s2
               = Returns (Some fetched, None)
                   (mkSession (data s2) w2
                      (calls s2 ++ [Departments.GetDepartmentByID
                                      (Departments.ID created)]))).
  { unfold Departments.readAttempt.
    run (call_returns conn (Departments.GetDepartmentByID (Departments.ID created))
           s2 _ _ Hf).
    reflexivity. }
  assert (Hl : retry.RetryContext (TimeoutRead (timeouts (data s2)))
                 (Departments.readAttempt conn (Id (data s2))) None s2
               = Returns (Some fetched, None)
                   (mkSession (data s2) w2
                      (calls s2 ++ [Departments.GetDepartmentByID
                                      (Departments.ID created)]))).
  { cbn [s2 data timeouts withId]. rewrite Ht. unfold retry.RetryContext.
    apply attempts_success. exact Ha. }
  fold s2. run (DepartmentLemmas.department_read_success conn s2 fetched _ Hl).
  cbn [s2 ret append data remote calls withId Id]. rewrite <- app_assoc. reflexivity.
Qed.

(** The planned department is created under [42] and read back. *)
Lemma department_create_witness :
  Departments.ResourceJamfProDepartmentsCreate (APIClient D.healthy) (start planned)
  = Returns []
      (mkSession
         (withAttr "name" (VString "Engineering") (withId "42" planned))
         2%nat
         [Departments.CreateDepartment (Departments.mkDepartment "" "Engineering");
          Departments.GetDepartmentByID "42"]).
Proof.
  exact (department_create_stores_fetched_name D.healthy (start planned)
           "Engineering" (Departments.mkDepartment "42" "Engineering")
           (Departments.mkDepartment "42" "Engineering") 1%nat 2%nat 2%nat
           eq_refl eq_refl eq_refl eq_refl).
Defined.

(** ** X17 *)

(** X17.  When the constructor builds the account, the identifier parses,
    the update and read timeouts each leave room for an attempt, the
    update by identifier succeeds and the account is then fetched by
    identifier, the account Update returns no diagnostic after exactly
    three calls (the listing, the update, the fetch).  The state keeps its
    identifier and holds the fields of the fetched account, not those of
    the account that was sent, other than its [ID], its [EmailAddress] and
    its [Password], the groups as a set; the password is that of the
    fetched account when the state had a non-empty one and is left as it
    was otherwise, and the [email_address] attribute is left as it was. *)
Theorem account_update_stores_fetched_account
  {Remote : Type} {util : Accounts.TypeAssertion}
  (conn : Client Accounts.Call Accounts.Resp Remote)
  (s s1 : Session Accounts.Call Remote)
  (account fetched : Accounts.ResourceAccount)
  (u : option Accounts.ResponseAccountCreatedAndUpdated)
  (id : Z) (w2 w3 : Remote) (n k : nat) :
  Accounts.constructJamfProAccount conn s = Returns (inl account) s1 ->
  strconv.Atoi (Id (data s)) = inl id ->
  TimeoutUpdate (timeouts (data s)) = S n ->
  TimeoutRead (timeouts (data s)) = S k ->
  conn (Accounts.UpdateAccountByID id account) (remote s1) = ((u, None), w2) ->
  conn (Accounts.GetAccountByID id) w2 = ((Some fetched, None), w3) ->
  exists d',
    Accounts.ResourceJamfProAccountUpdate (APIClient conn) s
    = Returns []
        (mkSession d' w3
           (calls s ++ [Accounts.GetAccounts; Accounts.UpdateAccountByID id account;
                        Accounts.GetAccountByID id]))
    /\ Id d' = Id (data s)
    /\ setFunc d' = setFunc (data s)
    /\ holdsAccount fetched d'
    /\ attrs d' !! "password"
       = (if isZero (readAttr Accounts.resourceSchema "password" (data s))
          then attrs (data s) !! "password"
          else Some (VString (Accounts.Password fetched)))
    /\ attrs d' !! "email_address" = attrs (data s) !! "email_address".
Proof.
  intros Hk Hid Hu Hr Hupdate Hfetch.
  pose proof (AccountLemmas.account_construct_calls conn s _ s1 Hk) as Hs1.
  assert (Hl : calls s1 = (calls s ++ [Accounts.GetAccounts])%list)
    by (rewrite Hs1; reflexivity).
  pose proof (AccountAttempts.account_update_by_id conn s s1 account id u None w2
                Hk Hid Hupdate) as Ha.
  cbn iota in Ha.
  pose (s3 := mkSession (data s) w2
                (calls s1 ++ [Accounts.UpdateAccountByID id account])).
  destruct (AccountReadBack.readback_by_id conn s3 id fetched w3 k
              "failed to update the Terraform state for the updated resource"
              Hid Hr Hfetch)
    as (d' & Hb & Hinto).
  exists d'. split; [|exact Hinto].
  unfold Accounts.ResourceJamfProAccountUpdate. cbn [bind Timeout]. rewrite Hu.
  unfold retry.RetryContext at 1. run (attempts_success _ n _ None _ _ _ Ha).
  cbn [snd]. erewrite bind_returns; [|reflexivity].
  unfold s3 in Hb. cbn [data remote calls] in Hb |- *. run Hb.
  cbn [snd ret data remote calls]. rewrite Hl, <- !app_assoc. reflexivity.
Qed.

(** The account [42] is updated and read back: the state holds what the
    server returned, and keeps its e-mail address. *)
Lemma account_update_stores_fetched_witness :
  exists d',
    Accounts.ResourceJamfProAccountUpdate (util := A.lenient)
      (APIClient (A.scripted [A.admins 7; A.auditors 8] None None None None))
      (start A.created)
    = Returns []
        (mkSession d' 3%nat
           [Accounts.GetAccounts;
            Accounts.UpdateAccountByID 42 (A.configuredAccount 7);
            Accounts.GetAccountByID 42])
    /\ Id d' = "42"
    /\ setFunc d' = nameLength
    /\ holdsAccount A.onServer d'
    /\ attrs d' !! "password" = None
    /\ attrs d' !! "email_address" = Some (VString "old@example.com").
Proof.
  refine (account_update_stores_fetched_account (util := A.lenient)
            (A.scripted [A.admins 7; A.auditors 8] None None None None)
            (start A.created)
            (mkSession A.created 1%nat [Accounts.GetAccounts])
            (A.configuredAccount 7) A.onServer (Some (Accounts.mkCreated 42))
            42 2%nat 3%nat 2%nat 2%nat _ eq_refl eq_refl eq_refl eq_refl eq_refl).
  vm_compute. reflexivity.
Defined.

(** ** X18 *)

(** X18.  When the read timeout leaves room for an attempt and the fetch
    returns neither a department nor an error, a department Read makes
    that one call, clears the identifier and returns no diagnostic; the
    attributes are left as they were. *)
Theorem department_read_drops_absent_department
  {Remote : Type} (conn : Client Departments.Call Departments.Resp Remote)
  (s : Session Departments.Call Remote) (w : Remote) (n : nat) :
  TimeoutRead (timeouts (data s)) = S n ->
  conn (Departments.GetDepartmentByID (Id (data s))) (remote s) = ((None, None), w) ->
  Departments.ResourceJamfProDepartmentsRead (APIClient conn) s
  = Returns []
      (mkSession (withId "" (data s)) w
         (calls s ++ [Departments.GetDepartmentByID (Id (data s))])).
Proof.
  intros Ht Hc.
  assert (Ha : Departments.readAttempt conn (Id (data s)) None s
               = Returns (None, None)
                   (mkSession (data s) w
                      (calls s ++ [Departments.GetDepartmentByID (Id (data s))]))).
  { unfold Departments.readAttempt. run (call_returns conn _ s _ _ Hc).
    reflexivity. }
  unfold Departments.ResourceJamfProDepartmentsRead.
  cbn [bind getId Timeout]. rewrite Ht. unfold retry.RetryContext.
  run (attempts_success _ n _ None _ _ _ Ha). reflexivity.
Qed.

(** The server answers the fetch with nothing. *)
Lemma department_read_drops_absent_witness :
  Departments.ResourceJamfProDepartmentsRead (APIClient absent) (start engineering)
  = Returns []
      (mkSession (withId "" engineering) 1%nat [Departments.GetDepartmentByID "42"]).
Proof.
  exact (department_read_drops_absent_department absent (start engineering)
           1%nat 2%nat eq_refl eq_refl).
Defined.

(** ** X19 *)

(** X19.  A department Update that goes through by name after the update
    by identifier failed reads the department back by identifier.  When
    every fetch by that identifier fails, the Update ends with one
    diagnostic and an empty identifier, although the remote department
    was updated: the calls are the two updates and as many fetches as the
    read timeout has room for. *)
Theorem department_update_by_name_loses_identifier
  {Remote : Type} (conn : Client Departments.Call Departments.Resp Remote)
  (s : Session Departments.Call Remote) (name : string)
  (u u' : option Departments.ResourceDepartment) (e : error)
  (w1 w2 : Remote) (n : nat) :
  readAttr Departments.resourceSchema "name" (data s) = VString name ->
  TimeoutUpdate (timeouts (data s)) = S n ->
  conn (Departments.UpdateDepartmentByID (Id (data s))
          (Departments.mkDepartment "" name)) (remote s)
  = ((u, Some e), w1) ->
  conn (Departments.UpdateDepartmentByName name
          (Departments.mkDepartment "" name)) w1
  = ((u', None), w2) ->
  (forall w, exists department e' w',
      conn (Departments.GetDepartmentByID (Id (data s))) w
      = ((department, Some e'), w')) ->
  exists dg w,
    Departments.ResourceJamfProDepartmentsUpdate (APIClient conn) s
    = Returns [dg]
        (mkSession (withId "" (data s)) w
           (calls s
            ++ [Departments.UpdateDepartmentByID (Id (data s))
                  (Departments.mkDepartment "" name);
                Departments.UpdateDepartmentByName name
                  (Departments.mkDepartment "" name)]
            ++ replicate (TimeoutRead (timeouts (data s)))
                 (Departments.GetDepartmentByID (Id (data s))))).
Proof.
  intros Hn Ht Hid Hname Hfail.
  pose proof (DepartmentOutcomes.department_update_by_id conn s (Id (data s)) name
                (Departments.mkDepartment "" name) u e w1 Hid) as Ha.
  rewrite Hname in Ha. cbn [snd] in Ha.
  pose (s2 := mkSession (data s) w2
                (calls s
                 ++ [Departments.UpdateDepartmentByID (Id (data s))
                       (Departments.mkDepartment "" name);
                     Departments.UpdateDepartmentByName name
                       (Departments.mkDepartment "" name)])).
  destruct (DepartmentTraces.read_outcome conn s2) as (x & s3 & Hr & Hd & Ho).
  destruct (DepartmentTraces.read_attempts_all_fail conn (Id (data s)) Hfail
              _ _ _ _ _ _ Hr) as (Hc & e' & He).
  destruct x as [dep [e''|]]; [|discriminate].
  assert (Hread : exists dg,
             Departments.ResourceJamfProDepartmentsRead (APIClient conn) s2
             = Returns [dg] (mkSession (withId "" (data s)) (remote s3) (calls s3))).
  { destruct dep as [dep|]; destruct Ho as [dg Ho]; exists dg; rewrite Ho;
      reflexivity. }
  destruct Hread as [dg Hread]. exists dg, (remote s3).
  unfold Departments.ResourceJamfProDepartmentsUpdate.
  cbn [bind getId Get ret must]. rewrite Hn. cbn [asString must bind ret].
  run (DepartmentLemmas.department_construct s name Hn).
  cbn [bind Timeout]. rewrite Ht. unfold retry.RetryContext.
  run (attempts_success _ n _ None _ _ _ Ha). cbn [snd].
  fold s2. run Hread. cbn [ret append]. rewrite Hc.
  cbn [s2 calls data Id timeouts]. rewrite <- app_assoc. reflexivity.
Qed.

(** The server knows the department by name only. *)
Lemma department_update_by_name_witness :
  exists dg w,
    Departments.ResourceJamfProDepartmentsUpdate (APIClient D.byNameOnly)
      (start engineering)
    = Returns [dg]
        (mkSession (withId "" engineering) w
           ([Departments.UpdateDepartmentByID "42"
               (Departments.mkDepartment "" "Engineering");
             Departments.UpdateDepartmentByName "Engineering"
               (Departments.mkDepartment "" "Engineering")]
            ++ replicate 3 (Departments.GetDepartmentByID "42"))).
Proof.
  refine (department_update_by_name_loses_identifier D.byNameOnly
            (start engineering) "Engineering" None
            (Some (Departments.mkDepartment "42" "Engineering")) notFound
            1%nat 2%nat 2%nat eq_refl eq_refl eq_refl eq_refl _).
  intros w. exists None, notFound, (S w). reflexivity.
Defined.

(** ** X20 *)

(** X20.  The validators of [enabled], [access_level] and [privilege_set]
    never warn.  Each returns no error exactly when the string of the
    value is one of its listed values, compared letter for letter, and
    exactly one error otherwise. *)
Theorem account_validators_accept_exactly_the_listed_values
  (GetString : Value -> string) (val : Value) (key : string) :
  let v := GetString val in
  let accepts (r : list string * list error) (allowed : list string) :=
    fst r = []
    /\ (In v allowed -> snd r = [])
    /\ (~ In v allowed -> exists e, snd r = [e]) in
  accepts (AccountValidators.validateEnabled GetString val key)
    [ "Enabled"; "Disabled" ]
  /\ accepts (AccountValidators.validateAccessLevel GetString val key)
       [ "Full Access"; "Site Access"; "Group Access" ]
  /\ accepts (AccountValidators.validatePrivilegeSet GetString val key)
       [ "Administrator"; "Auditor"; "Enrollment Only"; "Custom" ].
Proof.
  intros v accepts. subst accepts. cbn beta.
  unfold AccountValidators.validateEnabled, AccountValidators.validateAccessLevel,
    AccountValidators.validatePrivilegeSet, AccountValidators.validPrivileges.
  cbn [AccountValidators.validatePrivilegeLoop]. fold v. cbn zeta.
  repeat split.
  - destruct (_ || _); reflexivity.
  - intros Hin. cbn [In] in Hin.
    destruct Hin as [<-|[<-|[]]]; reflexivity.
  - intros Hout.
    destruct (String.eqb_spec v "Enabled") as [->|_];
      [exfalso; apply Hout; cbn; tauto|].
    destruct (String.eqb_spec v "Disabled") as [->|_];
      [exfalso; apply Hout; cbn; tauto|].
    cbn. eauto.
  - destruct (_ || _); reflexivity.
  - intros Hin. cbn [In] in Hin.
    destruct Hin as [<-|[<-|[<-|[]]]]; reflexivity.
  - intros Hout.
    destruct (String.eqb_spec v "Full Access") as [->|_];
      [exfalso; apply Hout; cbn; tauto|].
    destruct (String.eqb_spec v "Site Access") as [->|_];
      [exfalso; apply Hout; cbn; tauto|].
    destruct (String.eqb_spec v "Group Access") as [->|_];
      [exfalso; apply Hout; cbn; tauto|].
    cbn. eauto.
  - repeat (destruct (String.eqb _ _); [reflexivity|]). reflexivity.
  - intros Hin. cbn [In] in Hin.
    destruct Hin as [<-|[<-|[<-|[<-|[]]]]]; reflexivity.
  - intros Hout.
    destruct (String.eqb_spec v "Administrator") as [->|_];
      [exfalso; apply Hout; cbn; tauto|].
    destruct (String.eqb_spec v "Auditor") as [->|_];
      [exfalso; apply Hout; cbn; tauto|].
    destruct (String.eqb_spec v "Enrollment Only") as [->|_];
      [exfalso; apply Hout; cbn; tauto|].
    destruct (String.eqb_spec v "Custom") as [->|_];
      [exfalso; apply Hout; cbn; tauto|].
    cbn. eauto.
Qed.

(** The capitalised value is accepted, the lower-case one is not. *)
Lemma account_validators_witness :
  snd (AccountValidators.validateEnabled Accounts.formatName
         (VString "Enabled") "enabled") = []
  /\ exists e,
       snd (AccountValidators.validateEnabled Accounts.formatName
              (VString "enabled") "enabled") = [e].
Proof.
  split.
  - apply (proj1 (proj2 (proj1
             (account_validators_accept_exactly_the_listed_values
                Accounts.formatName (VString "Enabled") "enabled")))).
    left. reflexivity.
  - apply (proj2 (proj2 (proj1
             (account_validators_accept_exactly_the_listed_values
                Accounts.formatName (VString "enabled") "enabled")))).
    intros [H|[H|[]]]; discriminate.
Defined.

(** ** X21 *)

(** X21.  When the retry loop of an account Read has fetched the account,
    [d.Get] of [groups] gives afterwards the set that the Read stored: the
    entries of the fetched groups, one for each hash code and in the order
    of the codes, as built from the groups in their order.  Every item is
    the entry of a fetched group. *)
Theorem account_read_stores_groups_as_a_set
  {Remote : Type} (conn : Client Accounts.Call Accounts.Resp Remote)
  (s s1 : Session Accounts.Call Remote) (account : Accounts.ResourceAccount) :
  retry.RetryContext (TimeoutRead (timeouts (data s)))
    (Accounts.readAttempt conn) None s
  = Returns (Some account, None) s1 ->
  exists d' items,
    Accounts.ResourceJamfProAccountRead (APIClient conn) s
    = Returns [] (mkSession d' (remote s1) (calls s1))
    /\ readAttr Accounts.resourceSchema "groups" d' = VList items
    /\ items
       = setList (setFunc (data s) "groups") (groupEntry <$> Accounts.Groups account)
    /\ Forall (fun item => exists g, g ∈ Accounts.Groups account
                                     /\ item = groupEntry g) items.
Proof.
  intros H.
  destruct (AccountWritesTwice.read_after_loop conn s _ s1 H) as [Hd Hr].
  destruct (AccountLemmas.writeAccount_returns account s1)
    as (d' & Hw & _ & _ & Hh & _ & Hf & _).
  rewrite Hd in Hf. rewrite Hw in Hr.
  set (entries := groupEntry <$> Accounts.Groups account).
  assert (Hitems : Forall (fun item => exists g, g ∈ Accounts.Groups account
                                                 /\ item = groupEntry g)
                     (setList (setFunc (data s) "groups") entries)).
  { apply Forall_forall. intros item Hin. apply setList_items in Hin.
    apply list_elem_of_fmap in Hin. destruct Hin as (g & -> & Hg). eauto. }
  exists d', (setList (setFunc (data s) "groups") entries).
  split; [exact Hr|]. split; [|split; [reflexivity|exact Hitems]].
  destruct Hh as (_ & _ & _ & _ & _ & _ & _ & _ & _ & _ & Hg & _).
  unfold readAttr.
  replace (assoc "groups" Accounts.resourceSchema)
    with (Some (TypeSet Accounts.groupResource)) by reflexivity.
  rewrite Hg, Hf. fold entries.
  assert (Hc : conforms (TypeSet Accounts.groupResource)
                 (VList (setList (setFunc (data s) "groups") entries)) = true).
  { cbn [conforms]. apply forallb_forall. intros item Hin.
    apply list_elem_of_In in Hin.
    destruct (proj1 (Forall_forall _ _) Hitems item Hin) as (g & _ & ->).
    rewrite <- AccountLemmas.groupValue_groupEntry.
    apply AccountLemmas.conforms_groupValue. }
  rewrite Hc. cbn [asStored]. rewrite setList_again. reflexivity.
Qed.

(** The server returns [auditors], [admins] and [admins] again: the state
    gives [admins] and [auditors]. *)
Lemma account_read_stores_groups_witness :
  exists d' items,
    Accounts.ResourceJamfProAccountRead (APIClient A.grouped) (start A.created)
    = Returns [] (mkSession d' 1%nat [Accounts.GetAccountByID 42])
    /\ readAttr Accounts.resourceSchema "groups" d' = VList items
    /\ items = [groupEntry (A.admins 7); groupEntry (A.auditors 8)]
    /\ Forall (fun item => exists g, g ∈ [A.auditors 8; A.admins 7; A.admins 9]
                                     /\ item = groupEntry g) items.
Proof.
  refine (account_read_stores_groups_as_a_set A.grouped (start A.created)
            (mkSession A.created 1%nat [Accounts.GetAccountByID 42])
            A.withGroups _).
  vm_compute. reflexivity.
Defined.
